(** * USPTO ODP client: response-to-model mapping and error classification

    A shallow embedding of the Python sources
      - models/patent_transactions.py, models/foreign_priority.py,
        models/patent_assignment.py, models/patent_documents.py
      - controller/uspto_odp_client.py           (Union-returning client)
      - src/uspto_odp/controller/uspto_odp_client.py (exception-raising client)

    Python values decoded from JSON are an inductive type [pyval]; a Python
    exception is a value of [exn]; a computation that may raise is an
    [outcome].  Every [from_dict] keeps the left-to-right evaluation order of
    its keyword arguments, so the exception that surfaces is the one Python
    would surface.  Text is held as its UTF-8 bytes.  The functions of the
    standard library that the mappers call ([int], [date.fromisoformat],
    [datetime.fromisoformat]) are modelled as CPython 3.11 implements
    them. *)

From Stdlib Require Import String Ascii List ZArith Bool Lia.
Import ListNotations.

Local Open Scope list_scope.
Local Open Scope string_scope.
Set Warnings "-register-all".

(* ================================================================== *)
(** ** Python values *)

(** A float as [json.loads] can produce it: NaN, an infinity, or the finite
    dyadic rational [m * 2^e]. *)
Inductive pyfloat : Type :=
| FNan
| FInf (negative : bool)
| FFinite (m e : Z).

(** The JSON-like tree the mappers consume.  A [PDict] is an association
    list in insertion order; the first binding of a key is the live one. *)
Inductive pyval : Type :=
| PNone
| PBool (b : bool)
| PInt (z : Z)
| PFloat (f : pyfloat)
| PStr (s : string)
| PList (l : list pyval)
| PDict (d : list (string * pyval)).

Definition pydict : Type := list (string * pyval).

(** Builtin exceptions the modelled code can raise.  A message of the
    standard library that ends with a rendering of the offending argument
    (["Invalid isoformat string: '2024-5-1'"]) is kept to its fixed part,
    before the colon or the comma. *)
Inductive exn : Type :=
| KeyError (key : string)
| AttributeError (attr : string)
| TypeError
| ValueError (msg : string)
| OverflowError
| FileNotFoundError (msg : string)
| PermissionError (msg : string)
| OSError (msg : string)
| Exception (msg : string).

Inductive outcome (E A : Type) : Type :=
| Return (a : A)
| Raise (e : E).
Arguments Return {E A} a.
Arguments Raise {E A} e.

Definition bind {E A B} (c : outcome E A) (k : A -> outcome E B) : outcome E B :=
  match c with
  | Return a => k a
  | Raise e => Raise e
  end.

Notation "x <- c ;; k" := (bind c (fun x => k))
  (at level 61, c at next level, right associativity).

Fixpoint mapM {E A B} (f : A -> outcome E B) (xs : list A) : outcome E (list B) :=
  match xs with
  | [] => Return []
  | x :: rest =>
      y <- f x ;;
      ys <- mapM f rest ;;
      Return (y :: ys)
  end.

(** Rendering of the values whose [str()] is not modelled digit by digit
    (floats, lists, dicts); text, [None], booleans and integers are rendered
    by [py_str] below. *)
Class Renderer : Type := repr_other : pyval -> string.

(* ------------------------------------------------------------------ *)
(** *** Dictionaries, truthiness, iteration *)

Fixpoint dict_lookup (d : pydict) (k : string) : option pyval :=
  match d with
  | [] => None
  | (k', v) :: rest => if String.eqb k' k then Some v else dict_lookup rest k
  end.

(** [d.get(k, default)] on a dict. *)
Definition dict_get (d : pydict) (k : string) (default : pyval) : pyval :=
  match dict_lookup d k with
  | Some v => v
  | None => default
  end.

(** [table.get(k, default)] on a dict literal with integer keys. *)
Fixpoint int_dict_get (table : list (Z * string)) (k : Z) (default : string) : string :=
  match table with
  | [] => default
  | (k', v) :: rest => if Z.eqb k' k then v else int_dict_get rest k default
  end.

(** [data.get(k, default)]: only a dict has the method. *)
Definition py_get (data : pyval) (k : string) (default : pyval) : outcome exn pyval :=
  match data with
  | PDict d => Return (dict_get d k default)
  | _ => Raise (AttributeError "get")
  end.

(** [data[k]] with a string key. *)
Definition py_getitem (data : pyval) (k : string) : outcome exn pyval :=
  match data with
  | PDict d =>
      match dict_lookup d k with
      | Some v => Return v
      | None => Raise (KeyError k)
      end
  | _ => Raise TypeError
  end.

Definition py_truthy (v : pyval) : bool :=
  match v with
  | PNone => false
  | PBool b => b
  | PInt z => negb (Z.eqb z 0)
  | PFloat (FFinite m _) => negb (Z.eqb m 0)
  | PFloat _ => true
  | PStr s => negb (String.eqb s "")
  | PList l => match l with [] => false | _ => true end
  | PDict d => match d with [] => false | _ => true end
  end.

(** [a or b] *)
Definition py_or (a b : pyval) : pyval := if py_truthy a then a else b.

Fixpoint dict_keys (d : pydict) : list string :=
  match d with
  | [] => []
  | (k, _) :: rest => k :: filter (fun k' => negb (String.eqb k' k)) (dict_keys rest)
  end.

(** A byte [10xxxxxx], which continues a character of a UTF-8 text. *)
Definition is_continuation (c : ascii) : bool :=
  let n := nat_of_ascii c in (128 <=? n)%nat && (n <? 192)%nat.

(** The characters of a text: a byte with the continuation bytes that
    follow it. *)
Fixpoint str_chars (s : string) : list pyval :=
  match s with
  | EmptyString => []
  | String c rest =>
      let chars := str_chars rest in
      match rest with
      | String c' _ =>
          if is_continuation c' then
            match chars with
            | PStr tail :: others => PStr (String c tail) :: others
            | _ => PStr (String c EmptyString) :: chars
            end
          else PStr (String c EmptyString) :: chars
      | EmptyString => [PStr (String c EmptyString)]
      end
  end.

(** [for x in v]: lists yield their items, dicts their keys, strings their
    characters; nothing else is iterable. *)
Definition py_iter (v : pyval) : outcome exn (list pyval) :=
  match v with
  | PList l => Return l
  | PDict d => Return (map PStr (dict_keys d))
  | PStr s => Return (str_chars s)
  | _ => Raise TypeError
  end.

(** [[f(x) for x in v]] *)
Definition list_comp {B} (f : pyval -> outcome exn B) (v : pyval) : outcome exn (list B) :=
  xs <- py_iter v ;;
  mapM f xs.

(* ------------------------------------------------------------------ *)
(** *** Text: digits, [str.split], [str.replace], [str.join] *)

Definition is_digit (c : ascii) : bool :=
  let n := nat_of_ascii c in (48 <=? n)%nat && (n <=? 57)%nat.

Definition digit_of_ascii (c : ascii) : option Z :=
  if is_digit c then Some (Z.of_nat (nat_of_ascii c) - 48)%Z else None.

Definition digit_char (d : Z) : ascii := ascii_of_nat (48 + Z.to_nat d).

(** [s.split(sep)[0]] for a one-character separator: the text before the
    first occurrence of [sep], the whole text when there is none. *)
Fixpoint split_head (sep : ascii) (s : string) : string :=
  match s with
  | EmptyString => EmptyString
  | String c rest => if Ascii.eqb c sep then EmptyString else String c (split_head sep rest)
  end.

(** [s.replace(old, new)] for a one-character [old]. *)
Fixpoint replace_char (old : ascii) (new : string) (s : string) : string :=
  match s with
  | EmptyString => EmptyString
  | String c rest =>
      if Ascii.eqb c old then new ++ replace_char old new rest
      else String c (replace_char old new rest)
  end.

(** [sep.join(parts)] *)
Fixpoint join (sep : string) (parts : list string) : string :=
  match parts with
  | [] => ""
  | [p] => p
  | p :: rest => p ++ sep ++ join sep rest
  end.

(** Decimal rendering of an integer, as [str(int)] gives it. *)
Fixpoint pos_digits (fuel : nat) (n : Z) (acc : string) : string :=
  match fuel with
  | O => acc
  | S fuel' =>
      let acc' := String (digit_char (n mod 10)) acc in
      if (n <? 10)%Z then acc' else pos_digits fuel' (n / 10) acc'
  end.

Definition str_of_Z (z : Z) : string :=
  if (z <? 0)%Z then "-" ++ pos_digits (S (Z.to_nat (Z.log2 (- z)))) (- z) ""
  else pos_digits (S (Z.to_nat (Z.log2 z))) z "".

(** [str(v)], as an f-string placeholder renders [v]. *)
Definition py_str {R : Renderer} (v : pyval) : string :=
  match v with
  | PStr s => s
  | PNone => "None"
  | PBool true => "True"
  | PBool false => "False"
  | PInt z => str_of_Z z
  | _ => repr_other v
  end.

(* ------------------------------------------------------------------ *)
(** *** Partial parsers

    The library parsers below are written over [option]: [None] is the
    parser's failure code. *)

Definition obind {A B} (c : option A) (k : A -> option B) : option B :=
  match c with
  | Some a => k a
  | None => None
  end.

Notation "x <~ c ;; k" := (obind c (fun x => k))
  (at level 61, c at next level, right associativity).
Notation "' pat <~ c ;; k" := (obind c (fun x => match x with pat => k end))
  (at level 61, pat pattern, c at next level, right associativity).

(** Text is held as its UTF-8 bytes.  The C parsers of the library read it
    through a pointer into a NUL-terminated buffer: [peek] is [*p], which is
    NUL at the end of the text, and [advance] is [p + 1]. *)
Definition NUL : ascii := Ascii.zero.

Definition peek (p : string) : ascii :=
  match p with
  | String c _ => c
  | EmptyString => NUL
  end.

Definition advance (p : string) : string :=
  match p with
  | String _ rest => rest
  | EmptyString => EmptyString
  end.

(** [p + n] *)
Fixpoint skip (n : nat) (p : string) : string :=
  match n with
  | O => p
  | S n' => skip n' (advance p)
  end.

(** [parse_digits(p, &var, num_digits)]: exactly [num_digits] ASCII digits
    at [p], accumulated onto [acc]; the pointer after them. *)
Fixpoint parse_digits (num_digits : nat) (acc : Z) (p : string) : option (Z * string) :=
  match num_digits with
  | O => Some (acc, p)
  | S n =>
      match p with
      | String c rest =>
          d <~ digit_of_ascii c ;;
          parse_digits n (10 * acc + d)%Z rest
      | EmptyString => None
      end
  end.

(* ------------------------------------------------------------------ *)
(** *** [int(v)]

    As CPython 3.11 converts text ([PyLong_FromUnicodeObject], then
    [PyLong_FromString] with base 10): characters outside ASCII are first
    replaced, Unicode white space by a blank and a Unicode decimal digit by
    its ASCII digit; then blanks are skipped, an optional sign is read, then
    a run of digits in which single underscores may separate digits, then
    blanks up to the end.  More than 4300 digits are refused. *)

Definition byte (c : ascii) : Z := Z.of_nat (nat_of_ascii c).

(** Payload of a UTF-8 continuation byte [10xxxxxx]. *)
Definition continuation (c : ascii) : option Z :=
  let b := byte c in
  if ((128 <=? b) && (b <? 192))%Z then Some (b - 128)%Z else None.

(** The code points of a UTF-8 text; [None] for bytes that are not UTF-8
    (no Python [str] encodes to them). *)
Fixpoint code_points (s : string) : option (list Z) :=
  match s with
  | EmptyString => Some []
  | String c0 rest =>
      let b := byte c0 in
      if (b <? 128)%Z then
        cps <~ code_points rest ;; Some (b :: cps)
      else if (b <? 192)%Z then None
      else if (b <? 224)%Z then
        match rest with
        | String c1 r =>
            x1 <~ continuation c1 ;;
            cps <~ code_points r ;;
            Some (((b - 192) * 64 + x1)%Z :: cps)
        | _ => None
        end
      else if (b <? 240)%Z then
        match rest with
        | String c1 (String c2 r) =>
            x1 <~ continuation c1 ;;
            x2 <~ continuation c2 ;;
            cps <~ code_points r ;;
            Some ((((b - 224) * 64 + x1) * 64 + x2)%Z :: cps)
        | _ => None
        end
      else if (b <? 248)%Z then
        match rest with
        | String c1 (String c2 (String c3 r)) =>
            x1 <~ continuation c1 ;;
            x2 <~ continuation c2 ;;
            x3 <~ continuation c3 ;;
            cps <~ code_points r ;;
            Some (((((b - 240) * 64 + x1) * 64 + x2) * 64 + x3)%Z :: cps)
        | _ => None
        end
      else None
  end.

(** The code points of the digit zero in each script of Unicode 14 (the
    Unicode version of Python 3.11); the nine code points after each are
    the digits one to nine. *)
Definition decimal_zeros : list Z :=
  [ 1632; 1776; 1984; 2406; 2534; 2662; 2790; 2918; 3046; 3174; 3302; 3430;
    3558; 3664; 3792; 3872; 4160; 4240; 6112; 6160; 6470; 6608; 6784; 6800;
    6992; 7088; 7232; 7248; 42528; 43216; 43264; 43472; 43504; 43600; 44016;
    65296; 66720; 68912; 69734; 69872; 69942; 70096; 70384; 70736; 70864;
    71248; 71360; 71472; 71904; 72016; 72784; 73040; 73120; 92768; 92864;
    93008; 120782; 120792; 120802; 120812; 120822; 123200; 123632; 125264;
    130032 ]%Z.

(** White space outside ASCII. *)
Definition unicode_spaces : list Z :=
  [ 133; 160; 5760; 8192; 8193; 8194; 8195; 8196; 8197; 8198; 8199; 8200;
    8201; 8202; 8232; 8233; 8239; 8287; 12288 ]%Z.

Definition unicode_decimal (cp : Z) : option Z :=
  option_map (fun zero => cp - zero)%Z
    (find (fun zero => (zero <=? cp) && (cp <=? zero + 9))%Z decimal_zeros).

(** One character of [_PyUnicode_TransformDecimalAndSpaceToASCII]; [None]
    for a character that is neither white space nor a decimal digit. *)
Definition ascii_of_code_point (cp : Z) : option ascii :=
  if (cp <? 127)%Z then Some (ascii_of_nat (Z.to_nat cp))
  else if existsb (Z.eqb cp) unicode_spaces then Some " "%char
  else option_map digit_char (unicode_decimal cp).

(** [_PyUnicode_TransformDecimalAndSpaceToASCII]: at the first character
    it cannot replace the library writes a question mark and drops the
    rest. *)
Fixpoint ascii_text (cps : list Z) : string :=
  match cps with
  | [] => EmptyString
  | cp :: rest =>
      match ascii_of_code_point cp with
      | Some c => String c (ascii_text rest)
      | None => "?"
      end
  end.

(** [Py_ISSPACE]: blank, and tab to carriage return. *)
Definition is_space (c : ascii) : bool :=
  let n := nat_of_ascii c in
  ((9 <=? n)%nat && (n <=? 13)%nat) || (n =? 32)%nat.

(** What follows the blanks at the head of [s]. *)
Fixpoint skip_spaces (s : string) : string :=
  match s with
  | EmptyString => EmptyString
  | String c rest => if is_space c then skip_spaces rest else s
  end.

(** The run of digits and underscores at [s]: its value, the number of its
    digits, and what follows it.  [None] for two underscores in a row or an
    underscore at the end of the run. *)
Fixpoint scan_digits (acc : Z) (digits : nat) (prev_underscore : bool) (s : string)
    : option (Z * nat * string) :=
  match s with
  | EmptyString => if prev_underscore then None else Some (acc, digits, s)
  | String c rest =>
      match digit_of_ascii c with
      | Some d => scan_digits (10 * acc + d)%Z (S digits) false rest
      | None =>
          if Ascii.eqb c "_" then
            if prev_underscore then None else scan_digits acc digits true rest
          else if prev_underscore then None else Some (acc, digits, s)
      end
  end.

Definition max_str_digits : nat := 4300.

Inductive int_literal : Type :=
| Literal (z : Z)
| InvalidLiteral
| TooManyDigits.

(** [PyLong_FromString(s, &end, 10)] with the check that [end] is the end
    of the text. *)
Definition int_of_ascii_text (s : string) : int_literal :=
  let s := skip_spaces s in
  let '(sign, s) :=
    if Ascii.eqb (peek s) "+" then (1%Z, advance s)
    else if Ascii.eqb (peek s) "-" then ((-1)%Z, advance s)
    else (1%Z, s) in
  if Ascii.eqb (peek s) "_" then InvalidLiteral
  else
    match scan_digits 0 0 false s with
    | None => InvalidLiteral
    | Some (z, digits, rest) =>
        if (max_str_digits <? digits)%nat then TooManyDigits
        else if (digits =? 0)%nat then InvalidLiteral
        else
          match skip_spaces rest with
          | EmptyString => Literal (sign * z)
          | _ => InvalidLiteral
          end
    end.

Definition int_of_string (s : string) : int_literal :=
  match code_points s with
  | None => InvalidLiteral
  | Some cps => int_of_ascii_text (ascii_text cps)
  end.

(** [int(v)] for a value decoded from JSON. *)
Definition py_int (v : pyval) : outcome exn Z :=
  match v with
  | PInt z => Return z
  | PBool b => Return (if b then 1 else 0)%Z
  | PFloat FNan => Raise (ValueError "cannot convert float NaN to integer")
  | PFloat (FInf _) => Raise OverflowError
  | PFloat (FFinite m e) =>
      Return (if (0 <=? e)%Z then m * 2 ^ e else Z.quot m (2 ^ (- e)))%Z
  | PStr s =>
      match int_of_string s with
      | Literal z => Return z
      | InvalidLiteral => Raise (ValueError "invalid literal for int() with base 10")
      | TooManyDigits =>
          Raise (ValueError "Exceeds the limit (4300 digits) for integer string conversion")
      end
  | PNone | PList _ | PDict _ => Raise TypeError
  end.

(* ------------------------------------------------------------------ *)
(** *** [datetime.date] and [datetime.datetime]

    [fromisoformat] as CPython 3.11 implements it in C
    ([Modules/_datetimemodule.c]); each function below carries the name of
    the C function it follows.  A date is [YYYY-MM-DD], [YYYYMMDD] or an ISO
    week date [YYYY-Www[-d]], [YYYYWww[d]]; a timestamp is a date, one
    separator character, and [HH[:MM[:SS[.f+]]]] with an optional [Z] or
    [+HH[:MM[:SS[.f+]]]] offset, the colons being optional.  C integer
    division and remainder truncate ([Z.quot], [Z.rem]). *)

Record date : Type := mkdate { year : Z; month : Z; day : Z }.

Record datetime : Type := mkdatetime {
  dt_date : date;
  hour : Z;
  minute : Z;
  second : Z;
  microsecond : Z;
  (** [None] for a naive timestamp, else microseconds east of UTC *)
  utcoffset : option Z
}.

Definition is_leap (y : Z) : bool :=
  ((y mod 4 =? 0) && (negb (y mod 100 =? 0) || (y mod 400 =? 0)))%Z.

(** The tables are indexed from 1; entry 0 is unused and holds 0. *)
Definition _days_in_month : list Z :=
  [0; 31; 28; 31; 30; 31; 30; 31; 31; 30; 31; 30; 31]%Z.

Definition _days_before_month : list Z :=
  [0; 0; 31; 59; 90; 120; 151; 181; 212; 243; 273; 304; 334]%Z.

Definition days_in_month (y m : Z) : Z :=
  if ((m =? 2) && is_leap y)%Z then 29%Z
  else nth (Z.to_nat m) _days_in_month 0%Z.

Definition days_before_month (y m : Z) : Z :=
  (nth (Z.to_nat m) _days_before_month 0
   + (if (2 <? m) && is_leap y then 1 else 0))%Z.

Definition days_before_year (y : Z) : Z :=
  let y := (y - 1)%Z in
  (y * 365 + Z.quot y 4 - Z.quot y 100 + Z.quot y 400)%Z.

Definition DI4Y : Z := 1461.
Definition DI100Y : Z := 36524.
Definition DI400Y : Z := 146097.

Definition ymd_to_ord (y m d : Z) : Z :=
  (days_before_year y + days_before_month y m + d)%Z.

(** Day of the week, Monday being 0. *)
Definition weekday (y m d : Z) : Z := Z.rem (ymd_to_ord y m d + 6) 7.

Definition iso_week1_monday (y : Z) : Z :=
  let first_day := ymd_to_ord y 1 1 in
  let first_weekday := Z.rem (first_day + 6) 7 in
  let week1_monday := (first_day - first_weekday)%Z in
  if (3 <? first_weekday)%Z then (week1_monday + 7)%Z else week1_monday.

(** The date of the day number [ordinal], 0001-01-01 being day 1.  For a
    week of the year 0000 the ordinal is not positive and the month comes
    out below 1, which [check_date_args] then rejects. *)
Definition ord_to_ymd (ordinal : Z) : Z * Z * Z :=
  let ordinal := (ordinal - 1)%Z in
  let n400 := Z.quot ordinal DI400Y in
  let n := Z.rem ordinal DI400Y in
  let n100 := Z.quot n DI100Y in
  let n := Z.rem n DI100Y in
  let n4 := Z.quot n DI4Y in
  let n := Z.rem n DI4Y in
  let n1 := Z.quot n 365 in
  let n := Z.rem n 365 in
  let y := (n400 * 400 + 1 + n100 * 100 + n4 * 4 + n1)%Z in
  if ((n1 =? 4) || (n100 =? 4))%Z then ((y - 1)%Z, 12%Z, 31%Z)
  else
    let leapyear := ((n1 =? 3) && (negb (n4 =? 24) || (n100 =? 3)))%Z in
    let m := Z.shiftr (n + 50) 5 in
    let preceding :=
      (nth (Z.to_nat m) _days_before_month 0
       + (if (2 <? m) && leapyear then 1 else 0))%Z in
    if (n <? preceding)%Z then
      let m := (m - 1)%Z in
      let preceding := (preceding - days_in_month y m)%Z in
      (y, m, (n - preceding + 1)%Z)
    else (y, m, (n - preceding + 1)%Z).

(** Week 53 exists in the years that start on a Thursday, and in the leap
    years that start on a Wednesday. *)
Definition iso_to_ymd (iso_year iso_week iso_day : Z) : option (Z * Z * Z) :=
  let out_of_range :=
    if ((iso_week <=? 0) || (53 <=? iso_week))%Z then
      if (iso_week =? 53)%Z then
        let first_weekday := weekday iso_year 1 1 in
        negb ((first_weekday =? 3) || ((first_weekday =? 2) && is_leap iso_year))%Z
      else true
    else false in
  if out_of_range then None
  else if ((iso_day <=? 0) || (8 <=? iso_day))%Z then None
  else
    let day_1 := iso_week1_monday iso_year in
    let day_offset := ((iso_week - 1) * 7 + iso_day - 1)%Z in
    Some (ord_to_ymd (day_1 + day_offset)).

(** [parse_isoformat_date(dtstr, len, &year, &month, &day)]: the fields of
    the date at the head of [dtstr], not yet checked against the calendar;
    [len] tells a week date whether a day of the week follows the week. *)
Definition parse_isoformat_date (dtstr : string) (len : nat) : option (Z * Z * Z) :=
  '(y, p) <~ parse_digits 4 0 dtstr ;;
  let uses_separator := Ascii.eqb (peek p) "-" in
  let p := if uses_separator then advance p else p in
  if Ascii.eqb (peek p) "W" then
    '(iso_week, p) <~ parse_digits 2 0 (advance p) ;;
    if ((if uses_separator then 8 else 7) <? len)%nat then
      if uses_separator && negb (Ascii.eqb (peek p) "-") then None
      else
        let p := if uses_separator then advance p else p in
        '(iso_day, _) <~ parse_digits 1 0 p ;;
        iso_to_ymd y iso_week iso_day
    else iso_to_ymd y iso_week 1
  else
    '(m, p) <~ parse_digits 2 0 p ;;
    if uses_separator && negb (Ascii.eqb (peek p) "-") then None
    else
      let p := if uses_separator then advance p else p in
      '(d, _) <~ parse_digits 2 0 p ;;
      Some (y, m, d).

Definition invalid_isoformat : exn := ValueError "Invalid isoformat string".

Definition valid_date (y m d : Z) : bool :=
  ((1 <=? y) && (y <=? 9999) && (1 <=? m) && (m <=? 12)
   && (1 <=? d) && (d <=? days_in_month y m))%Z.

Definition valid_time (h mi s us : Z) : bool :=
  ((0 <=? h) && (h <=? 23) && (0 <=? mi) && (mi <=? 59)
   && (0 <=? s) && (s <=? 59) && (0 <=? us) && (us <=? 999999))%Z.

(** [check_date_args], as the constructor of a date calls it. *)
Definition check_date_args (y m d : Z) : outcome exn date :=
  if ((y <? 1) || (9999 <? y))%Z then
    Raise (ValueError ("year " ++ str_of_Z y ++ " is out of range"))
  else if ((m <? 1) || (12 <? m))%Z then
    Raise (ValueError "month must be in 1..12")
  else if ((d <? 1) || (days_in_month y m <? d))%Z then
    Raise (ValueError "day is out of range for month")
  else Return (mkdate y m d).

(** [check_time_args] *)
Definition check_time_args (h mi s us : Z) : outcome exn unit :=
  if ((h <? 0) || (23 <? h))%Z then Raise (ValueError "hour must be in 0..23")
  else if ((mi <? 0) || (59 <? mi))%Z then Raise (ValueError "minute must be in 0..59")
  else if ((s <? 0) || (59 <? s))%Z then Raise (ValueError "second must be in 0..59")
  else if ((us <? 0) || (999999 <? us))%Z then
    Raise (ValueError "microsecond must be in 0..999999")
  else Return tt.

(** [date.fromisoformat(v)] *)
Definition date_fromisoformat (v : pyval) : outcome exn date :=
  match v with
  | PStr s =>
      let len := String.length s in
      if ((len =? 7) || (len =? 8) || (len =? 10))%nat then
        match parse_isoformat_date s len with
        | Some (y, m, d) => check_date_args y m d
        | None => Raise invalid_isoformat
        end
      else Raise invalid_isoformat
  | _ => Raise TypeError
  end.

(** [dtstr[i]] *)
Definition char_at (i : nat) (dtstr : string) : ascii := peek (skip i dtstr).

(** Number of ASCII digits at the head of [p]. *)
Fixpoint count_digits (p : string) : nat :=
  match p with
  | String c rest => if is_digit c then S (count_digits rest) else O
  | EmptyString => O
  end.

(** [_find_isoformat_datetime_separator(dtstr, len)] for [len >= 7]: where
    the date ends, told from the characters at 4 and 5; [None] is the
    code -1. *)
Definition find_isoformat_datetime_separator (dtstr : string) (len : nat) : option nat :=
  if (len =? 7)%nat then Some 7%nat
  else if Ascii.eqb (char_at 4 dtstr) "-" then
    if Ascii.eqb (char_at 5 dtstr) "W" then
      if (len <? 8)%nat then None
      else if (8 <? len)%nat && Ascii.eqb (char_at 8 dtstr) "-" then
        if (len =? 9)%nat then None
        else if (10 <? len)%nat && is_digit (char_at 10 dtstr) then Some 8%nat
        else Some 10%nat
      else Some 8%nat
    else Some 10%nat
  else if Ascii.eqb (char_at 4 dtstr) "W" then
    let idx := (7 + count_digits (skip 7 dtstr))%nat in
    if (idx <? 9)%nat then Some idx
    else if Nat.even idx then Some 7%nat
    else Some 8%nat
  else Some 8%nat.

(** State of [parse_hh_mm_ss_ff] after its loop over hours, minutes and
    seconds: it has returned ([HmsDone], with the flag telling that the
    character it stopped at is not NUL), or goes on to the fraction at [p],
    [left] characters before [p_end]. *)
Inductive hms_state : Type :=
| HmsDone (not_at_nul : bool)
| HmsFraction (p : string) (left : nat).

(** The loop [for (i = 0; i < 3; ++i)] of [parse_hh_mm_ss_ff], [todo]
    rounds from [p] with [left] characters before [p_end]; [first] marks
    the round [i == 0], which decides whether colons are in use. *)
Fixpoint parse_hms (todo : nat) (first has_separator : bool) (p : string) (left : nat)
    : option (list Z * hms_state) :=
  match todo with
  | O => Some ([], HmsFraction p left)
  | S todo' =>
      '(v, p1) <~ parse_digits 2 0 p ;;
      let c := peek p1 in
      let has_separator := if first then Ascii.eqb c ":" else has_separator in
      if (left <=? 3)%nat then
        Some ([v], HmsDone (negb (Ascii.eqb c NUL)))
      else if has_separator && Ascii.eqb c ":" then
        '(vs, st) <~ parse_hms todo' false has_separator (advance p1) (left - 3) ;;
        Some (v :: vs, st)
      else if Ascii.eqb c "." || Ascii.eqb c "," then
        Some ([v], HmsFraction (advance p1) (left - 3))
      else if negb has_separator then
        '(vs, st) <~ parse_hms todo' false has_separator p1 (left - 2) ;;
        Some (v :: vs, st)
      else None
  end.

Definition correction : list Z := [100000; 10000; 1000; 100; 10]%Z.

(** [parse_hh_mm_ss_ff(tstr, tstr_end, ...)], [left] being
    [tstr_end - tstr]: hour, minute, second, microsecond, and whether the
    parser stopped at a character other than NUL.  Digits of the fraction
    after the sixth are skipped. *)
Definition parse_hh_mm_ss_ff (tstr : string) (left : nat)
    : option (Z * Z * Z * Z * bool) :=
  '(vals, st) <~ parse_hms 3 true true tstr left ;;
  let h := nth 0 vals 0%Z in
  let mi := nth 1 vals 0%Z in
  let sec := nth 2 vals 0%Z in
  match st with
  | HmsDone not_at_nul => Some (h, mi, sec, 0%Z, not_at_nul)
  | HmsFraction p len_remains =>
      let to_parse := Nat.min len_remains 6 in
      '(us, p) <~ parse_digits to_parse 0 p ;;
      let us :=
        if (to_parse <? 6)%nat then (us * nth (to_parse - 1) correction 0)%Z
        else us in
      let p := skip (count_digits p) p in
      Some (h, mi, sec, us, negb (Ascii.eqb (peek p) NUL))
  end.

Definition is_tz_marker (c : ascii) : bool :=
  Ascii.eqb c "Z" || Ascii.eqb c "+" || Ascii.eqb c "-".

(** Number of characters before the first [Z], [+] or [-] of [p], its
    length when there is none. *)
Fixpoint find_tz (p : string) : nat :=
  match p with
  | EmptyString => O
  | String c rest => if is_tz_marker c then O else S (find_tz rest)
  end.

(** [parse_isoformat_time(p, len, ...)]: the time of day and, when an
    offset is given, its whole seconds and its microseconds, both signed.
    What stands between the fraction and the offset is not looked at. *)
Definition parse_isoformat_time (p : string)
    : option (Z * Z * Z * Z * option (Z * Z)) :=
  let len := String.length p in
  if (len =? 0)%nat then None
  else
    let tzinfo_pos := find_tz p in
    '(h, mi, sec, us, not_at_nul) <~ parse_hh_mm_ss_ff p tzinfo_pos ;;
    if (tzinfo_pos =? len)%nat then
      if not_at_nul then None else Some (h, mi, sec, us, None)
    else
      let tz := skip tzinfo_pos p in
      if Ascii.eqb (peek tz) "Z" then
        if Ascii.eqb (peek (advance tz)) NUL then Some (h, mi, sec, us, Some (0, 0)%Z)
        else None
      else
        let tzsign := if Ascii.eqb (peek tz) "-" then (-1)%Z else 1%Z in
        '(tzh, tzm, tzs, tzus, not_at_nul) <~
           parse_hh_mm_ss_ff (advance tz) (len - tzinfo_pos - 1) ;;
        if not_at_nul then None
        else Some (h, mi, sec, us,
                   Some (tzsign * (tzh * 3600 + tzm * 60 + tzs), tzsign * tzus)%Z).

Definition day_microseconds : Z := 86400000000.

(** [tzinfo_from_isoformat_results]: an offset of zero whole seconds is
    UTC; any other must lie strictly within a day of it. *)
Definition tzinfo_from_isoformat_results (tz : option (Z * Z)) : outcome exn (option Z) :=
  match tz with
  | None => Return None
  | Some (tzoffset, tzusec) =>
      if (tzoffset =? 0)%Z then Return (Some 0%Z)
      else
        let offset := (tzoffset * 1000000 + tzusec)%Z in
        if ((- day_microseconds <? offset) && (offset <? day_microseconds))%Z
        then Return (Some offset)
        else Raise (ValueError
          "offset must be a timedelta strictly between -timedelta(hours=24) and timedelta(hours=24)")
  end.

(** The separator is one character, of one to four bytes. *)
Definition skip_separator (p : string) : string :=
  let b := byte (peek p) in
  if (b <? 128)%Z then skip 1 p
  else if (b / 16 =? 14)%Z then skip 3 p
  else if (b / 16 =? 15)%Z then skip 4 p
  else skip 2 p.

(** [datetime.fromisoformat(v)] *)
Definition datetime_fromisoformat (v : pyval) : outcome exn datetime :=
  match v with
  | PStr s =>
      let len := String.length s in
      if (len <? 7)%nat then Raise invalid_isoformat
      else
        match find_isoformat_datetime_separator s len with
        | None => Raise invalid_isoformat
        | Some separator_location =>
            match parse_isoformat_date s separator_location with
            | None => Raise invalid_isoformat
            | Some (y, m, d) =>
                let time :=
                  if (separator_location <? len)%nat
                  then parse_isoformat_time (skip_separator (skip separator_location s))
                  else Some (0, 0, 0, 0, None)%Z in
                match time with
                | None => Raise invalid_isoformat
                | Some (h, mi, sec, us, tz) =>
                    off <- tzinfo_from_isoformat_results tz ;;
                    on <- check_date_args y m d ;;
                    _ <- check_time_args h mi sec us ;;
                    Return (mkdatetime on h mi sec us off)
                end
            end
        end
  | _ => Raise TypeError
  end.

(** [d.isoformat()] and the timestamp rendering [YYYY-MM-DDTHH:MM:SS]. *)
Definition fmt2 (n : Z) : string :=
  String (digit_char (n / 10)) (String (digit_char (n mod 10)) EmptyString).

Definition fmt4 (n : Z) : string := fmt2 (n / 100) ++ fmt2 (n mod 100).

Definition date_isoformat (d : date) : string :=
  fmt4 (year d) ++ "-" ++ fmt2 (month d) ++ "-" ++ fmt2 (day d).

Definition time_isoformat (h mi s : Z) : string :=
  fmt2 h ++ ":" ++ fmt2 mi ++ ":" ++ fmt2 s.

Definition sentinel_date : date := mkdate 1900 1 1.


(* ------------------------------------------------------------------ *)
(** *** Methods of [str] the mappers call on decoded values *)

(** [v.split(',')[0]] *)
Definition py_split_comma_head (v : pyval) : outcome exn pyval :=
  match v with
  | PStr s => Return (PStr (split_head "," s))
  | _ => Raise (AttributeError "split")
  end.

(** [v.replace('Z', '+00:00')] *)
Definition py_replace_Z (v : pyval) : outcome exn pyval :=
  match v with
  | PStr s => Return (PStr (replace_char "Z" "+00:00" s))
  | _ => Raise (AttributeError "replace")
  end.

(** [v == s] for a text [s] *)
Definition py_eq_str (v : pyval) (s : string) : bool :=
  match v with
  | PStr s' => String.eqb s' s
  | _ => false
  end.

(** One item of [', '.join(items)]: anything but text is a [TypeError]. *)
Definition join_item (v : pyval) : outcome exn string :=
  match v with
  | PStr s => Return s
  | _ => Raise TypeError
  end.

(* ================================================================== *)
(** ** models/patent_transactions.py *)

Module TransactionEvent.

Record t : Type := mk {
  event_code : pyval;
  event_description : pyval;
  event_date : date
}.

Definition from_dict (data : pyval) : outcome exn t :=
  event_code <- py_get data "eventCode" (PStr "") ;;
  event_description <- py_get data "eventDescriptionText" (PStr "") ;;
  raw_date <- py_get data "eventDate" (PStr "1900-01-01") ;;
  event_date <- date_fromisoformat raw_date ;;
  Return (mk event_code event_description event_date).

End TransactionEvent.

Module ApplicationTransactions.

Record t : Type := mk {
  application_number : pyval;
  events : list TransactionEvent.t
}.

Definition from_dict (data : pyval) : outcome exn t :=
  application_number <- py_get data "applicationNumberText" (PStr "") ;;
  bag <- py_get data "eventDataBag" (PList []) ;;
  events <- list_comp TransactionEvent.from_dict bag ;;
  Return (mk application_number events).

End ApplicationTransactions.

Module TransactionCollection.

Record t : Type := mk {
  count : pyval;
  transactions : list ApplicationTransactions.t;
  request_identifier : pyval
}.

Definition from_dict (data : pyval) : outcome exn t :=
  count <- py_get data "count" (PInt 0) ;;
  bag <- py_get data "patentFileWrapperDataBag" (PList []) ;;
  transactions <- list_comp ApplicationTransactions.from_dict bag ;;
  request_identifier <- py_get data "requestIdentifier" PNone ;;
  Return (mk count transactions request_identifier).

End TransactionCollection.

(* ================================================================== *)
(** ** models/foreign_priority.py *)

Module ForeignPriority.

Record t : Type := mk {
  office_name : pyval;
  filing_date : date;
  application_number : pyval
}.

Definition from_dict (data : pyval) : outcome exn t :=
  office_name <- py_get data "ipOfficeName" (PStr "") ;;
  raw_date <- py_get data "filingDate" (PStr "1900-01-01") ;;
  filing_date <- date_fromisoformat raw_date ;;
  application_number <- py_get data "applicationNumberText" (PStr "") ;;
  Return (mk office_name filing_date application_number).

End ForeignPriority.

Module ForeignPriorityData.

Record t : Type := mk {
  application_number : pyval;
  foreign_priorities : list ForeignPriority.t
}.

Definition from_dict (data : pyval) : outcome exn t :=
  application_number <- py_get data "applicationNumberText" (PStr "") ;;
  bag <- py_get data "foreignPriorityBag" (PList []) ;;
  foreign_priorities <- list_comp ForeignPriority.from_dict bag ;;
  Return (mk application_number foreign_priorities).

End ForeignPriorityData.

Module ForeignPriorityCollection.

Record t : Type := mk {
  count : pyval;
  priorities : list ForeignPriorityData.t
}.

Definition from_dict (data : pyval) : outcome exn t :=
  count <- py_get data "count" (PInt 0) ;;
  bag <- py_get data "patentFileWrapperDataBag" (PList []) ;;
  priorities <- list_comp ForeignPriorityData.from_dict bag ;;
  Return (mk count priorities).

End ForeignPriorityCollection.

(* ================================================================== *)
(** ** models/patent_assignment.py *)

Module Address.

Record t : Type := mk {
  line1 : pyval;
  city : pyval;
  geographic_region : pyval;
  line2 : pyval;
  line3 : pyval;
  postal_code : pyval
}.

Definition from_dict (data : pyval) : outcome exn t :=
  line1 <- py_get data "addressLineOneText" (PStr "") ;;
  line2 <- py_get data "addressLineTwoText" PNone ;;
  line3 <- py_get data "addressLineThreeText" PNone ;;
  city <- py_get data "cityName" (PStr "") ;;
  geographic_region <- py_get data "geographicRegionCode" (PStr "") ;;
  postal_code <- py_get data "postalCode" PNone ;;
  Return (mk line1 city geographic_region line2 line3 postal_code).

End Address.

Module Assignor.

Record t : Type := mk {
  name : pyval;
  execution_date : date
}.

Definition from_dict (data : pyval) : outcome exn t :=
  name <- py_get data "assignorName" (PStr "") ;;
  raw_date <- py_get data "executionDate" (PStr "1900-01-01") ;;
  execution_date <- date_fromisoformat raw_date ;;
  Return (mk name execution_date).

End Assignor.

Module Assignee.

Record t : Type := mk {
  name : pyval;
  address : Address.t
}.

Definition from_dict (data : pyval) : outcome exn t :=
  name <- py_get data "assigneeNameText" (PStr "") ;;
  address_data <- py_get data "assigneeAddress" (PDict []) ;;
  address <- Address.from_dict address_data ;;
  Return (mk name address).

End Assignee.

Module Correspondent.

Record t : Type := mk {
  name : pyval;
  address : Address.t
}.

Definition from_dict (data : pyval) : outcome exn t :=
  line_one <- py_get data "addressLineOneText" (PStr "") ;;
  line_two <- py_get data "addressLineTwoText" PNone ;;
  line_three <- py_get data "addressLineThreeText" PNone ;;
  condition <- py_get data "addressLineThreeText" PNone ;;
  city_name <-
    (if py_truthy condition
     then (text <- py_get data "addressLineThreeText" (PStr "") ;;
           py_split_comma_head text)
     else Return (PStr "")) ;;
  let address_data :=
    PDict [ ("addressLineOneText", line_one);
            ("addressLineTwoText", line_two);
            ("addressLineThreeText", line_three);
            ("cityName", city_name);
            ("geographicRegionCode", PStr "") ] in
  name <- py_get data "correspondentNameText" (PStr "") ;;
  address <- Address.from_dict address_data ;;
  Return (mk name address).

End Correspondent.

Module Assignment.

Record t : Type := mk {
  received_date : date;
  recorded_date : date;
  mailed_date : date;
  reel_number : Z;
  frame_number : Z;
  page_number : Z;
  reel_frame : pyval;
  conveyance_text : pyval;
  assignors : list Assignor.t;
  assignees : list Assignee.t;
  correspondents : list Correspondent.t
}.

Definition from_dict (data : pyval) : outcome exn t :=
  raw_received <- py_get data "assignmentReceivedDate" (PStr "1900-01-01") ;;
  received_date <- date_fromisoformat raw_received ;;
  raw_recorded <- py_get data "assignmentRecordedDate" (PStr "1900-01-01") ;;
  recorded_date <- date_fromisoformat raw_recorded ;;
  raw_mailed <- py_get data "assignmentMailedDate" (PStr "1900-01-01") ;;
  mailed_date <- date_fromisoformat raw_mailed ;;
  raw_reel <- py_get data "reelNumber" (PInt 0) ;;
  reel_number <- py_int raw_reel ;;
  raw_frame <- py_get data "frameNumber" (PInt 0) ;;
  frame_number <- py_int raw_frame ;;
  raw_page <- py_get data "pageNumber" (PInt 0) ;;
  page_number <- py_int raw_page ;;
  reel_frame <- py_get data "reelNumber/frameNumber" (PStr "") ;;
  conveyance_text <- py_get data "conveyanceText" (PStr "") ;;
  assignor_bag <- py_get data "assignorBag" (PList []) ;;
  assignors <- list_comp Assignor.from_dict assignor_bag ;;
  assignee_bag <- py_get data "assigneeBag" (PList []) ;;
  assignees <- list_comp Assignee.from_dict assignee_bag ;;
  correspondence_bag <- py_get data "correspondenceAddressBag" (PList []) ;;
  correspondents <- list_comp Correspondent.from_dict correspondence_bag ;;
  Return (mk received_date recorded_date mailed_date
             reel_number frame_number page_number reel_frame conveyance_text
             assignors assignees correspondents).

End Assignment.

Module ApplicationAssignment.

Record t : Type := mk {
  application_number : pyval;
  assignments : list Assignment.t
}.

Definition from_dict (data : pyval) : outcome exn t :=
  application_number <- py_get data "applicationNumberText" (PStr "") ;;
  bag <- py_get data "assignmentBag" (PList []) ;;
  assignments <- list_comp Assignment.from_dict bag ;;
  Return (mk application_number assignments).

End ApplicationAssignment.

Module AssignmentCollection.

Record t : Type := mk {
  count : pyval;
  assignments : list ApplicationAssignment.t;
  request_identifier : pyval
}.

Definition from_dict (data : pyval) : outcome exn t :=
  count <- py_get data "count" (PInt 0) ;;
  bag <- py_get data "patentFileWrapperDataBag" (PList []) ;;
  assignments <- list_comp ApplicationAssignment.from_dict bag ;;
  request_identifier <- py_get data "requestIdentifier" PNone ;;
  Return (mk count assignments request_identifier).

End AssignmentCollection.

(* ================================================================== *)
(** ** models/patent_documents.py *)

Module DownloadOption.

Record t : Type := mk {
  mime_type : pyval;
  download_url : pyval;
  page_count : pyval
}.

Definition from_dict (data : pyval) : outcome exn t :=
  mime_type <- py_getitem data "mimeTypeIdentifier" ;;
  download_url <- py_getitem data "downloadUrl" ;;
  page_count <- py_get data "pageTotalQuantity" PNone ;;
  Return (mk mime_type download_url page_count).

End DownloadOption.

Module PatentDocument.

Record t : Type := mk {
  application_number : pyval;
  official_date : datetime;
  document_identifier : pyval;
  document_code : pyval;
  document_description : pyval;
  direction_category : pyval;
  download_options : list DownloadOption.t
}.

Definition from_dict (data : pyval) : outcome exn t :=
  application_number <- py_getitem data "applicationNumberText" ;;
  raw_date <- py_getitem data "officialDate" ;;
  normalized <- py_replace_Z raw_date ;;
  official_date <- datetime_fromisoformat normalized ;;
  document_identifier <- py_getitem data "documentIdentifier" ;;
  document_code <- py_getitem data "documentCode" ;;
  document_description <- py_getitem data "documentCodeDescriptionText" ;;
  direction_category <- py_getitem data "directionCategory" ;;
  bag <- py_get data "downloadOptionBag" (PList []) ;;
  download_options <- list_comp DownloadOption.from_dict bag ;;
  Return (mk application_number official_date document_identifier document_code
             document_description direction_category download_options).

End PatentDocument.

Module PatentDocumentCollection.

Record t : Type := mk {
  documents : list PatentDocument.t
}.

Definition from_dict (data : pyval) : outcome exn t :=
  bag <- py_get data "documentBag" (PList []) ;;
  documents <- list_comp PatentDocument.from_dict bag ;;
  Return (mk documents).

End PatentDocumentCollection.

(* ================================================================== *)
(** ** External collaborators of the clients

    The transport and the file system are outside the library; the clients
    see them through the few observations below, and what the clients do to
    them is recorded as a trace of events. *)

Definition http_headers : Type := list (string * string).

(** What a client reads from an HTTP response: its status, the result of
    [await response.json()] ([None] when that call raises) and the chunks
    that successive [response.content.read(8192)] calls deliver. *)
Record response : Type := mkresponse {
  status : Z;
  json : option pyval;
  content : list string
}.

(** The server behind [session.get(url, headers=...)]. *)
Definition network : Type := string -> http_headers -> response.

Record filesystem : Type := mkfs {
  (** [os.path.exists] *)
  path_exists : string -> bool;
  (** [os.access(path, os.W_OK)] *)
  access_W_OK : string -> bool;
  (** the exception [open(path, 'wb')] raises, if any *)
  open_error : string -> option exn
}.

Inductive event : Type :=
| NetGet (url : string) (headers : http_headers)
| NetPost (url : string) (headers : http_headers) (payload : pyval)
| FileOpen (path : string)
| FileWrite (path : string) (chunk : string)
| LogError (msg : string)
| LogInfo (msg : string).

Definition is_network_event (ev : event) : bool :=
  match ev with
  | NetGet _ _ | NetPost _ _ _ => true
  | _ => false
  end.

(** A computation with its trace. *)
Definition io (E A : Type) : Type := outcome E A * list event.

Definition nl : string := String (ascii_of_nat 10) EmptyString.

(** [os.path.join(a, b)] on a POSIX system. *)
Definition os_path_join (a b : string) : string :=
  match b with
  | String "/" _ => b
  | _ =>
      if String.eqb a "" then b
      else if String.eqb (substring (String.length a - 1) 1 a) "/" then a ++ b
      else a ++ "/" ++ b
  end.

(** The chunks the download loop writes: it stops at the first empty read. *)
Fixpoint read_chunks (stream : list string) : list string :=
  match stream with
  | [] => []
  | chunk :: rest => if String.eqb chunk "" then [] else chunk :: read_chunks rest
  end.

Definition BASE_URL : string := "https://beta-api.uspto.gov/api/v1/patent/applications".

(* ================================================================== *)
(** ** controller/uspto_odp_client.py: the Union-returning client *)

Module UnionClient.

Module USPTOError.

Record t : Type := mk {
  code : pyval;
  error : pyval;
  error_details : pyval;
  request_identifier : pyval
}.

Definition default_messages : list (Z * string) :=
  [ (400, "Bad Request");
    (403, "Forbidden");
    (404, "Not Found");
    (500, "Internal Server Error") ]%Z.

Definition from_dict (data : pyval) (status_code : Z) : outcome exn t :=
  code <- py_get data "code" (PInt status_code) ;;
  error <- py_get data "error"
             (PStr (int_dict_get default_messages status_code "Unknown Error")) ;;
  details <- py_get data "errorDetails" PNone ;;
  error_details <-
    (if py_truthy details then Return details
     else py_get data "errorDetailed" PNone) ;;
  request_identifier <- py_get data "requestIdentifier" PNone ;;
  Return (mk code error error_details request_identifier).

End USPTOError.

Module USPTOClient.

Record t : Type := mk {
  API_KEY : string;
  headers : http_headers
}.

Definition __init__ (api_key : string) : t :=
  mk api_key [("accept", "application/json"); ("X-API-KEY", api_key)].

(** The four lines every endpoint logs for an error. *)
Definition error_log {R : Renderer} (first_line : string) (error : USPTOError.t) : string :=
  first_line ++ nl
  ++ "Error Message: " ++ py_str (USPTOError.error error) ++ nl
  ++ "Details: "
  ++ py_str (py_or (USPTOError.error_details error) (PStr "No details provided")) ++ nl
  ++ "Request ID: "
  ++ py_str (py_or (USPTOError.request_identifier error) (PStr "No request ID provided")).

Definition status_descriptions : list (Z * string) :=
  [ (400, "Bad Request - Invalid request parameters");
    (403, "Forbidden - Authentication failed or access denied");
    (404, "Not Found - Patent application doesn't exist");
    (500, "Internal Server Error - USPTO API issue") ]%Z.

(** The body every endpoint repeats once the response is in: decode the
    JSON (an undecodable body counts as [{}]), parse on status 200, else
    classify, log and return the error. *)
Definition respond {R : Renderer} {A} (resp : response)
    (parse_func : pyval -> outcome exn A) (with_description : bool)
  : io exn (A + USPTOError.t) :=
  let data := match json resp with Some body => body | None => PDict [] end in
  if Z.eqb (status resp) 200 then
    match parse_func data with
    | Return a => (Return (inl a), [])
    | Raise e => (Raise e, [])
    end
  else
    match USPTOError.from_dict data (status resp) with
    | Return error =>
        let first_line :=
          "USPTO API Error: " ++ py_str (USPTOError.code error)
          ++ (if with_description
              then " - " ++ int_dict_get status_descriptions (status resp) "Unknown Error"
              else "") in
        (Return (inr error), [LogError (error_log first_line error)])
    | Raise e => (Raise e, [])
    end.

Definition request {R : Renderer} {A} (self : t) (net : network) (url : string)
    (parse_func : pyval -> outcome exn A) (with_description : bool)
  : io exn (A + USPTOError.t) :=
  let '(result, log) := respond (net url (headers self)) parse_func with_description in
  (result, NetGet url (headers self) :: log).

Section Endpoints.

Context {R : Renderer}.
(** [PatentFileWrapper.parse_response] and [ContinuityCollection.from_dict]
    live in model files that are not part of the sources at hand. *)
Context {PatentFileWrapper ContinuityCollection : Type}.
Variable PatentFileWrapper_parse_response : pyval -> outcome exn PatentFileWrapper.
Variable ContinuityCollection_from_dict : pyval -> outcome exn ContinuityCollection.

Definition get_patent_wrapper (self : t) (net : network) (serial_number : string) :=
  request self net (BASE_URL ++ "/" ++ serial_number)
          PatentFileWrapper_parse_response true.

Definition get_patent_documents (self : t) (net : network) (serial_number : string) :=
  request self net (BASE_URL ++ "/" ++ serial_number ++ "/documents")
          PatentDocumentCollection.from_dict false.

Definition get_patent_continuity (self : t) (net : network) (serial_number : string) :=
  request self net (BASE_URL ++ "/" ++ serial_number ++ "/continuity")
          ContinuityCollection_from_dict false.

Definition get_foreign_priority (self : t) (net : network) (serial_number : string) :=
  request self net (BASE_URL ++ "/" ++ serial_number ++ "/foreign-priority")
          ForeignPriorityCollection.from_dict false.

Definition get_patent_transactions (self : t) (net : network) (serial_number : string) :=
  request self net (BASE_URL ++ "/" ++ serial_number ++ "/transactions")
          TransactionCollection.from_dict false.

Definition get_patent_assignments (self : t) (net : network) (serial_number : string) :=
  request self net (BASE_URL ++ "/" ++ serial_number ++ "/assignment")
          AssignmentCollection.from_dict false.

Definition download_document (self : t) (fs : filesystem) (net : network)
    (document : PatentDocument.t) (save_path : string)
    (filename : option string) (mime_type : string) : io exn string :=
  if negb (path_exists fs save_path) then
    (Raise (FileNotFoundError ("Save path does not exist: " ++ save_path)), [])
  else if negb (access_W_OK fs save_path) then
    (Raise (PermissionError ("Save path is not writable: " ++ save_path)), [])
  else
    match find (fun opt => py_eq_str (DownloadOption.mime_type opt) mime_type)
               (PatentDocument.download_options document) with
    | None =>
        let available_types :=
          map DownloadOption.mime_type (PatentDocument.download_options document) in
        match mapM join_item available_types with
        | Return listing =>
            (Raise (ValueError ("Mime type '" ++ mime_type
                                ++ "' not available for this document. "
                                ++ "Available types: " ++ join ", " listing)), [])
        | Raise e => (Raise e, [])
        end
    | Some download_option =>
        let filename :=
          match filename with
          | Some (String c rest) => String c rest
          | _ =>
              let extension :=
                if String.eqb mime_type "PDF" then ".pdf"
                else if String.eqb mime_type "MS_WORD" then ".doc"
                else ".xml" in
              py_str (PatentDocument.application_number document) ++ "_"
              ++ py_str (PatentDocument.document_code document) ++ "_"
              ++ py_str (PatentDocument.document_identifier document) ++ extension
          end in
        let full_path := os_path_join save_path filename in
        match DownloadOption.download_url download_option with
        | PStr url =>
            let response := net url (headers self) in
            if negb (Z.eqb (status response) 200) then
              (Raise (Exception ("Download failed with status "
                                 ++ str_of_Z (status response))),
               [NetGet url (headers self)])
            else
              match open_error fs full_path with
              | Some e => (Raise e, [NetGet url (headers self)])
              | None =>
                  (Return full_path,
                   ([NetGet url (headers self); FileOpen full_path]
                    ++ map (FileWrite full_path) (read_chunks (content response))
                    ++ [LogInfo
                          ("Successfully downloaded document "
                           ++ py_str (PatentDocument.document_identifier document)
                           ++ " (" ++ mime_type ++ ") to " ++ full_path)])%list)
              end
        | _ => (Raise TypeError, [])
        end
    end.

End Endpoints.

End USPTOClient.

End UnionClient.

(* ================================================================== *)
(** ** src/uspto_odp/controller/uspto_odp_client.py: the raising client *)

Module RaisingClient.

Module USPTOError.

(** An exception object: the four attributes and the message handed to
    [Exception.__init__]. *)
Record t : Type := mk {
  code : pyval;
  error : pyval;
  error_details : pyval;
  request_identifier : pyval;
  message : string
}.

Definition __init__ {R : Renderer} (code error error_details request_identifier : pyval) : t :=
  mk code error error_details request_identifier
     (py_str code ++ ": " ++ py_str error ++ " - "
      ++ py_str (py_or error_details (PStr "No details provided"))).

Definition default_messages : list (Z * string) :=
  [ (400, "Bad Request");
    (403, "Forbidden");
    (404, "Not Found");
    (500, "Internal Server Error") ]%Z.

Definition from_dict {R : Renderer} (data : pyval) (status_code : Z) : outcome exn t :=
  code <- py_get data "code" (PInt status_code) ;;
  error <- py_get data "error"
             (PStr (int_dict_get default_messages status_code "Unknown Error")) ;;
  details <- py_get data "errorDetails" PNone ;;
  error_details <-
    (if py_truthy details then Return details
     else py_get data "errorDetailed" PNone) ;;
  request_identifier <- py_get data "requestIdentifier" PNone ;;
  Return (__init__ code error error_details request_identifier).

End USPTOError.

(** What an endpoint of this client can raise. *)
Inductive raised : Type :=
| Builtin (e : exn)
| ApiError (e : USPTOError.t).

Module USPTOClient.

Record t : Type := mk {
  API_KEY : string;
  headers : http_headers;
  (** the injected (or freshly created) [aiohttp.ClientSession] *)
  session : network
}.

(** [session or aiohttp.ClientSession()]: either way the client talks to
    the network through the session it holds. *)
Definition __init__ (api_key : string) (session : network) : t :=
  mk api_key [("accept", "application/json"); ("X-API-KEY", api_key)] session.

Definition _log_error {R : Renderer} (error : USPTOError.t) : event :=
  LogError
    ("USPTO API Error: " ++ py_str (USPTOError.code error) ++ nl
     ++ "Error Message: " ++ py_str (USPTOError.error error) ++ nl
     ++ "Details: "
     ++ py_str (py_or (USPTOError.error_details error) (PStr "No details provided")) ++ nl
     ++ "Request ID: "
     ++ py_str (py_or (USPTOError.request_identifier error)
                      (PStr "No request ID provided"))).

Definition _handle_response {R : Renderer} {A} (self : t) (resp : response)
    (parse_func : pyval -> outcome exn A) : io raised A :=
  let data := match json resp with Some body => body | None => PDict [] end in
  if Z.eqb (status resp) 200 then
    match parse_func data with
    | Return a => (Return a, [])
    | Raise e => (Raise (Builtin e), [])
    end
  else
    match USPTOError.from_dict data (status resp) with
    | Return error => (Raise (ApiError error), [_log_error error])
    | Raise e => (Raise (Builtin e), [])
    end.

Definition request {R : Renderer} {A} (self : t) (url : string)
    (parse_func : pyval -> outcome exn A) : io raised A :=
  let '(result, log) :=
    _handle_response self (session self url (headers self)) parse_func in
  (result, NetGet url (headers self) :: log).

Section Endpoints.

Context {R : Renderer}.
Context {PatentFileWrapper ContinuityCollection : Type}.
Variable PatentFileWrapper_parse_response : pyval -> outcome exn PatentFileWrapper.
Variable ContinuityCollection_from_dict : pyval -> outcome exn ContinuityCollection.

Definition get_patent_wrapper (self : t) (serial_number : string) :=
  request self (BASE_URL ++ "/" ++ serial_number) PatentFileWrapper_parse_response.

Definition get_patent_documents (self : t) (serial_number : string) :=
  request self (BASE_URL ++ "/" ++ serial_number ++ "/documents")
          PatentDocumentCollection.from_dict.

Definition get_patent_continuity (self : t) (serial_number : string) :=
  request self (BASE_URL ++ "/" ++ serial_number ++ "/continuity")
          ContinuityCollection_from_dict.

Definition get_foreign_priority (self : t) (serial_number : string) :=
  request self (BASE_URL ++ "/" ++ serial_number ++ "/foreign-priority")
          ForeignPriorityCollection.from_dict.

Definition get_patent_transactions (self : t) (serial_number : string) :=
  request self (BASE_URL ++ "/" ++ serial_number ++ "/transactions")
          TransactionCollection.from_dict.

Definition get_patent_assignments (self : t) (serial_number : string) :=
  request self (BASE_URL ++ "/" ++ serial_number ++ "/assignment")
          AssignmentCollection.from_dict.

Definition download_document (self : t) (fs : filesystem)
    (document : PatentDocument.t) (save_path : string)
    (filename : option string) (mime_type : string) : io exn string :=
  if negb (path_exists fs save_path) then
    (Raise (FileNotFoundError ("Save path does not exist: " ++ save_path)), [])
  else if negb (access_W_OK fs save_path) then
    (Raise (PermissionError ("Save path is not writable: " ++ save_path)), [])
  else
    match find (fun opt => py_eq_str (DownloadOption.mime_type opt) mime_type)
               (PatentDocument.download_options document) with
    | None =>
        let available_types :=
          map DownloadOption.mime_type (PatentDocument.download_options document) in
        match mapM join_item available_types with
        | Return listing =>
            (Raise (ValueError ("Mime type '" ++ mime_type
                                ++ "' not available for this document. "
                                ++ "Available types: " ++ join ", " listing)), [])
        | Raise e => (Raise e, [])
        end
    | Some download_option =>
        let filename :=
          match filename with
          | Some (String c rest) => String c rest
          | _ =>
              let extension :=
                if String.eqb mime_type "PDF" then ".pdf"
                else if String.eqb mime_type "MS_WORD" then ".doc"
                else ".xml" in
              py_str (PatentDocument.application_number document) ++ "_"
              ++ py_str (PatentDocument.document_code document) ++ "_"
              ++ py_str (PatentDocument.document_identifier document) ++ extension
          end in
        let full_path := os_path_join save_path filename in
        match DownloadOption.download_url download_option with
        | PStr url =>
            let response := session self url (headers self) in
            if negb (Z.eqb (status response) 200) then
              (Raise (Exception ("Download failed with status "
                                 ++ str_of_Z (status response))),
               [NetGet url (headers self)])
            else
              match open_error fs full_path with
              | Some e => (Raise e, [NetGet url (headers self)])
              | None =>
                  (Return full_path,
                   ([NetGet url (headers self); FileOpen full_path]
                    ++ map (FileWrite full_path) (read_chunks (content response))
                    ++ [LogInfo
                          ("Successfully downloaded document "
                           ++ py_str (PatentDocument.document_identifier document)
                           ++ " (" ++ mime_type ++ ") to " ++ full_path)])%list)
              end
        | _ => (Raise TypeError, [])
        end
    end.

End Endpoints.

End USPTOClient.

End RaisingClient.

(* ================================================================== *)
(** ** The patent-number lookup *)

(** [s] without a leading ["US"]. *)
Definition strip_US (s : string) : string :=
  match s with
  | String "U" (String "S" rest) => rest
  | _ => s
  end.

Fixpoint remove_char (c : ascii) (s : string) : string :=
  match s with
  | EmptyString => EmptyString
  | String a rest =>
      if Ascii.eqb a c then remove_char c rest else String a (remove_char c rest)
  end.

(** Modelled from the spec: the method
    [USPTOClient.get_app_number_from_patent_number] that the test module
    calls is not defined in either client file at hand.  The spec has it
    strip a leading "US" marker and the thousands-separator commas before
    it builds the filter payload of its POST request. *)
Definition sanitize_patent_number (patent_number : string) : string :=
  remove_char "," (strip_US patent_number).

(** Modelled from the spec: the payload
    [{"filters": {"applicationMetaData.patentNumber": <sanitized-number>}}]
    of the lookup named in the previous comment. *)
Definition patent_number_payload (patent_number : string) : pyval :=
  PDict [ ("filters",
           PDict [ ("applicationMetaData.patentNumber",
                    PStr (sanitize_patent_number patent_number)) ]) ].

(** Modelled from the spec: the one POST request of the lookup named above;
    the spec does not name its URL, which stays a parameter. *)
Definition patent_number_request (search_url : string) (headers : http_headers)
    (patent_number : string) : event :=
  NetPost search_url headers (patent_number_payload patent_number).

(* ================================================================== *)
(** * Vocabulary of the statements and sample inputs *)

(** A renderer for the concrete runs below; every theorem is stated for an
    arbitrary renderer. *)
Definition plain_renderer : Renderer := fun _ => "<object>".

(* ------------------------------------------------------------------ *)
(** ** Error classification *)

(** The per-status default message, as the table is documented. *)
Definition documented_message (s : Z) : string :=
  if Z.eqb s 400 then "Bad Request"
  else if Z.eqb s 403 then "Forbidden"
  else if Z.eqb s 404 then "Not Found"
  else if Z.eqb s 500 then "Internal Server Error"
  else "Unknown Error".

(** The four fields an error built from the mapping [d] and status [s] is
    documented to carry: code, error, detail, correlation id. *)
Definition documented_fields (d : pydict) (s : Z) : pyval * pyval * pyval * pyval :=
  (match dict_lookup d "code" with Some v => v | None => PInt s end,
   match dict_lookup d "error" with
   | Some v => v
   | None => PStr (documented_message s)
   end,
   match dict_lookup d "errorDetails" with
   | Some v => if py_truthy v then v else dict_get d "errorDetailed" PNone
   | None => dict_get d "errorDetailed" PNone
   end,
   match dict_lookup d "requestIdentifier" with Some v => v | None => PNone end).

Definition union_fields (e : UnionClient.USPTOError.t) : pyval * pyval * pyval * pyval :=
  (UnionClient.USPTOError.code e, UnionClient.USPTOError.error e,
   UnionClient.USPTOError.error_details e, UnionClient.USPTOError.request_identifier e).

Definition raising_fields (e : RaisingClient.USPTOError.t) : pyval * pyval * pyval * pyval :=
  (RaisingClient.USPTOError.code e, RaisingClient.USPTOError.error e,
   RaisingClient.USPTOError.error_details e,
   RaisingClient.USPTOError.request_identifier e).

Definition sample_raising_client : RaisingClient.USPTOClient.t :=
  RaisingClient.USPTOClient.__init__ "test_api_key" (fun _ _ => mkresponse 404 None []).

(* ------------------------------------------------------------------ *)
(** ** Mappers and collections *)

Definition PatentDocument_required : list string :=
  [ "applicationNumberText"; "officialDate"; "documentIdentifier"; "documentCode";
    "documentCodeDescriptionText"; "directionCategory" ].

(** A tree the item mapper [f] accepts. *)
Definition accepted {B} (f : pyval -> outcome exn B) (x : pyval) : Prop :=
  exists y, f x = Return y.

(** The exception with which the converter [f] refuses [v], if it does. *)
Definition failure {B} (f : pyval -> outcome exn B) (v : pyval) : option exn :=
  match f v with
  | Return _ => None
  | Raise e => Some e
  end.

(** The keys whose values a mapper converts, each with the failure of its
    converter: [date.fromisoformat], [int], or the comprehension over the
    item mapper of a bag. *)
Definition TransactionEvent_converted : list (string * (pyval -> option exn)) :=
  [ ("eventDate", failure date_fromisoformat) ].

Definition ForeignPriority_converted : list (string * (pyval -> option exn)) :=
  [ ("filingDate", failure date_fromisoformat) ].

Definition Assignment_converted : list (string * (pyval -> option exn)) :=
  [ ("assignmentReceivedDate", failure date_fromisoformat);
    ("assignmentRecordedDate", failure date_fromisoformat);
    ("assignmentMailedDate", failure date_fromisoformat);
    ("reelNumber", failure py_int);
    ("frameNumber", failure py_int);
    ("pageNumber", failure py_int);
    ("assignorBag", failure (list_comp Assignor.from_dict));
    ("assigneeBag", failure (list_comp Assignee.from_dict));
    ("correspondenceAddressBag", failure (list_comp Correspondent.from_dict)) ].

(** [from_dict] never raises for a missing key: on the object [d] it raises
    [e] only when one of its converted keys is present in [d] and its
    converter refuses the value bound to it with [e]. *)
Definition raises_only_on_present {T} (from_dict : pyval -> outcome exn T)
    (converted : list (string * (pyval -> option exn))) (d : pydict) : Prop :=
  forall e, from_dict (PDict d) = Raise e ->
    exists key convert v,
      In (key, convert) converted /\ dict_lookup d key = Some v /\ convert v = Some e.

(** [from_dict] maps the object [d], whatever keys it lacks, as soon as the
    converted keys that are present hold values their converters accept. *)
Definition maps_partial_tree {T} (from_dict : pyval -> outcome exn T)
    (converted : list (string * (pyval -> option exn))) (d : pydict) : Prop :=
  (forall key convert v,
      In (key, convert) converted -> dict_lookup d key = Some v -> convert v = None) ->
  exists r, from_dict (PDict d) = Return r.

(** [ys] is [xs] mapped item by item through [f]: same length, same order. *)
Definition mapped_itemwise {B} (f : pyval -> outcome exn B)
    (xs : list pyval) (ys : list B) : Prop :=
  Forall2 (fun x y => f x = Return y) xs ys.

(** The round trip of a collection mapper [from_dict] whose records keep
    their items under [items_of]: a body with 'count' N whose bag [bag_key]
    holds N well-formed item trees maps to a record with N items, the
    images of the bag's trees in order. *)
Definition collection_round_trip {T I} (from_dict : pyval -> outcome exn T)
    (items_of : T -> list I) (bag_key : string)
    (item_from_dict : pyval -> outcome exn I) : Prop :=
  forall (d : pydict) (items : list pyval) (N : Z),
    dict_lookup d "count" = Some (PInt N) ->
    dict_lookup d bag_key = Some (PList items) ->
    Z.of_nat (length items) = N ->
    Forall (accepted item_from_dict) items ->
    exists r, from_dict (PDict d) = Return r
              /\ Z.of_nat (length (items_of r)) = N
              /\ mapped_itemwise item_from_dict items (items_of r).

(** The items of a produced collection record are the bag of the body
    (empty when the key is absent) mapped item by item. *)
Definition items_from_bag {I} (item_from_dict : pyval -> outcome exn I)
    (d : pydict) (bag_key : string) (mapped : list I) : Prop :=
  exists items,
    py_iter (match dict_lookup d bag_key with Some v => v | None => PList [] end)
    = Return items
    /\ mapped_itemwise item_from_dict items mapped.

Definition sample_event (code : string) : pyval :=
  PDict [ ("eventCode", PStr code);
          ("eventDescriptionText", PStr "Email Notification");
          ("eventDate", PStr "2024-05-01") ].

Definition sample_transactions_body : pydict :=
  [ ("count", PInt 2);
    ("patentFileWrapperDataBag",
     PList [ PDict [ ("applicationNumberText", PStr "12345678");
                     ("eventDataBag", PList [sample_event "EML_NTR"; sample_event "MM327"]) ];
             PDict [ ("applicationNumberText", PStr "87654321") ] ]);
    ("requestIdentifier", PStr "9d955e40-8ae9-4b05-ab6f-17d02e74d943") ].

(* ------------------------------------------------------------------ *)
(** ** Document download *)

(** The message of the "format unavailable" failure, listing [types]. *)
Definition format_unavailable (mime_type : string) (types : list string) : exn :=
  ValueError ("Mime type '" ++ mime_type ++ "' not available for this document. "
              ++ "Available types: " ++ join ", " types).

Definition sample_union_client : UnionClient.USPTOClient.t :=
  UnionClient.USPTOClient.__init__ "test_api_key".

Definition sample_document : PatentDocument.t :=
  PatentDocument.mk (PStr "12345678")
    (mkdatetime (mkdate 2021 1 1) 0 0 0 0 (Some 0%Z))
    (PStr "DOC1") (PStr "NOA") (PStr "Notice of Allowance") (PStr "OUTGOING")
    [ DownloadOption.mk (PStr "PDF") (PStr "https://example.test/doc1.pdf") (PInt 3);
      DownloadOption.mk (PStr "XML") (PStr "https://example.test/doc1.xml") PNone ].

Definition sample_fs : filesystem :=
  mkfs (fun p => String.eqb p "/tmp") (fun p => String.eqb p "/tmp") (fun _ => None).

Definition sample_network : network :=
  fun _ _ => mkresponse 200 None ["%PDF"; "-1.7"; ""].

(* ------------------------------------------------------------------ *)
(** ** Dates and timestamps *)

Definition fmt3 (n : Z) : string := String (digit_char (n / 100)) (fmt2 (n mod 100)).

Definition fmt6 (n : Z) : string := fmt3 (n / 1000) ++ fmt3 (n mod 1000).

(** The fraction of a second a timestamp text may carry: none, three digits
    of milliseconds or six digits of microseconds. *)
Inductive fraction : Type :=
| NoFraction
| Millis (ms : Z)
| Micros (us : Z).

Definition fraction_text (f : fraction) : string :=
  match f with
  | NoFraction => ""
  | Millis ms => "." ++ fmt3 ms
  | Micros us => "." ++ fmt6 us
  end.

Definition fraction_micros (f : fraction) : Z :=
  match f with
  | NoFraction => 0
  | Millis ms => 1000 * ms
  | Micros us => us
  end.

Definition valid_fraction (f : fraction) : bool :=
  match f with
  | NoFraction => true
  | Millis ms => (0 <=? ms)%Z && (ms <? 1000)%Z
  | Micros us => (0 <=? us)%Z && (us <? 1000000)%Z
  end.

(** The timestamp text [YYYY-MM-DDTHH:MM:SS[.fff[fff]]] of a calendar date
    and a time of day. *)
Definition stamp (d : date) (h mi s : Z) (f : fraction) : string :=
  date_isoformat d ++ "T" ++ time_isoformat h mi s ++ fraction_text f.

Definition is_decimal_digit (x : Z) : Prop := (0 <= x < 10)%Z.

(** A document tree with the six subscripted keys and a trailing-Z stamp. *)
Definition document_tree (official_date : string) (a i c t dc : pyval) : pyval :=
  PDict [ ("applicationNumberText", a);
          ("officialDate", PStr official_date);
          ("documentIdentifier", i);
          ("documentCode", c);
          ("documentCodeDescriptionText", t);
          ("directionCategory", dc) ].

(** [c] does not occur in [s]. *)
Fixpoint lacks (c : ascii) (s : string) : bool :=
  match s with
  | EmptyString => true
  | String a rest => negb (Ascii.eqb a c) && lacks c rest
  end.

(* ------------------------------------------------------------------ *)
(** ** Correspondent addresses and patent numbers *)

(** [city] is the part of [s] before its first comma. *)
Definition before_first_comma (s city : string) : Prop :=
  lacks "," city = true
  /\ (s = city \/ exists tail, s = city ++ "," ++ tail).

(** A decoded value that is text whenever it is truthy. *)
Definition text_or_falsy (v : pyval) : Prop :=
  py_truthy v = true -> exists s, v = PStr s.

Definition sample_correspondent : pydict :=
  [ ("correspondentNameText", PStr "SMITH & JONES LLP");
    ("addressLineOneText", PStr "100 MAIN STREET");
    ("addressLineThreeText", PStr "SPRINGFIELD, IL 62701") ].

Fixpoint all_digits (s : string) : bool :=
  match s with
  | EmptyString => true
  | String c rest => is_digit c && all_digits rest
  end.

Fixpoint digits_and_commas (s : string) : bool :=
  match s with
  | EmptyString => true
  | String c rest => (is_digit c || Ascii.eqb c ",") && digits_and_commas rest
  end.

(* ================================================================== *)
(** * Vocabulary of the further properties *)

(* ------------------------------------------------------------------ *)
(** ** The two clients side by side *)

(** The Union-returning client returns what the raising client raises:
    the same parsed value, an error with the same four fields, or the same
    builtin exception. *)
Definition same_outcome {A} (u : outcome exn (A + UnionClient.USPTOError.t))
    (r : outcome RaisingClient.raised A) : Prop :=
  match u, r with
  | Return (inl a), Return a' => a = a'
  | Return (inr e), Raise (RaisingClient.ApiError e') =>
      union_fields e = raising_fields e'
  | Raise x, Raise (RaisingClient.Builtin x') => x = x'
  | _, _ => False
  end.

(** The two clients after construction with the same key, the raising one
    over the session [net]. *)
Definition union_client (api_key : string) : UnionClient.USPTOClient.t :=
  UnionClient.USPTOClient.__init__ api_key.

Definition raising_client (api_key : string) (net : network)
  : RaisingClient.USPTOClient.t :=
  RaisingClient.USPTOClient.__init__ api_key net.

Definition fixed_headers (api_key : string) : http_headers :=
  [("accept", "application/json"); ("X-API-KEY", api_key)].

Definition is_log_event (ev : event) : bool :=
  match ev with
  | LogError _ | LogInfo _ => true
  | _ => false
  end.

Definition is_file_event (ev : event) : bool :=
  match ev with
  | FileOpen _ | FileWrite _ _ => true
  | _ => false
  end.

(** Two runs with corresponding outcomes and the same trace. *)
Definition same_run {A} (u : io exn (A + UnionClient.USPTOError.t))
    (r : io RaisingClient.raised A) : Prop :=
  same_outcome (fst u) (fst r) /\ snd u = snd r.

(** Two runs with corresponding outcomes whose traces differ in one place
    only: where the Union-returning client returns an error, its log entry
    is the raising client's with [" - "] and [description] added to the
    first line, after the error code. *)
Definition same_run_described {R : Renderer} {A} (description : string)
    (u : io exn (A + UnionClient.USPTOError.t))
    (r : io RaisingClient.raised A) : Prop :=
  same_outcome (fst u) (fst r)
  /\ match fst u with
     | Return (inr e) =>
         let first_line :=
           "USPTO API Error: " ++ py_str (UnionClient.USPTOError.code e) in
         exists request rest,
           snd r = [request; LogError (first_line ++ nl ++ rest)]
           /\ snd u = [request;
                       LogError (first_line ++ " - " ++ description ++ nl ++ rest)]
     | _ => snd u = snd r
     end.

(* ------------------------------------------------------------------ *)
(** ** Traces of the endpoints *)

Definition union_is_error {A} (o : outcome exn (A + UnionClient.USPTOError.t)) : bool :=
  match o with
  | Return (inr _) => true
  | _ => false
  end.

Definition raising_is_error {A} (o : outcome RaisingClient.raised A) : bool :=
  match o with
  | Raise (RaisingClient.ApiError _) => true
  | _ => false
  end.

(** A trace made of one GET of [url] with [headers], followed by exactly one
    error log entry when [is_error] holds and by nothing otherwise. *)
Definition one_get_then_log (url : string) (headers : http_headers)
    (is_error : bool) (trace : list event) : Prop :=
  exists log,
    trace = NetGet url headers :: log
    /\ if is_error then exists msg, log = [LogError msg] else log = [].

Definition applications_url (serial_number suffix : string) : string :=
  "https://beta-api.uspto.gov/api/v1/patent/applications/" ++ serial_number ++ suffix.

(** A server that answers every request with [resp]. *)
Definition always (resp : response) : network := fun _ _ => resp.

Definition is_dict (v : pyval) : bool :=
  match v with
  | PDict _ => true
  | _ => false
  end.

(* ------------------------------------------------------------------ *)
(** ** Bags of item trees *)

(** [x] is the first tree of [items] that [f] rejects, with exception [e]. *)
Definition first_rejected {B} (f : pyval -> outcome exn B) (items : list pyval)
    (x : pyval) (e : exn) : Prop :=
  exists pre post,
    items = (pre ++ x :: post)%list /\ Forall (accepted f) pre /\ f x = Raise e.

(** A mapper [from_dict] whose first fallible step is the comprehension
    over the bag [bag_key]: on an object whose bag is a list it raises
    exactly when some item tree is rejected, and then with the exception of
    the first rejected tree; nothing of the other items is kept. *)
Definition all_or_nothing {T I} (from_dict : pyval -> outcome exn T)
    (bag_key : string) (item_from_dict : pyval -> outcome exn I) : Prop :=
  forall (d : pydict) (items : list pyval) (e : exn),
    dict_lookup d bag_key = Some (PList items) ->
    (from_dict (PDict d) = Raise e
     <-> exists x, first_rejected item_from_dict items x e).

(** A per-application mapper: the application number (['' ] when absent)
    and the bag [bag_key] mapped item by item; an absent bag is empty. *)
Definition per_application {T I} (from_dict : pyval -> outcome exn T)
    (number_of : T -> pyval) (items_of : T -> list I) (bag_key : string)
    (item_from_dict : pyval -> outcome exn I) : Prop :=
  forall (d : pydict),
    (forall items,
        dict_lookup d bag_key = Some (PList items) ->
        Forall (accepted item_from_dict) items ->
        exists r, from_dict (PDict d) = Return r
                  /\ number_of r
                     = match dict_lookup d "applicationNumberText" with
                       | Some v => v
                       | None => PStr ""
                       end
                  /\ mapped_itemwise item_from_dict items (items_of r)
                  /\ length (items_of r) = length items)
    /\ (dict_lookup d bag_key = None ->
        exists r, from_dict (PDict d) = Return r /\ items_of r = []).

Definition sample_bad_event : pyval :=
  PDict [ ("eventCode", PStr "MM327"); ("eventDate", PStr "05/01/2024") ].

Definition sample_bad_transactions_body : pydict :=
  [ ("count", PInt 2);
    ("patentFileWrapperDataBag",
     PList [ PDict [ ("applicationNumberText", PStr "12345678");
                     ("eventDataBag", PList [sample_event "EML_NTR"]) ];
             PDict [ ("applicationNumberText", PStr "87654321");
                     ("eventDataBag",
                      PList [sample_event "EML_NTR"; sample_bad_event]) ] ]) ].

(* ------------------------------------------------------------------ *)
(** ** Keys a mapper reads *)

(** [f] looks at an object only through the keys [keys]: two objects with
    the same values under these keys map alike, and a binding under any
    other key changes nothing. *)
Definition reads_only {B} (keys : list string) (f : pyval -> outcome exn B) : Prop :=
  (forall d d' : pydict,
      (forall k, In k keys -> dict_lookup d k = dict_lookup d' k) ->
      f (PDict d) = f (PDict d'))
  /\ (forall (k : string) (v : pyval) (d : pydict),
         ~ In k keys -> f (PDict ((k, v) :: d)) = f (PDict d)).

(* ------------------------------------------------------------------ *)
(** ** Document download *)

(** [opt] is the first download option of [document] whose mime type is
    the text [mime_type]. *)
Definition first_match (document : PatentDocument.t) (mime_type : string)
    (opt : DownloadOption.t) : Prop :=
  exists pre post,
    PatentDocument.download_options document = (pre ++ opt :: post)%list
    /\ Forall (fun o => DownloadOption.mime_type o <> PStr mime_type) pre
    /\ DownloadOption.mime_type opt = PStr mime_type.

(** The save path passes both checks. *)
Definition usable (fs : filesystem) (save_path : string) : Prop :=
  path_exists fs save_path = true /\ access_W_OK fs save_path = true.

(** [written] is what a reader gets from [stream] up to, and without, the
    first empty chunk. *)
Definition read_until_empty (stream written : list string) : Prop :=
  Forall (fun chunk => chunk <> "") written
  /\ exists rest,
       stream = (written ++ rest)%list
       /\ (rest = [] \/ exists rest', rest = "" :: rest').

Definition file_events (path : string) (written : list string) : list event :=
  FileOpen path :: map (FileWrite path) written.

(** The extension of a generated file name. *)
Definition extension_for (mime_type : string) : string :=
  if String.eqb mime_type "PDF" then ".pdf"
  else if String.eqb mime_type "MS_WORD" then ".doc"
  else ".xml".

Definition sample_failing_network : network :=
  fun _ _ => mkresponse 503 None [].

(* ------------------------------------------------------------------ *)
(** ** Parties of an assignment *)

(** A truthy value that is not text. *)
Definition truthy_non_text (v : pyval) : Prop :=
  py_truthy v = true /\ forall s, v <> PStr s.

(** The value under [k], or [default]. *)
Definition value_or (d : pydict) (k : string) (default : pyval) : pyval :=
  match dict_lookup d k with
  | Some v => v
  | None => default
  end.

(* ================================================================== *)
(** * Properties *)

(* ------------------------------------------------------------------ *)
(** ** The error monad and list comprehensions *)

Lemma bind_Return_inv {E A B} (c : outcome E A) (k : A -> outcome E B) (b : B) :
  bind c k = Return b -> exists a, c = Return a /\ k a = Return b.
Proof.
  destruct c as [a|e]; simpl; intros Hk.
  - exists a. split; [reflexivity | exact Hk].
  - discriminate Hk.
Qed.

Lemma mapM_Forall2 {E A B} (f : A -> outcome E B) (xs : list A) (ys : list B) :
  mapM f xs = Return ys <-> Forall2 (fun x y => f x = Return y) xs ys.
Proof.
  revert ys. induction xs as [|x xs IH]; intros ys; simpl.
  - split.
    + intros Heq. injection Heq as <-. constructor.
    + intros Hall. inversion Hall. reflexivity.
  - split.
    + intros Heq.
      apply bind_Return_inv in Heq. destruct Heq as (y & Hy & Heq).
      apply bind_Return_inv in Heq. destruct Heq as (ys' & Hys & Heq).
      injection Heq as <-. constructor; [exact Hy | now apply IH].
    + intros Hall. inversion Hall as [|? y ? ys' Hy Hrest]; subst.
      rewrite Hy. simpl. apply IH in Hrest. rewrite Hrest. reflexivity.
Qed.

Lemma mapM_length {E A B} (f : A -> outcome E B) (xs : list A) (ys : list B) :
  mapM f xs = Return ys -> length ys = length xs.
Proof.
  intros Heq. apply mapM_Forall2 in Heq.
  induction Heq; simpl; congruence.
Qed.

Lemma mapM_total {E A B} (f : A -> outcome E B) (xs : list A) :
  Forall (fun x => exists y, f x = Return y) xs ->
  exists ys, mapM f xs = Return ys.
Proof.
  induction 1 as [|x xs (y & Hy) _ (ys & Hys)]; simpl.
  - now exists [].
  - exists (y :: ys). rewrite Hy. simpl. rewrite Hys. reflexivity.
Qed.

(** A list comprehension over a list maps it item by item, in order. *)
Lemma list_comp_PList {B} (f : pyval -> outcome exn B) (items : list pyval) :
  list_comp f (PList items) = mapM f items.
Proof. reflexivity. Qed.

Lemma list_comp_total {B} (f : pyval -> outcome exn B) (items : list pyval) :
  Forall (fun x => exists y, f x = Return y) items ->
  exists ys, list_comp f (PList items) = Return ys
             /\ Forall2 (fun x y => f x = Return y) items ys
             /\ length ys = length items.
Proof.
  intros Hall. destruct (mapM_total f items Hall) as (ys & Hys).
  exists ys. rewrite list_comp_PList. split; [exact Hys|].
  split; [now apply mapM_Forall2 | now apply mapM_length in Hys].
Qed.

Lemma dict_get_present (d : pydict) (k : string) (v default : pyval) :
  dict_lookup d k = Some v -> dict_get d k default = v.
Proof. unfold dict_get. now intros ->. Qed.

Lemma dict_get_absent (d : pydict) (k : string) (default : pyval) :
  dict_lookup d k = None -> dict_get d k default = default.
Proof. unfold dict_get. now intros ->. Qed.

Ltac invert_binds H :=
  repeat (apply bind_Return_inv in H;
          let x := fresh "x" in
          let Hx := fresh "Hx" in
          destruct H as (x & Hx & H)).

(** Resolve a step whose key is known to be absent. *)
Ltac absent_step Habs Hx :=
  rewrite (dict_get_absent _ _ _ Habs) in Hx; cbn in Hx;
  injection Hx as <-; reflexivity.

(* ------------------------------------------------------------------ *)
(** ** Error classification *)

Lemma default_messages_documented (s : Z) :
  int_dict_get UnionClient.USPTOError.default_messages s "Unknown Error"
  = documented_message s
  /\ int_dict_get RaisingClient.USPTOError.default_messages s "Unknown Error"
     = documented_message s.
Proof.
  unfold documented_message. simpl.
  rewrite !(Z.eqb_sym s). split; reflexivity.
Qed.

Lemma union_from_dict_fields (d : pydict) (s : Z) :
  exists e, UnionClient.USPTOError.from_dict (PDict d) s = Return e
            /\ union_fields e = documented_fields d s.
Proof.
  unfold UnionClient.USPTOError.from_dict, documented_fields.
  destruct (default_messages_documented s) as [<- _].
  cbn [py_get bind]. unfold dict_get.
  destruct (dict_lookup d "errorDetails") as [v|]; cbn [py_truthy bind].
  - destruct (py_truthy v); cbn [bind]; eexists; split; reflexivity.
  - eexists; split; reflexivity.
Qed.

Lemma raising_from_dict_fields {R : Renderer} (d : pydict) (s : Z) :
  exists e, RaisingClient.USPTOError.from_dict (PDict d) s = Return e
            /\ raising_fields e = documented_fields d s.
Proof.
  unfold RaisingClient.USPTOError.from_dict, documented_fields.
  destruct (default_messages_documented s) as [_ <-].
  cbn [py_get bind]. unfold dict_get.
  destruct (dict_lookup d "errorDetails") as [v|]; cbn [py_truthy bind].
  - destruct (py_truthy v); cbn [bind]; eexists; split; reflexivity.
  - eexists; split; reflexivity.
Qed.

Lemma from_dict_not_a_dict {R : Renderer} (data : pyval) (s : Z) :
  (forall d, data <> PDict d) ->
  UnionClient.USPTOError.from_dict data s = Raise (AttributeError "get")
  /\ RaisingClient.USPTOError.from_dict data s = Raise (AttributeError "get").
Proof.
  intros Hnot. destruct data; try (split; reflexivity).
  exfalso. now apply (Hnot d).
Qed.

(** Every endpoint is its request followed by the shared response handling. *)
Lemma union_request_outcome {R : Renderer} {A} (self : UnionClient.USPTOClient.t)
    (net : network) (url : string) (parse_func : pyval -> outcome exn A) (b : bool) :
  fst (UnionClient.USPTOClient.request self net url parse_func b)
  = fst (UnionClient.USPTOClient.respond
           (net url (UnionClient.USPTOClient.headers self)) parse_func b).
Proof.
  unfold UnionClient.USPTOClient.request.
  now destruct (UnionClient.USPTOClient.respond _ _ _).
Qed.

Lemma raising_request_outcome {R : Renderer} {A} (self : RaisingClient.USPTOClient.t)
    (url : string) (parse_func : pyval -> outcome exn A) :
  fst (RaisingClient.USPTOClient.request self url parse_func)
  = fst (RaisingClient.USPTOClient._handle_response self
           (RaisingClient.USPTOClient.session self url
              (RaisingClient.USPTOClient.headers self)) parse_func).
Proof.
  unfold RaisingClient.USPTOClient.request.
  now destruct (RaisingClient.USPTOClient._handle_response _ _ _).
Qed.

(** C1 (as amended): for every status other than 200 and every body that is
    a JSON object, or that fails to decode (then read as the empty mapping),
    [_handle_response] raises, and the Union-returning endpoints return, a
    [USPTOError] whose code is the body's 'code' if present, else the status;
    whose error is the body's 'error' if present, else the documented table
    at the status, else "Unknown Error"; whose detail is the 'errorDetails'
    value when that is truthy, otherwise the 'errorDetailed' value ([None]
    when absent); and whose request identifier is the body's
    'requestIdentifier' ([None] when absent).  With status 404 and an
    undecodable body the fields are 404, "Not Found", [None], [None].
    Every endpoint method is [request] at its own URL and parser, so the
    same holds of each of them when the server answers with [resp]. *)
Theorem C1_error_classification {R : Renderer} {A}
    (self : RaisingClient.USPTOClient.t) (resp : response)
    (parse_func : pyval -> outcome exn A) (with_description : bool) (d : pydict) :
  status resp <> 200%Z ->
  json resp = Some (PDict d) \/ (json resp = None /\ d = []) ->
  exists e u,
    fst (RaisingClient.USPTOClient._handle_response self resp parse_func)
    = Raise (RaisingClient.ApiError e)
    /\ fst (UnionClient.USPTOClient.respond resp parse_func with_description)
       = Return (inr u)
    /\ raising_fields e = documented_fields d (status resp)
    /\ union_fields u = documented_fields d (status resp)
    /\ (json resp = None -> status resp = 404%Z ->
        raising_fields e = (PInt 404, PStr "Not Found", PNone, PNone)
        /\ union_fields u = (PInt 404, PStr "Not Found", PNone, PNone))
    /\ (forall (client : RaisingClient.USPTOClient.t) (url : string),
        RaisingClient.USPTOClient.session client url
          (RaisingClient.USPTOClient.headers client) = resp ->
        fst (RaisingClient.USPTOClient.request client url parse_func)
        = Raise (RaisingClient.ApiError e))
    /\ (forall (client : UnionClient.USPTOClient.t) (net : network) (url : string),
        net url (UnionClient.USPTOClient.headers client) = resp ->
        fst (UnionClient.USPTOClient.request client net url parse_func with_description)
        = Return (inr u)).
Proof.
  intros Hstatus Hbody.
  assert (Hfields : json resp = None -> status resp = 404%Z ->
                    documented_fields d (status resp)
                    = (PInt 404, PStr "Not Found", PNone, PNone)).
  { intros Hnone H404. destruct Hbody as [Hsome | [_ ->]]; [congruence|].
    rewrite H404. reflexivity. }
  assert (Hdata : match json resp with Some body => body | None => PDict [] end = PDict d).
  { destruct Hbody as [-> | [-> ->]]; reflexivity. }
  destruct (raising_from_dict_fields d (status resp)) as (e & He & Hfe).
  destruct (union_from_dict_fields d (status resp)) as (u & Hu & Hfu).
  apply Z.eqb_neq in Hstatus.
  assert (Hraising : forall client,
             fst (RaisingClient.USPTOClient._handle_response client resp parse_func)
             = Raise (RaisingClient.ApiError e)).
  { intros client. unfold RaisingClient.USPTOClient._handle_response.
    rewrite Hdata, Hstatus, He. reflexivity. }
  assert (Hunion : fst (UnionClient.USPTOClient.respond resp parse_func with_description)
                   = Return (inr u)).
  { unfold UnionClient.USPTOClient.respond. rewrite Hdata, Hstatus, Hu. reflexivity. }
  exists e, u.
  split; [apply Hraising|]. split; [exact Hunion|].
  split; [exact Hfe|]. split; [exact Hfu|].
  split; [intros Hnone H404; rewrite Hfe, Hfu; split; now apply Hfields|].
  split.
  - intros client url Hresp. rewrite raising_request_outcome, Hresp. apply Hraising.
  - intros client net url Hresp. rewrite union_request_outcome, Hresp. exact Hunion.
Qed.

(** C1 at status 404 with an undecodable body. *)
Lemma C1_error_classification_witness :
  exists e u,
    fst (RaisingClient.USPTOClient._handle_response (R := plain_renderer)
           sample_raising_client (mkresponse 404 None [])
           TransactionCollection.from_dict)
    = Raise (RaisingClient.ApiError e)
    /\ fst (UnionClient.USPTOClient.respond (R := plain_renderer)
              (mkresponse 404 None []) TransactionCollection.from_dict false)
       = Return (inr u)
    /\ raising_fields e = (PInt 404, PStr "Not Found", PNone, PNone)
    /\ union_fields u = (PInt 404, PStr "Not Found", PNone, PNone).
Proof.
  destruct (C1_error_classification (R := plain_renderer) sample_raising_client
              (mkresponse 404 None []) TransactionCollection.from_dict false [])
    as (e & u & He & Hu & _ & _ & H404 & _).
  - simpl. lia.
  - right. split; reflexivity.
  - exists e, u. destruct H404 as [Hfe Hfu]; [reflexivity | reflexivity |].
    repeat split; assumption.
Defined.

(** C1 fails as stated: a body that decodes to JSON which is not an object
    (here the array [[]], status 500) makes both clients raise
    [AttributeError] instead of producing a [USPTOError]; and an empty
    'errorDetails' does not win over a later 'errorDetailed'. *)
Lemma C1_counterexample_non_mapping_body :
  fst (RaisingClient.USPTOClient._handle_response (R := plain_renderer)
         sample_raising_client (mkresponse 500 (Some (PList [])) [])
         TransactionCollection.from_dict)
  = Raise (RaisingClient.Builtin (AttributeError "get"))
  /\ fst (UnionClient.USPTOClient.respond (R := plain_renderer)
            (mkresponse 500 (Some (PList [])) [])
            TransactionCollection.from_dict false)
     = Raise (AttributeError "get")
  /\ UnionClient.USPTOError.from_dict
       (PDict [("errorDetails", PStr ""); ("errorDetailed", PStr "x")]) 500
     = Return (UnionClient.USPTOError.mk (PInt 500) (PStr "Internal Server Error")
                 (PStr "x") PNone).
Proof. repeat split; reflexivity. Qed.

(** C7: for every body dict and every status code the [from_dict] of the
    exception-raising client and the [from_dict] of the Union-returning
    client both produce an error, with the same code, error, error_details
    and request_identifier. *)
Theorem C7_clients_classify_identically {R : Renderer} (d : pydict) (status_code : Z) :
  exists e u,
    RaisingClient.USPTOError.from_dict (PDict d) status_code = Return e
    /\ UnionClient.USPTOError.from_dict (PDict d) status_code = Return u
    /\ RaisingClient.USPTOError.code e = UnionClient.USPTOError.code u
    /\ RaisingClient.USPTOError.error e = UnionClient.USPTOError.error u
    /\ RaisingClient.USPTOError.error_details e = UnionClient.USPTOError.error_details u
    /\ RaisingClient.USPTOError.request_identifier e
       = UnionClient.USPTOError.request_identifier u.
Proof.
  destruct (raising_from_dict_fields d status_code) as (e & He & Hfe).
  destruct (union_from_dict_fields d status_code) as (u & Hu & Hfu).
  exists e, u. rewrite <- Hfu in Hfe.
  unfold raising_fields, union_fields in Hfe.
  injection Hfe as Hc Herr Hd Hr.
  repeat split; assumption.
Qed.

(* ------------------------------------------------------------------ *)
(** ** Defaults of the per-record mappers *)

Lemma date_default : date_fromisoformat (PStr "1900-01-01") = Return sentinel_date.
Proof. reflexivity. Qed.

Lemma TransactionEvent_defaults (d : pydict) (r : TransactionEvent.t) :
  TransactionEvent.from_dict (PDict d) = Return r ->
  (dict_lookup d "eventCode" = None -> TransactionEvent.event_code r = PStr "")
  /\ (dict_lookup d "eventDescriptionText" = None ->
      TransactionEvent.event_description r = PStr "")
  /\ (dict_lookup d "eventDate" = None -> TransactionEvent.event_date r = sentinel_date).
Proof.
  unfold TransactionEvent.from_dict. cbn [py_get bind]. intros Hr.
  invert_binds Hr. injection Hr as <-. cbn.
  repeat split; intros Habs;
    try (now rewrite (dict_get_absent _ _ _ Habs));
    absent_step Habs Hx.
Qed.

Lemma TransactionEvent_returns (d : pydict) :
  dict_lookup d "eventDate" = None ->
  exists r, TransactionEvent.from_dict (PDict d) = Return r.
Proof.
  intros Habs. unfold TransactionEvent.from_dict. cbn [py_get bind].
  rewrite (dict_get_absent _ _ _ Habs), date_default. cbn [bind].
  eexists. reflexivity.
Qed.

Lemma ForeignPriority_defaults (d : pydict) (r : ForeignPriority.t) :
  ForeignPriority.from_dict (PDict d) = Return r ->
  (dict_lookup d "ipOfficeName" = None -> ForeignPriority.office_name r = PStr "")
  /\ (dict_lookup d "filingDate" = None -> ForeignPriority.filing_date r = sentinel_date)
  /\ (dict_lookup d "applicationNumberText" = None ->
      ForeignPriority.application_number r = PStr "").
Proof.
  unfold ForeignPriority.from_dict. cbn [py_get bind]. intros Hr.
  invert_binds Hr. injection Hr as <-. cbn.
  repeat split; intros Habs;
    try (now rewrite (dict_get_absent _ _ _ Habs));
    absent_step Habs Hx.
Qed.

Lemma ForeignPriority_returns (d : pydict) :
  dict_lookup d "filingDate" = None ->
  exists r, ForeignPriority.from_dict (PDict d) = Return r.
Proof.
  intros Habs. unfold ForeignPriority.from_dict. cbn [py_get bind].
  rewrite (dict_get_absent _ _ _ Habs), date_default. cbn [bind].
  eexists. reflexivity.
Qed.

(** [Address.from_dict] reads every key with [.get]; on a dict it always
    returns. *)
Lemma Address_from_dict_dict (d : pydict) :
  Address.from_dict (PDict d)
  = Return (Address.mk (dict_get d "addressLineOneText" (PStr ""))
                       (dict_get d "cityName" (PStr ""))
                       (dict_get d "geographicRegionCode" (PStr ""))
                       (dict_get d "addressLineTwoText" PNone)
                       (dict_get d "addressLineThreeText" PNone)
                       (dict_get d "postalCode" PNone)).
Proof. reflexivity. Qed.

Lemma Address_defaults (d : pydict) :
  exists r, Address.from_dict (PDict d) = Return r
  /\ (dict_lookup d "addressLineOneText" = None -> Address.line1 r = PStr "")
  /\ (dict_lookup d "cityName" = None -> Address.city r = PStr "")
  /\ (dict_lookup d "geographicRegionCode" = None ->
      Address.geographic_region r = PStr "")
  /\ (dict_lookup d "addressLineTwoText" = None -> Address.line2 r = PNone)
  /\ (dict_lookup d "addressLineThreeText" = None -> Address.line3 r = PNone)
  /\ (dict_lookup d "postalCode" = None -> Address.postal_code r = PNone).
Proof.
  eexists. split; [apply Address_from_dict_dict|]. cbn.
  repeat split; intros Habs; now rewrite (dict_get_absent _ _ _ Habs).
Qed.

Lemma Assignment_defaults (d : pydict) (r : Assignment.t) :
  Assignment.from_dict (PDict d) = Return r ->
  (dict_lookup d "assignmentReceivedDate" = None ->
   Assignment.received_date r = sentinel_date)
  /\ (dict_lookup d "assignmentRecordedDate" = None ->
      Assignment.recorded_date r = sentinel_date)
  /\ (dict_lookup d "assignmentMailedDate" = None ->
      Assignment.mailed_date r = sentinel_date)
  /\ (dict_lookup d "reelNumber" = None -> Assignment.reel_number r = 0%Z)
  /\ (dict_lookup d "frameNumber" = None -> Assignment.frame_number r = 0%Z)
  /\ (dict_lookup d "pageNumber" = None -> Assignment.page_number r = 0%Z)
  /\ (dict_lookup d "reelNumber/frameNumber" = None -> Assignment.reel_frame r = PStr "")
  /\ (dict_lookup d "conveyanceText" = None -> Assignment.conveyance_text r = PStr "")
  /\ (dict_lookup d "assignorBag" = None -> Assignment.assignors r = [])
  /\ (dict_lookup d "assigneeBag" = None -> Assignment.assignees r = [])
  /\ (dict_lookup d "correspondenceAddressBag" = None ->
      Assignment.correspondents r = []).
Proof.
  unfold Assignment.from_dict. cbn [py_get bind]. intros Hr.
  invert_binds Hr. injection Hr as <-. cbn.
  repeat split; intros Habs;
    try (now rewrite (dict_get_absent _ _ _ Habs));
    match goal with
    | Hx : _ = Return ?v |- ?v = _ => absent_step Habs Hx
    end.
Qed.

Lemma Assignment_returns (d : pydict) :
  dict_lookup d "assignmentReceivedDate" = None ->
  dict_lookup d "assignmentRecordedDate" = None ->
  dict_lookup d "assignmentMailedDate" = None ->
  dict_lookup d "reelNumber" = None ->
  dict_lookup d "frameNumber" = None ->
  dict_lookup d "pageNumber" = None ->
  dict_lookup d "assignorBag" = None ->
  dict_lookup d "assigneeBag" = None ->
  dict_lookup d "correspondenceAddressBag" = None ->
  exists r, Assignment.from_dict (PDict d) = Return r.
Proof.
  intros H1 H2 H3 H4 H5 H6 H7 H8 H9.
  unfold Assignment.from_dict. cbn [py_get bind].
  rewrite (dict_get_absent _ _ _ H1), (dict_get_absent _ _ _ H2),
    (dict_get_absent _ _ _ H3), (dict_get_absent _ _ _ H4),
    (dict_get_absent _ _ _ H5), (dict_get_absent _ _ _ H6),
    (dict_get_absent _ _ _ H7), (dict_get_absent _ _ _ H8),
    (dict_get_absent _ _ _ H9), date_default.
  cbn. eexists. reflexivity.
Qed.

Lemma DownloadOption_requires (d : pydict) :
  (dict_lookup d "mimeTypeIdentifier" = None ->
   DownloadOption.from_dict (PDict d) = Raise (KeyError "mimeTypeIdentifier"))
  /\ (dict_lookup d "mimeTypeIdentifier" <> None ->
      dict_lookup d "downloadUrl" = None ->
      DownloadOption.from_dict (PDict d) = Raise (KeyError "downloadUrl"))
  /\ (forall r, DownloadOption.from_dict (PDict d) = Return r ->
      dict_lookup d "pageTotalQuantity" = None -> DownloadOption.page_count r = PNone).
Proof.
  unfold DownloadOption.from_dict, py_getitem. repeat split.
  - now intros ->.
  - intros Hm Hu. destruct (dict_lookup d "mimeTypeIdentifier"); [|congruence].
    cbn [bind]. now rewrite Hu.
  - intros r Hr Habs.
    destruct (dict_lookup d "mimeTypeIdentifier"); [|discriminate].
    destruct (dict_lookup d "downloadUrl"); [|discriminate].
    cbn in Hr. injection Hr as <-. cbn. now rewrite (dict_get_absent _ _ _ Habs).
Qed.

Lemma PatentDocument_requires (d : pydict) :
  (dict_lookup d "applicationNumberText" = None ->
   PatentDocument.from_dict (PDict d) = Raise (KeyError "applicationNumberText"))
  /\ (forall r, PatentDocument.from_dict (PDict d) = Return r ->
      Forall (fun k => dict_lookup d k <> None) PatentDocument_required
      /\ (dict_lookup d "downloadOptionBag" = None ->
          PatentDocument.download_options r = [])).
Proof.
  unfold PatentDocument.from_dict, py_getitem. split.
  - now intros ->.
  - intros r Hr.
    destruct (dict_lookup d "applicationNumberText") eqn:E1; [|discriminate].
    destruct (dict_lookup d "officialDate") eqn:E2; [|discriminate].
    cbn [bind] in Hr.
    apply bind_Return_inv in Hr. destruct Hr as (norm & _ & Hr).
    apply bind_Return_inv in Hr. destruct Hr as (stamp & _ & Hr).
    destruct (dict_lookup d "documentIdentifier") eqn:E3; [|discriminate].
    destruct (dict_lookup d "documentCode") eqn:E4; [|discriminate].
    destruct (dict_lookup d "documentCodeDescriptionText") eqn:E5; [|discriminate].
    destruct (dict_lookup d "directionCategory") eqn:E6; [|discriminate].
    cbn [bind py_get] in Hr.
    apply bind_Return_inv in Hr. destruct Hr as (opts & Hopts & Hr).
    injection Hr as <-. cbn. split.
    + unfold PatentDocument_required.
      repeat constructor; congruence.
    + intros Habs. rewrite (dict_get_absent _ _ _ Habs) in Hopts.
      cbn in Hopts. now injection Hopts as <-.
Qed.

(** A mapper that raises only on present values maps every tree whose
    present values are accepted. *)
Lemma maps_partial_of_raises_only {T} (from_dict : pyval -> outcome exn T)
    (converted : list (string * (pyval -> option exn))) (d : pydict) :
  raises_only_on_present from_dict converted d ->
  maps_partial_tree from_dict converted d.
Proof.
  intros Hraises Haccepted.
  destruct (from_dict (PDict d)) as [r|e] eqn:Hrun; [now exists r|].
  destruct (Hraises e Hrun) as (key & convert & v & Hin & Hl & Hc).
  rewrite (Haccepted key convert v Hin Hl) in Hc. discriminate.
Qed.

(** One converted key of a mapper: present, its converter decides; absent,
    the default converts. *)
Ltac converted_key H key :=
  match type of H with
  | bind (?conv (dict_get ?d key ?default)) _ = Raise ?e =>
      let v := fresh "v" in
      let Hk := fresh "Hk" in
      let Hc := fresh "Hc" in
      destruct (dict_lookup d key) as [v|] eqn:Hk;
      [ rewrite (dict_get_present _ _ _ _ Hk) in H;
        destruct (conv v) eqn:Hc; cbn [bind] in H;
        [ | injection H as <-; exists key, (failure conv), v;
            split; [cbn; auto 12 | split; [exact Hk | unfold failure; now rewrite Hc]] ]
      | rewrite (dict_get_absent _ _ _ Hk) in H;
        first [ rewrite date_default in H
              | change (conv default) with (@Return exn _ 0%Z) in H
              | change (conv default) with (@Return exn _ (@nil Assignor.t)) in H
              | change (conv default) with (@Return exn _ (@nil Assignee.t)) in H
              | change (conv default) with (@Return exn _ (@nil Correspondent.t)) in H ];
        cbn [bind] in H ]
  end.

Lemma TransactionEvent_raises_only (d : pydict) :
  raises_only_on_present TransactionEvent.from_dict TransactionEvent_converted d.
Proof.
  intros e. unfold TransactionEvent.from_dict. cbn [py_get bind]. intros H.
  converted_key H "eventDate"; discriminate H.
Qed.

Lemma ForeignPriority_raises_only (d : pydict) :
  raises_only_on_present ForeignPriority.from_dict ForeignPriority_converted d.
Proof.
  intros e. unfold ForeignPriority.from_dict. cbn [py_get bind]. intros H.
  converted_key H "filingDate"; discriminate H.
Qed.

Lemma Assignment_raises_only (d : pydict) :
  raises_only_on_present Assignment.from_dict Assignment_converted d.
Proof.
  intros e. unfold Assignment.from_dict. cbn [py_get bind]. intros H.
  converted_key H "assignmentReceivedDate";
  converted_key H "assignmentRecordedDate";
  converted_key H "assignmentMailedDate";
  converted_key H "reelNumber";
  converted_key H "frameNumber";
  converted_key H "pageNumber";
  converted_key H "assignorBag";
  converted_key H "assigneeBag";
  converted_key H "correspondenceAddressBag";
  discriminate H.
Qed.

(** C2 (as amended): for every JSON object given to [TransactionEvent],
    [ForeignPriority], [Assignment] or [Address] [.from_dict], a field whose
    key is absent carries its default (empty string for text, [None] for
    the optional address lines and postal code, 1900-01-01 for dates, zero
    for integers, the empty sequence for repeated groups), and no absent
    key makes the mapper raise: it raises only when a date, integer or bag
    key that is present holds a value its converter refuses, and then with
    the converter's exception; so it maps every partial tree whose present
    values convert.  [Address.from_dict] converts nothing and always
    returns.  [DownloadOption.from_dict] and [PatentDocument.from_dict]
    default only 'pageTotalQuantity' ([None]) and 'downloadOptionBag'
    (empty sequence): a key they read by subscript is required, and its
    absence is a [KeyError]. *)
Theorem C2_mapper_defaults (d : pydict) :
  (* TransactionEvent *)
  ((forall r, TransactionEvent.from_dict (PDict d) = Return r ->
      (dict_lookup d "eventCode" = None -> TransactionEvent.event_code r = PStr "")
      /\ (dict_lookup d "eventDescriptionText" = None ->
          TransactionEvent.event_description r = PStr "")
      /\ (dict_lookup d "eventDate" = None ->
          TransactionEvent.event_date r = mkdate 1900 1 1))
   /\ (dict_lookup d "eventDate" = None ->
       exists r, TransactionEvent.from_dict (PDict d) = Return r)
   /\ raises_only_on_present TransactionEvent.from_dict TransactionEvent_converted d
   /\ maps_partial_tree TransactionEvent.from_dict TransactionEvent_converted d)
  (* ForeignPriority *)
  /\ ((forall r, ForeignPriority.from_dict (PDict d) = Return r ->
         (dict_lookup d "ipOfficeName" = None -> ForeignPriority.office_name r = PStr "")
         /\ (dict_lookup d "filingDate" = None ->
             ForeignPriority.filing_date r = mkdate 1900 1 1)
         /\ (dict_lookup d "applicationNumberText" = None ->
             ForeignPriority.application_number r = PStr ""))
      /\ (dict_lookup d "filingDate" = None ->
          exists r, ForeignPriority.from_dict (PDict d) = Return r)
      /\ raises_only_on_present ForeignPriority.from_dict ForeignPriority_converted d
      /\ maps_partial_tree ForeignPriority.from_dict ForeignPriority_converted d)
  (* Address *)
  /\ (exists r, Address.from_dict (PDict d) = Return r
      /\ (dict_lookup d "addressLineOneText" = None -> Address.line1 r = PStr "")
      /\ (dict_lookup d "cityName" = None -> Address.city r = PStr "")
      /\ (dict_lookup d "geographicRegionCode" = None ->
          Address.geographic_region r = PStr "")
      /\ (dict_lookup d "addressLineTwoText" = None -> Address.line2 r = PNone)
      /\ (dict_lookup d "addressLineThreeText" = None -> Address.line3 r = PNone)
      /\ (dict_lookup d "postalCode" = None -> Address.postal_code r = PNone))
  (* Assignment *)
  /\ ((forall r, Assignment.from_dict (PDict d) = Return r ->
         (dict_lookup d "assignmentReceivedDate" = None ->
          Assignment.received_date r = mkdate 1900 1 1)
         /\ (dict_lookup d "assignmentRecordedDate" = None ->
             Assignment.recorded_date r = mkdate 1900 1 1)
         /\ (dict_lookup d "assignmentMailedDate" = None ->
             Assignment.mailed_date r = mkdate 1900 1 1)
         /\ (dict_lookup d "reelNumber" = None -> Assignment.reel_number r = 0%Z)
         /\ (dict_lookup d "frameNumber" = None -> Assignment.frame_number r = 0%Z)
         /\ (dict_lookup d "pageNumber" = None -> Assignment.page_number r = 0%Z)
         /\ (dict_lookup d "reelNumber/frameNumber" = None ->
             Assignment.reel_frame r = PStr "")
         /\ (dict_lookup d "conveyanceText" = None ->
             Assignment.conveyance_text r = PStr "")
         /\ (dict_lookup d "assignorBag" = None -> Assignment.assignors r = [])
         /\ (dict_lookup d "assigneeBag" = None -> Assignment.assignees r = [])
         /\ (dict_lookup d "correspondenceAddressBag" = None ->
             Assignment.correspondents r = []))
      /\ (dict_lookup d "assignmentReceivedDate" = None ->
          dict_lookup d "assignmentRecordedDate" = None ->
          dict_lookup d "assignmentMailedDate" = None ->
          dict_lookup d "reelNumber" = None ->
          dict_lookup d "frameNumber" = None ->
          dict_lookup d "pageNumber" = None ->
          dict_lookup d "assignorBag" = None ->
          dict_lookup d "assigneeBag" = None ->
          dict_lookup d "correspondenceAddressBag" = None ->
          exists r, Assignment.from_dict (PDict d) = Return r)
      /\ raises_only_on_present Assignment.from_dict Assignment_converted d
      /\ maps_partial_tree Assignment.from_dict Assignment_converted d)
  (* DownloadOption *)
  /\ ((dict_lookup d "mimeTypeIdentifier" = None ->
       DownloadOption.from_dict (PDict d) = Raise (KeyError "mimeTypeIdentifier"))
      /\ (dict_lookup d "mimeTypeIdentifier" <> None ->
          dict_lookup d "downloadUrl" = None ->
          DownloadOption.from_dict (PDict d) = Raise (KeyError "downloadUrl"))
      /\ (forall r, DownloadOption.from_dict (PDict d) = Return r ->
          dict_lookup d "pageTotalQuantity" = None ->
          DownloadOption.page_count r = PNone))
  (* PatentDocument *)
  /\ ((dict_lookup d "applicationNumberText" = None ->
       PatentDocument.from_dict (PDict d) = Raise (KeyError "applicationNumberText"))
      /\ (forall r, PatentDocument.from_dict (PDict d) = Return r ->
          Forall (fun k => dict_lookup d k <> None)
                 [ "applicationNumberText"; "officialDate"; "documentIdentifier";
                   "documentCode"; "documentCodeDescriptionText";
                   "directionCategory" ]
          /\ (dict_lookup d "downloadOptionBag" = None ->
              PatentDocument.download_options r = []))).
Proof.
  split.
  { split; [apply TransactionEvent_defaults|].
    split; [apply TransactionEvent_returns|].
    split; [apply TransactionEvent_raises_only|].
    apply maps_partial_of_raises_only, TransactionEvent_raises_only. }
  split.
  { split; [apply ForeignPriority_defaults|].
    split; [apply ForeignPriority_returns|].
    split; [apply ForeignPriority_raises_only|].
    apply maps_partial_of_raises_only, ForeignPriority_raises_only. }
  split; [apply Address_defaults|].
  split.
  { split; [apply Assignment_defaults|].
    split; [apply Assignment_returns|].
    split; [apply Assignment_raises_only|].
    apply maps_partial_of_raises_only, Assignment_raises_only. }
  split; [apply DownloadOption_requires | apply PatentDocument_requires].
Qed.

(** C2 on the empty object, which maps to the default record, and on an
    assignment that holds nothing but its date of receipt, which maps too,
    with the defaults in the fields it lacks. *)
Lemma C2_mapper_defaults_witness :
  (exists r, Assignment.from_dict (PDict []) = Return r
      /\ Assignment.reel_number r = 0%Z
      /\ Assignment.mailed_date r = mkdate 1900 1 1
      /\ Assignment.assignors r = [])
  /\ (exists r,
        Assignment.from_dict (PDict [("assignmentReceivedDate", PStr "2024-01-01")])
        = Return r
        /\ Assignment.reel_number r = 0%Z
        /\ Assignment.mailed_date r = mkdate 1900 1 1
        /\ Assignment.assignors r = []).
Proof.
  split.
  - destruct (C2_mapper_defaults []) as (_ & _ & _ & (Has & Hret & _) & _).
    destruct Hret as (r & Hr); try reflexivity.
    exists r. destruct (Has r Hr) as (_ & _ & Hm & Hreel & _ & _ & _ & _ & Hbag & _).
    repeat split; [exact Hr | now apply Hreel | now apply Hm | now apply Hbag].
  - destruct (C2_mapper_defaults [("assignmentReceivedDate", PStr "2024-01-01")])
      as (_ & _ & _ & (Has & _ & _ & Hmaps) & _).
    destruct Hmaps as (r & Hr).
    { intros key convert v Hin Hl. cbn in Hin.
      repeat (destruct Hin as [Hin|Hin];
              [injection Hin as <- <-; cbn in Hl;
               first [discriminate Hl | injection Hl as <-; reflexivity]|]).
      contradiction. }
    exists r. destruct (Has r Hr) as (_ & _ & Hm & Hreel & _ & _ & _ & _ & Hbag & _).
    repeat split; [exact Hr | now apply Hreel | now apply Hm | now apply Hbag].
Defined.

(** C2 fails as stated for [PatentDocument] and [DownloadOption]: on the
    empty object they raise [KeyError] instead of substituting defaults. *)
Lemma C2_counterexample_required_keys :
  PatentDocument.from_dict (PDict []) = Raise (KeyError "applicationNumberText")
  /\ DownloadOption.from_dict (PDict []) = Raise (KeyError "mimeTypeIdentifier")
  /\ DownloadOption.from_dict (PDict [("mimeTypeIdentifier", PStr "PDF")])
     = Raise (KeyError "downloadUrl").
Proof. repeat split; reflexivity. Qed.

(* ------------------------------------------------------------------ *)
(** ** Collections *)

Lemma list_comp_inv {B} (f : pyval -> outcome exn B) (v : pyval) (ys : list B) :
  list_comp f v = Return ys ->
  exists items, py_iter v = Return items /\ mapped_itemwise f items ys.
Proof.
  unfold list_comp. intros Hc.
  apply bind_Return_inv in Hc. destruct Hc as (items & Hiter & Hmap).
  exists items. split; [exact Hiter | now apply mapM_Forall2].
Qed.

Lemma list_comp_accepted {B} (f : pyval -> outcome exn B) (items : list pyval) :
  Forall (accepted f) items ->
  exists ys, list_comp f (PList items) = Return ys
             /\ mapped_itemwise f items ys
             /\ length ys = length items.
Proof. apply list_comp_total. Qed.

Lemma TransactionCollection_shape (d : pydict) (r : TransactionCollection.t) :
  TransactionCollection.from_dict (PDict d) = Return r ->
  TransactionCollection.count r = dict_get d "count" (PInt 0)
  /\ list_comp ApplicationTransactions.from_dict
       (dict_get d "patentFileWrapperDataBag" (PList []))
     = Return (TransactionCollection.transactions r)
  /\ TransactionCollection.request_identifier r = dict_get d "requestIdentifier" PNone.
Proof.
  unfold TransactionCollection.from_dict. cbn [py_get bind]. intros Hr.
  invert_binds Hr. injection Hr as <-. cbn. auto.
Qed.

Lemma AssignmentCollection_shape (d : pydict) (r : AssignmentCollection.t) :
  AssignmentCollection.from_dict (PDict d) = Return r ->
  AssignmentCollection.count r = dict_get d "count" (PInt 0)
  /\ list_comp ApplicationAssignment.from_dict
       (dict_get d "patentFileWrapperDataBag" (PList []))
     = Return (AssignmentCollection.assignments r)
  /\ AssignmentCollection.request_identifier r = dict_get d "requestIdentifier" PNone.
Proof.
  unfold AssignmentCollection.from_dict. cbn [py_get bind]. intros Hr.
  invert_binds Hr. injection Hr as <-. cbn. auto.
Qed.

Lemma ForeignPriorityCollection_shape (d : pydict) (r : ForeignPriorityCollection.t) :
  ForeignPriorityCollection.from_dict (PDict d) = Return r ->
  ForeignPriorityCollection.count r = dict_get d "count" (PInt 0)
  /\ list_comp ForeignPriorityData.from_dict
       (dict_get d "patentFileWrapperDataBag" (PList []))
     = Return (ForeignPriorityCollection.priorities r).
Proof.
  unfold ForeignPriorityCollection.from_dict. cbn [py_get bind]. intros Hr.
  invert_binds Hr. injection Hr as <-. cbn. auto.
Qed.

Lemma PatentDocumentCollection_shape (d : pydict) (r : PatentDocumentCollection.t) :
  PatentDocumentCollection.from_dict (PDict d) = Return r ->
  list_comp PatentDocument.from_dict (dict_get d "documentBag" (PList []))
  = Return (PatentDocumentCollection.documents r).
Proof.
  unfold PatentDocumentCollection.from_dict. cbn [py_get bind]. intros Hr.
  invert_binds Hr. injection Hr as <-. cbn. auto.
Qed.

(** Solve a round trip once the mapper is unfolded: the bag is a list whose
    items are all accepted. *)
Ltac round_trip :=
  intros d items N Hcount Hbag Hlen Hall;
  destruct (list_comp_accepted _ items Hall) as (ys & Hys & Hmapped & Hlength);
  cbn [py_get bind];
  rewrite ?(dict_get_present _ _ _ _ Hbag), Hys; cbn [bind];
  eexists; split; [reflexivity|]; cbn; split; [congruence | exact Hmapped].

(** C3: a well-formed collection body whose 'count' is N and whose bag holds
    N item trees maps to a record with exactly N items, each bag element
    mapped to one record in order; for the transaction, foreign-priority,
    assignment and document collections. *)
Theorem C3_collection_round_trip :
  collection_round_trip TransactionCollection.from_dict
    TransactionCollection.transactions "patentFileWrapperDataBag"
    ApplicationTransactions.from_dict
  /\ collection_round_trip ForeignPriorityCollection.from_dict
       ForeignPriorityCollection.priorities "patentFileWrapperDataBag"
       ForeignPriorityData.from_dict
  /\ collection_round_trip AssignmentCollection.from_dict
       AssignmentCollection.assignments "patentFileWrapperDataBag"
       ApplicationAssignment.from_dict
  /\ collection_round_trip PatentDocumentCollection.from_dict
       PatentDocumentCollection.documents "documentBag"
       PatentDocument.from_dict.
Proof.
  repeat split.
  - unfold TransactionCollection.from_dict. round_trip.
  - unfold ForeignPriorityCollection.from_dict. round_trip.
  - unfold AssignmentCollection.from_dict. round_trip.
  - unfold PatentDocumentCollection.from_dict. round_trip.
Qed.

(** C3 on a transaction body with count 2 and two application trees. *)
Lemma C3_collection_round_trip_witness :
  exists r, TransactionCollection.from_dict (PDict sample_transactions_body) = Return r
            /\ Z.of_nat (length (TransactionCollection.transactions r)) = 2%Z.
Proof.
  destruct C3_collection_round_trip as (Htransactions & _).
  destruct (Htransactions sample_transactions_body
              [ PDict [ ("applicationNumberText", PStr "12345678");
                        ("eventDataBag",
                         PList [sample_event "EML_NTR"; sample_event "MM327"]) ];
                PDict [ ("applicationNumberText", PStr "87654321") ] ]
              2%Z)
    as (r & Hr & Hlen & _).
  - reflexivity.
  - reflexivity.
  - reflexivity.
  - repeat constructor; eexists; reflexivity.
  - exists r. split; assumption.
Defined.

Lemma items_from_bag_of_list_comp {I} (f : pyval -> outcome exn I)
    (d : pydict) (bag_key : string) (mapped : list I) :
  list_comp f (dict_get d bag_key (PList [])) = Return mapped ->
  items_from_bag f d bag_key mapped.
Proof. intros Hc. apply list_comp_inv in Hc. exact Hc. Qed.

(** C4 (as amended): a record produced by [TransactionCollection.from_dict]
    or [AssignmentCollection.from_dict] carries the body's 'count' (0 when
    omitted), the bag mapped item by item in order, and the body's
    'requestIdentifier' ([None] when omitted); one produced by
    [ForeignPriorityCollection.from_dict] carries the count and the items
    and no request identifier; one produced by
    [PatentDocumentCollection.from_dict] carries the items only. *)
Theorem C4_collection_shape (d : pydict) :
  (forall r, TransactionCollection.from_dict (PDict d) = Return r ->
     TransactionCollection.count r
     = match dict_lookup d "count" with Some v => v | None => PInt 0 end
     /\ items_from_bag ApplicationTransactions.from_dict d "patentFileWrapperDataBag"
          (TransactionCollection.transactions r)
     /\ TransactionCollection.request_identifier r
        = match dict_lookup d "requestIdentifier" with Some v => v | None => PNone end)
  /\ (forall r, AssignmentCollection.from_dict (PDict d) = Return r ->
        AssignmentCollection.count r
        = match dict_lookup d "count" with Some v => v | None => PInt 0 end
        /\ items_from_bag ApplicationAssignment.from_dict d "patentFileWrapperDataBag"
             (AssignmentCollection.assignments r)
        /\ AssignmentCollection.request_identifier r
           = match dict_lookup d "requestIdentifier" with Some v => v | None => PNone end)
  /\ (forall r, ForeignPriorityCollection.from_dict (PDict d) = Return r ->
        ForeignPriorityCollection.count r
        = match dict_lookup d "count" with Some v => v | None => PInt 0 end
        /\ items_from_bag ForeignPriorityData.from_dict d "patentFileWrapperDataBag"
             (ForeignPriorityCollection.priorities r))
  /\ (forall r, PatentDocumentCollection.from_dict (PDict d) = Return r ->
        items_from_bag PatentDocument.from_dict d "documentBag"
          (PatentDocumentCollection.documents r)).
Proof.
  split; [|split; [|split]]; intros r Hr.
  - apply TransactionCollection_shape in Hr. destruct Hr as (Hcount & Hitems & Hrid).
    split; [exact Hcount|]. split; [|exact Hrid].
    now apply items_from_bag_of_list_comp.
  - apply AssignmentCollection_shape in Hr. destruct Hr as (Hcount & Hitems & Hrid).
    split; [exact Hcount|]. split; [|exact Hrid].
    now apply items_from_bag_of_list_comp.
  - apply ForeignPriorityCollection_shape in Hr. destruct Hr as (Hcount & Hitems).
    split; [exact Hcount|]. now apply items_from_bag_of_list_comp.
  - apply PatentDocumentCollection_shape in Hr.
    now apply items_from_bag_of_list_comp.
Qed.

(** C4 on the sample transaction body. *)
Lemma C4_collection_shape_witness :
  exists r, TransactionCollection.from_dict (PDict sample_transactions_body) = Return r
            /\ TransactionCollection.count r = PInt 2
            /\ TransactionCollection.request_identifier r
               = PStr "9d955e40-8ae9-4b05-ab6f-17d02e74d943".
Proof.
  destruct (C4_collection_shape sample_transactions_body) as (Htransactions & _).
  eexists. split; [reflexivity|].
  destruct (Htransactions _ eq_refl) as (Hcount & _ & Hrid).
  split; [exact Hcount | exact Hrid].
Defined.

(** C4 fails as stated: the foreign-priority collection drops the body's
    'requestIdentifier' (two bodies that differ only there map to the same
    record), and the document collection keeps neither the count nor the
    request identifier. *)
Lemma C4_counterexample_missing_fields :
  ForeignPriorityCollection.from_dict
    (PDict [("count", PInt 1); ("requestIdentifier", PStr "abc")])
  = Return (ForeignPriorityCollection.mk (PInt 1) [])
  /\ ForeignPriorityCollection.from_dict
       (PDict [("count", PInt 1); ("requestIdentifier", PStr "xyz")])
     = Return (ForeignPriorityCollection.mk (PInt 1) [])
  /\ PatentDocumentCollection.from_dict
       (PDict [("count", PInt 7); ("requestIdentifier", PStr "abc")])
     = Return (PatentDocumentCollection.mk [])
  /\ PatentDocumentCollection.from_dict (PDict [])
     = Return (PatentDocumentCollection.mk []).
Proof. repeat split; reflexivity. Qed.

(** C10: the count of a constructed collection record is the body's 'count'
    value as it stands (0 when absent), whatever the bag holds; a body with
    count 5 and an empty bag gives a record with count 5 and no items.  For
    the transaction, foreign-priority and assignment collections. *)
Theorem C10_count_verbatim (d : pydict) :
  (forall r, TransactionCollection.from_dict (PDict d) = Return r ->
     TransactionCollection.count r
     = match dict_lookup d "count" with Some v => v | None => PInt 0 end)
  /\ (forall r, ForeignPriorityCollection.from_dict (PDict d) = Return r ->
        ForeignPriorityCollection.count r
        = match dict_lookup d "count" with Some v => v | None => PInt 0 end)
  /\ (forall r, AssignmentCollection.from_dict (PDict d) = Return r ->
        AssignmentCollection.count r
        = match dict_lookup d "count" with Some v => v | None => PInt 0 end)
  /\ (forall v : pyval,
        TransactionCollection.from_dict
          (PDict [("count", v); ("patentFileWrapperDataBag", PList [])])
        = Return (TransactionCollection.mk v [] PNone)
        /\ ForeignPriorityCollection.from_dict
             (PDict [("count", v); ("patentFileWrapperDataBag", PList [])])
           = Return (ForeignPriorityCollection.mk v [])
        /\ AssignmentCollection.from_dict
             (PDict [("count", v); ("patentFileWrapperDataBag", PList [])])
           = Return (AssignmentCollection.mk v [] PNone)).
Proof.
  split; [|split; [|split]].
  - intros r Hr. now apply TransactionCollection_shape in Hr.
  - intros r Hr. now apply ForeignPriorityCollection_shape in Hr.
  - intros r Hr. now apply AssignmentCollection_shape in Hr.
  - intros v. repeat split; reflexivity.
Qed.

(** C10 with count 5 over an empty bag, and on the sample body. *)
Lemma C10_count_verbatim_witness :
  TransactionCollection.from_dict
    (PDict [("count", PInt 5); ("patentFileWrapperDataBag", PList [])])
  = Return (TransactionCollection.mk (PInt 5) [] PNone)
  /\ (exists r, TransactionCollection.from_dict (PDict sample_transactions_body) = Return r
                /\ TransactionCollection.count r = PInt 2).
Proof.
  destruct (C10_count_verbatim sample_transactions_body) as (Hcount & _ & _ & Hempty).
  split.
  - apply (Hempty (PInt 5)).
  - eexists. split; [reflexivity|]. apply (Hcount _ eq_refl).
Defined.

(* ------------------------------------------------------------------ *)
(** ** Document download *)

Lemma find_no_match (options : list DownloadOption.t) (types : list string)
    (mime_type : string) :
  map DownloadOption.mime_type options = map PStr types ->
  ~ In mime_type types ->
  find (fun opt => py_eq_str (DownloadOption.mime_type opt) mime_type) options = None.
Proof.
  revert types. induction options as [|opt options IH]; intros [|ty types] Hmap Hnot;
    try discriminate; [reflexivity|].
  cbn in Hmap. injection Hmap as Hopt Hrest. cbn [find].
  rewrite Hopt. cbn [py_eq_str].
  destruct (String.eqb_spec ty mime_type) as [->|_].
  - exfalso. apply Hnot. now left.
  - apply (IH types Hrest). intros Hin. apply Hnot. now right.
Qed.

Lemma join_items_text (types : list string) :
  mapM join_item (map PStr types) = Return types.
Proof.
  induction types as [|ty types IH]; [reflexivity|].
  cbn. rewrite IH. reflexivity.
Qed.

(** With no matching option the call ends at the checks, with an empty
    trace. *)
Lemma union_download_no_match {R : Renderer} (self : UnionClient.USPTOClient.t)
    (fs : filesystem) (net : network) (document : PatentDocument.t)
    (save_path : string) (filename : option string) (mime_type : string)
    (types : list string) :
  map DownloadOption.mime_type (PatentDocument.download_options document)
  = map PStr types ->
  ~ In mime_type types ->
  UnionClient.USPTOClient.download_document self fs net document save_path
    filename mime_type
  = (Raise (if negb (path_exists fs save_path)
            then FileNotFoundError ("Save path does not exist: " ++ save_path)
            else if negb (access_W_OK fs save_path)
                 then PermissionError ("Save path is not writable: " ++ save_path)
                 else format_unavailable mime_type types),
     []).
Proof.
  intros Hmap Hnot. unfold UnionClient.USPTOClient.download_document.
  rewrite (find_no_match _ _ _ Hmap Hnot), Hmap, join_items_text.
  destruct (path_exists fs save_path); [|reflexivity].
  destruct (access_W_OK fs save_path); reflexivity.
Qed.

Lemma raising_download_no_match {R : Renderer} (self : RaisingClient.USPTOClient.t)
    (fs : filesystem) (document : PatentDocument.t)
    (save_path : string) (filename : option string) (mime_type : string)
    (types : list string) :
  map DownloadOption.mime_type (PatentDocument.download_options document)
  = map PStr types ->
  ~ In mime_type types ->
  RaisingClient.USPTOClient.download_document self fs document save_path
    filename mime_type
  = (Raise (if negb (path_exists fs save_path)
            then FileNotFoundError ("Save path does not exist: " ++ save_path)
            else if negb (access_W_OK fs save_path)
                 then PermissionError ("Save path is not writable: " ++ save_path)
                 else format_unavailable mime_type types),
     []).
Proof.
  intros Hmap Hnot. unfold RaisingClient.USPTOClient.download_document.
  rewrite (find_no_match _ _ _ Hmap Hnot), Hmap, join_items_text.
  destruct (path_exists fs save_path); [|reflexivity].
  destruct (access_W_OK fs save_path); reflexivity.
Qed.

(** The save-path checks come before everything else, whatever the
    document and the requested format. *)
Lemma download_destination_unavailable {R : Renderer}
    (uself : UnionClient.USPTOClient.t) (rself : RaisingClient.USPTOClient.t)
    (fs : filesystem) (net : network) (document : PatentDocument.t)
    (save_path : string) (filename : option string) (mime_type : string) :
  path_exists fs save_path && access_W_OK fs save_path = false ->
  exists e,
    UnionClient.USPTOClient.download_document uself fs net document save_path
      filename mime_type = (Raise e, [])
    /\ RaisingClient.USPTOClient.download_document rself fs document save_path
         filename mime_type = (Raise e, []).
Proof.
  intros Hpath.
  unfold UnionClient.USPTOClient.download_document,
    RaisingClient.USPTOClient.download_document.
  destruct (path_exists fs save_path); cbn [negb andb] in *.
  - rewrite Hpath. cbn [negb]. eexists. split; reflexivity.
  - eexists. split; reflexivity.
Qed.

(** C5: when the requested mime type matches none of the document's
    download options, [download_document] (in either client) fails without
    any network request or other effect; with an existing, writable save
    path the failure is the [ValueError] whose message lists exactly the
    document's available mime types, in order. *)
Theorem C5_format_unavailable {R : Renderer}
    (uself : UnionClient.USPTOClient.t) (rself : RaisingClient.USPTOClient.t)
    (fs : filesystem) (net : network) (document : PatentDocument.t)
    (save_path : string) (filename : option string) (mime_type : string)
    (types : list string) :
  map DownloadOption.mime_type (PatentDocument.download_options document)
  = map PStr types ->
  ~ In mime_type types ->
  let union_run :=
    UnionClient.USPTOClient.download_document uself fs net document save_path
      filename mime_type in
  let raising_run :=
    RaisingClient.USPTOClient.download_document rself fs document save_path
      filename mime_type in
  (exists e, fst union_run = Raise e /\ fst raising_run = Raise e)
  /\ snd union_run = [] /\ snd raising_run = []
  /\ existsb is_network_event (snd union_run) = false
  /\ existsb is_network_event (snd raising_run) = false
  /\ (path_exists fs save_path = true -> access_W_OK fs save_path = true ->
      fst union_run = Raise (format_unavailable mime_type types)
      /\ fst raising_run = Raise (format_unavailable mime_type types)).
Proof.
  intros Hmap Hnot union_run raising_run.
  subst union_run raising_run.
  rewrite (union_download_no_match uself fs net document save_path filename
             mime_type types Hmap Hnot),
    (raising_download_no_match rself fs document save_path filename
       mime_type types Hmap Hnot).
  cbn [fst snd existsb].
  split; [eexists; split; reflexivity|].
  split; [reflexivity|]. split; [reflexivity|].
  split; [reflexivity|]. split; [reflexivity|].
  intros -> ->. split; reflexivity.
Qed.

(** C5 on a document offering PDF and XML when MS_WORD is requested. *)
Lemma C5_format_unavailable_witness :
  UnionClient.USPTOClient.download_document (R := plain_renderer)
    sample_union_client sample_fs sample_network sample_document "/tmp" None "MS_WORD"
  = (Raise (ValueError
       "Mime type 'MS_WORD' not available for this document. Available types: PDF, XML"),
     []).
Proof.
  pose proof (C5_format_unavailable (R := plain_renderer)
                sample_union_client sample_raising_client sample_fs sample_network
                sample_document "/tmp" None "MS_WORD" ["PDF"; "XML"]) as Hrun.
  cbv zeta in Hrun.
  destruct Hrun as (_ & Htrace & _ & _ & _ & Hfail).
  - reflexivity.
  - cbn. intros [Hpdf | [Hxml | []]]; discriminate.
  - destruct Hfail as (Hunion & _); [reflexivity | reflexivity |].
    rewrite (surjective_pairing (UnionClient.USPTOClient.download_document _ _ _ _ _ _ _)).
    rewrite Hunion, Htrace. reflexivity.
Defined.

(** A matching format does reach the network: the request is what the
    checks guard. *)
Example download_reaches_network :
  UnionClient.USPTOClient.download_document (R := plain_renderer)
    sample_union_client sample_fs sample_network sample_document "/tmp" None "PDF"
  = (Return "/tmp/12345678_NOA_DOC1.pdf",
     [ NetGet "https://example.test/doc1.pdf"
         [("accept", "application/json"); ("X-API-KEY", "test_api_key")];
       FileOpen "/tmp/12345678_NOA_DOC1.pdf";
       FileWrite "/tmp/12345678_NOA_DOC1.pdf" "%PDF";
       FileWrite "/tmp/12345678_NOA_DOC1.pdf" "-1.7";
       LogInfo "Successfully downloaded document DOC1 (PDF) to /tmp/12345678_NOA_DOC1.pdf" ]).
Proof. reflexivity. Qed.

(* ------------------------------------------------------------------ *)
(** ** Dates and timestamps *)

Lemma append_empty_r (s : string) : s ++ "" = s.
Proof. induction s as [|c s IH]; cbn; [reflexivity | now rewrite IH]. Qed.

Lemma append_assoc (a b c : string) : (a ++ b) ++ c = a ++ (b ++ c).
Proof. induction a as [|x a IH]; cbn; [reflexivity | now rewrite IH]. Qed.

Lemma length_append (a b : string) :
  String.length (a ++ b) = (String.length a + String.length b)%nat.
Proof. induction a as [|x a IH]; cbn; [reflexivity | now rewrite IH]. Qed.

Lemma skip_append (a b : string) : skip (String.length a) (a ++ b) = b.
Proof. induction a as [|x a IH]; cbn; [reflexivity | exact IH]. Qed.

Lemma decimal_digit_cases (x : Z) :
  is_decimal_digit x ->
  (x = 0 \/ x = 1 \/ x = 2 \/ x = 3 \/ x = 4 \/ x = 5 \/ x = 6 \/ x = 7 \/ x = 8 \/ x = 9)%Z.
Proof. unfold is_decimal_digit. lia. Qed.

Ltac each_digit x Hx :=
  apply decimal_digit_cases in Hx;
  repeat (destruct Hx as [Hx | Hx]); subst x.

Lemma digit_of_digit_char (x : Z) :
  is_decimal_digit x -> digit_of_ascii (digit_char x) = Some x.
Proof. intros Hx. each_digit x Hx; reflexivity. Qed.

Lemma is_digit_digit_char (x : Z) :
  is_decimal_digit x -> is_digit (digit_char x) = true.
Proof. intros Hx. each_digit x Hx; reflexivity. Qed.

(** A digit is none of the characters that are not digits. *)
Lemma digit_char_neq (x : Z) (c : ascii) :
  is_decimal_digit x -> is_digit c = false -> Ascii.eqb (digit_char x) c = false.
Proof.
  intros Hx Hc. destruct (Ascii.eqb_spec (digit_char x) c) as [<-|]; [|reflexivity].
  now rewrite (is_digit_digit_char x Hx) in Hc.
Qed.

Lemma tens_digit (n : Z) : (0 <= n < 100)%Z -> is_decimal_digit (n / 10).
Proof.
  intros Hn. unfold is_decimal_digit. split.
  - apply Z.div_pos; lia.
  - apply Z.div_lt_upper_bound; lia.
Qed.

Lemma units_digit (n : Z) : is_decimal_digit (n mod 10).
Proof. unfold is_decimal_digit. apply Z.mod_pos_bound. lia. Qed.

Lemma hundreds_digit (n : Z) : (0 <= n < 1000)%Z -> is_decimal_digit (n / 100).
Proof.
  intros Hn. unfold is_decimal_digit. split.
  - apply Z.div_pos; lia.
  - apply Z.div_lt_upper_bound; lia.
Qed.

(** [parse_digits] reads back what [fmt2], [fmt3], [fmt4] and [fmt6]
    print. *)
Lemma parse_digits_fmt2 (n acc : Z) (rest : string) :
  (0 <= n < 100)%Z ->
  parse_digits 2 acc (fmt2 n ++ rest) = Some ((100 * acc + n)%Z, rest).
Proof.
  intros Hn. unfold fmt2. cbn [append parse_digits].
  rewrite (digit_of_digit_char _ (tens_digit n Hn)). cbn [obind].
  rewrite (digit_of_digit_char _ (units_digit n)). cbn [obind].
  do 2 f_equal. pose proof (Z.div_mod n 10). lia.
Qed.

Lemma parse_digits_fmt3 (n acc : Z) (rest : string) :
  (0 <= n < 1000)%Z ->
  parse_digits 3 acc (fmt3 n ++ rest) = Some ((1000 * acc + n)%Z, rest).
Proof.
  intros Hn. unfold fmt3.
  assert (Hrest : (0 <= n mod 100 < 100)%Z) by (apply Z.mod_pos_bound; lia).
  change (parse_digits 3 acc (String (digit_char (n / 100)) (fmt2 (n mod 100)) ++ rest))
    with (d <~ digit_of_ascii (digit_char (n / 100)) ;;
          parse_digits 2 (10 * acc + d) (fmt2 (n mod 100) ++ rest)).
  rewrite (digit_of_digit_char _ (hundreds_digit n Hn)). cbn [obind].
  rewrite (parse_digits_fmt2 _ _ _ Hrest).
  do 2 f_equal. pose proof (Z.div_mod n 100). lia.
Qed.

Lemma parse_digits_split (a b : nat) (acc : Z) (p : string) :
  parse_digits (a + b) acc p
  = '(v, p') <~ parse_digits a acc p ;; parse_digits b v p'.
Proof.
  revert acc p. induction a as [|a IH]; intros acc p; [reflexivity|].
  cbn [Nat.add parse_digits]. destruct p as [|c rest]; [reflexivity|].
  destruct (digit_of_ascii c) as [d|]; [|reflexivity].
  cbn [obind]. apply IH.
Qed.

Lemma parse_digits_fmt4 (n : Z) (rest : string) :
  (0 <= n < 10000)%Z ->
  parse_digits 4 0 (fmt4 n ++ rest) = Some (n, rest).
Proof.
  intros Hn. unfold fmt4. rewrite append_assoc.
  assert (Hhi : (0 <= n / 100 < 100)%Z).
  { split; [apply Z.div_pos; lia | apply Z.div_lt_upper_bound; lia]. }
  assert (Hlo : (0 <= n mod 100 < 100)%Z) by (apply Z.mod_pos_bound; lia).
  rewrite (parse_digits_split 2 2), (parse_digits_fmt2 _ _ _ Hhi). cbn [obind].
  rewrite (parse_digits_fmt2 _ _ _ Hlo).
  do 2 f_equal. pose proof (Z.div_mod n 100). lia.
Qed.

Lemma parse_digits_fmt6 (n : Z) (rest : string) :
  (0 <= n < 1000000)%Z ->
  parse_digits 6 0 (fmt6 n ++ rest) = Some (n, rest).
Proof.
  intros Hn. unfold fmt6. rewrite append_assoc.
  assert (Hhi : (0 <= n / 1000 < 1000)%Z).
  { split; [apply Z.div_pos; lia | apply Z.div_lt_upper_bound; lia]. }
  assert (Hlo : (0 <= n mod 1000 < 1000)%Z) by (apply Z.mod_pos_bound; lia).
  rewrite (parse_digits_split 3 3), (parse_digits_fmt3 _ _ _ Hhi). cbn [obind].
  rewrite (parse_digits_fmt3 _ _ _ Hlo).
  do 2 f_equal. pose proof (Z.div_mod n 1000). lia.
Qed.

Lemma days_in_month_bound (y m : Z) : (days_in_month y m <= 31)%Z.
Proof.
  unfold days_in_month. destruct ((m =? 2)%Z && is_leap y); [lia|].
  unfold _days_in_month.
  destruct (Z.to_nat m) as [|[|[|[|[|[|[|[|[|[|[|[|[|[|k]]]]]]]]]]]]]]; cbn; lia.
Qed.

Lemma valid_date_bounds (y m d : Z) :
  valid_date y m d = true ->
  (0 <= y < 10000 /\ 0 <= m < 100 /\ 0 <= d < 100)%Z.
Proof.
  unfold valid_date. intros Hv.
  repeat (apply andb_prop in Hv; destruct Hv as [Hv ?]).
  pose proof (days_in_month_bound y m). lia.
Qed.

Lemma valid_time_bounds (h mi s us : Z) :
  valid_time h mi s us = true ->
  (0 <= h < 100 /\ 0 <= mi < 100 /\ 0 <= s < 100)%Z.
Proof.
  unfold valid_time. intros Hv.
  repeat (apply andb_prop in Hv; destruct Hv as [Hv ?]). lia.
Qed.

(** The calendar check of the constructors accepts exactly the valid
    dates and times. *)
Lemma check_date_args_valid (y m d : Z) :
  valid_date y m d = true -> check_date_args y m d = Return (mkdate y m d).
Proof.
  unfold valid_date, check_date_args. intros Hv.
  repeat (apply andb_prop in Hv; destruct Hv as [Hv ?]).
  replace ((y <? 1) || (9999 <? y))%Z with false by lia.
  replace ((m <? 1) || (12 <? m))%Z with false by lia.
  replace ((d <? 1) || (days_in_month y m <? d))%Z with false by lia.
  reflexivity.
Qed.

Lemma check_date_args_invalid (y m d : Z) :
  valid_date y m d = false ->
  exists msg, check_date_args y m d = Raise (ValueError msg).
Proof.
  unfold valid_date, check_date_args. intros Hv.
  destruct ((y <? 1) || (9999 <? y))%Z eqn:Hy; [eexists; reflexivity|].
  destruct ((m <? 1) || (12 <? m))%Z eqn:Hm; [eexists; reflexivity|].
  destruct ((d <? 1) || (days_in_month y m <? d))%Z eqn:Hd; [eexists; reflexivity|].
  exfalso. revert Hv.
  replace (1 <=? y)%Z with true by lia. replace (y <=? 9999)%Z with true by lia.
  replace (1 <=? m)%Z with true by lia. replace (m <=? 12)%Z with true by lia.
  replace (1 <=? d)%Z with true by lia.
  replace (d <=? days_in_month y m)%Z with true by lia.
  discriminate.
Qed.

Lemma check_date_args_inv (y m d : Z) (on : date) :
  check_date_args y m d = Return on ->
  on = mkdate y m d /\ valid_date y m d = true.
Proof.
  destruct (valid_date y m d) eqn:Hv.
  - rewrite (check_date_args_valid _ _ _ Hv). intros [= <-]. now split.
  - destruct (check_date_args_invalid _ _ _ Hv) as (msg & ->). discriminate.
Qed.

Lemma check_time_args_valid (h mi s us : Z) :
  valid_time h mi s us = true -> check_time_args h mi s us = Return tt.
Proof.
  unfold valid_time, check_time_args. intros Hv.
  repeat (apply andb_prop in Hv; destruct Hv as [Hv ?]).
  replace ((h <? 0) || (23 <? h))%Z with false by lia.
  replace ((mi <? 0) || (59 <? mi))%Z with false by lia.
  replace ((s <? 0) || (59 <? s))%Z with false by lia.
  replace ((us <? 0) || (999999 <? us))%Z with false by lia.
  reflexivity.
Qed.

Lemma peek_fmt2 (n : Z) (rest : string) : peek (fmt2 n ++ rest) = digit_char (n / 10).
Proof. reflexivity. Qed.

(** Parsing what [isoformat] printed gives the fields back, whatever
    follows them. *)
Lemma parse_isoformat_date_roundtrip (y m d : Z) (rest : string) (len : nat) :
  (0 <= y < 10000)%Z -> (0 <= m < 100)%Z -> (0 <= d < 100)%Z ->
  parse_isoformat_date (date_isoformat (mkdate y m d) ++ rest) len = Some (y, m, d).
Proof.
  intros Hy Hm Hd. unfold parse_isoformat_date, date_isoformat.
  cbn [year month day]. rewrite !append_assoc.
  rewrite (parse_digits_fmt4 _ _ Hy). cbn [obind append peek advance].
  change (Ascii.eqb "-" "-") with true. cbv iota.
  rewrite peek_fmt2, (digit_char_neq _ "W" (tens_digit m Hm) eq_refl).
  rewrite (parse_digits_fmt2 _ _ _ Hm). cbn [obind append peek advance].
  change (Ascii.eqb "-" "-") with true. cbn [negb andb].
  rewrite (parse_digits_fmt2 _ _ _ Hd). reflexivity.
Qed.

Lemma length_fmt2 (n : Z) : String.length (fmt2 n) = 2%nat.
Proof. reflexivity. Qed.

Lemma length_date_isoformat (on : date) : String.length (date_isoformat on) = 10%nat.
Proof. reflexivity. Qed.

Lemma date_fromisoformat_roundtrip (y m d : Z) :
  valid_date y m d = true ->
  date_fromisoformat (PStr (date_isoformat (mkdate y m d))) = Return (mkdate y m d).
Proof.
  intros Hv. destruct (valid_date_bounds _ _ _ Hv) as (Hy & Hm & Hd).
  unfold date_fromisoformat.
  rewrite length_date_isoformat. cbn [Nat.eqb orb].
  rewrite <- (append_empty_r (date_isoformat (mkdate y m d))).
  rewrite (parse_isoformat_date_roundtrip y m d "" 10 Hy Hm Hd).
  now apply check_date_args_valid.
Qed.

(** A text of the shape [YYYY-MM-DD] that names no day of the calendar is
    refused by the calendar check. *)
Lemma date_fromisoformat_no_such_day (y m d : Z) :
  (0 <= y < 10000)%Z -> (0 <= m < 100)%Z -> (0 <= d < 100)%Z ->
  valid_date y m d = false ->
  exists msg,
    date_fromisoformat (PStr (date_isoformat (mkdate y m d))) = Raise (ValueError msg).
Proof.
  intros Hy Hm Hd Hv. unfold date_fromisoformat.
  rewrite length_date_isoformat. cbn [Nat.eqb orb].
  rewrite <- (append_empty_r (date_isoformat (mkdate y m d))).
  rewrite (parse_isoformat_date_roundtrip y m d "" 10 Hy Hm Hd).
  now apply check_date_args_invalid.
Qed.

Lemma parse_digits_fmt2_0 (n : Z) (rest : string) :
  (0 <= n < 100)%Z -> parse_digits 2 0 (fmt2 n ++ rest) = Some (n, rest).
Proof. intros Hn. now rewrite (parse_digits_fmt2 _ _ _ Hn). Qed.

Lemma parse_digits_fmt3_0 (n : Z) (rest : string) :
  (0 <= n < 1000)%Z -> parse_digits 3 0 (fmt3 n ++ rest) = Some (n, rest).
Proof. intros Hn. now rewrite (parse_digits_fmt3 _ _ _ Hn). Qed.

Lemma lacks_append (c : ascii) (s t : string) :
  lacks c (s ++ t) = lacks c s && lacks c t.
Proof.
  induction s as [|a s IH]; cbn; [reflexivity|].
  rewrite IH. now rewrite andb_assoc.
Qed.

Lemma replace_char_lacks (old : ascii) (new s t : string) :
  lacks old s = true ->
  replace_char old new (s ++ t) = s ++ replace_char old new t.
Proof.
  induction s as [|a s IH]; cbn; [reflexivity|].
  intros Hl. apply andb_prop in Hl. destruct Hl as [Ha Hs].
  apply negb_true_iff in Ha. rewrite Ha, (IH Hs). reflexivity.
Qed.

(** Printed numbers hold digits only. *)
Lemma fmt2_lacks (c : ascii) (n : Z) :
  is_digit c = false -> (0 <= n < 100)%Z -> lacks c (fmt2 n) = true.
Proof.
  intros Hc Hn. unfold fmt2. cbn [lacks].
  rewrite (digit_char_neq _ c (tens_digit n Hn) Hc),
    (digit_char_neq _ c (units_digit n) Hc).
  reflexivity.
Qed.

Lemma fmt4_lacks (c : ascii) (n : Z) :
  is_digit c = false -> (0 <= n < 10000)%Z -> lacks c (fmt4 n) = true.
Proof.
  intros Hc Hn. unfold fmt4. rewrite lacks_append.
  rewrite !(fmt2_lacks c); [reflexivity | exact Hc | | exact Hc |].
  - apply Z.mod_pos_bound. lia.
  - split; [apply Z.div_pos; lia | apply Z.div_lt_upper_bound; lia].
Qed.

Lemma fmt3_lacks (c : ascii) (n : Z) :
  is_digit c = false -> (0 <= n < 1000)%Z -> lacks c (fmt3 n) = true.
Proof.
  intros Hc Hn. unfold fmt3. cbn [lacks].
  rewrite (digit_char_neq _ c (hundreds_digit n Hn) Hc), (fmt2_lacks c); [reflexivity|exact Hc|].
  apply Z.mod_pos_bound. lia.
Qed.

Lemma fraction_lacks (c : ascii) (f : fraction) :
  is_digit c = false -> Ascii.eqb "." c = false ->
  valid_fraction f = true -> lacks c (fraction_text f) = true.
Proof.
  intros Hc Hdot.
  destruct f as [|ms|us]; cbn [valid_fraction fraction_text append lacks];
    [reflexivity| |]; intros Hf; apply andb_prop in Hf; destruct Hf as [Hlo Hhi];
    apply Z.leb_le in Hlo; apply Z.ltb_lt in Hhi; rewrite Hdot; cbn [negb andb].
  - apply fmt3_lacks; [exact Hc | lia].
  - unfold fmt6. rewrite lacks_append, !(fmt3_lacks c); [reflexivity | exact Hc | | exact Hc |].
    + apply Z.mod_pos_bound. lia.
    + split; [apply Z.div_pos; lia | apply Z.div_lt_upper_bound; lia].
Qed.

Lemma time_lacks (c : ascii) (h mi s : Z) (f : fraction) :
  is_digit c = false -> Ascii.eqb "." c = false -> Ascii.eqb ":" c = false ->
  (0 <= h < 100)%Z -> (0 <= mi < 100)%Z -> (0 <= s < 100)%Z ->
  valid_fraction f = true ->
  lacks c (time_isoformat h mi s ++ fraction_text f) = true.
Proof.
  intros Hc Hdot Hcolon Hh Hmi Hs Hf. unfold time_isoformat.
  rewrite !lacks_append.
  rewrite (fmt2_lacks c _ Hc Hh), (fmt2_lacks c _ Hc Hmi), (fmt2_lacks c _ Hc Hs),
    (fraction_lacks c _ Hc Hdot Hf).
  cbn [lacks]. rewrite Hcolon. reflexivity.
Qed.

Lemma date_lacks (c : ascii) (y m d : Z) :
  is_digit c = false -> Ascii.eqb "-" c = false ->
  (0 <= y < 10000)%Z -> (0 <= m < 100)%Z -> (0 <= d < 100)%Z ->
  lacks c (date_isoformat (mkdate y m d)) = true.
Proof.
  intros Hc Hdash Hy Hm Hd. unfold date_isoformat. cbn [year month day].
  rewrite !lacks_append.
  rewrite (fmt4_lacks c _ Hc Hy), (fmt2_lacks c _ Hc Hm), (fmt2_lacks c _ Hc Hd).
  cbn [lacks]. rewrite Hdash. reflexivity.
Qed.

Lemma stamp_lacks_Z (y m d h mi s : Z) (f : fraction) :
  valid_date y m d = true -> valid_time h mi s (fraction_micros f) = true ->
  valid_fraction f = true ->
  lacks "Z" (stamp (mkdate y m d) h mi s f) = true.
Proof.
  intros Hd Ht Hf.
  destruct (valid_date_bounds _ _ _ Hd) as (Hy & Hm & Hday).
  destruct (valid_time_bounds _ _ _ _ Ht) as (Hh & Hmi & Hs).
  unfold stamp.
  rewrite lacks_append, (date_lacks "Z" y m d eq_refl eq_refl Hy Hm Hday).
  cbn [append lacks].
  rewrite (time_lacks "Z" h mi s f eq_refl eq_refl eq_refl Hh Hmi Hs Hf).
  reflexivity.
Qed.

(** The trailing Z, and only it, becomes the explicit offset. *)
Lemma replace_char_stamp (y m d h mi s : Z) (f : fraction) :
  valid_date y m d = true -> valid_time h mi s (fraction_micros f) = true ->
  valid_fraction f = true ->
  replace_char "Z" "+00:00" (stamp (mkdate y m d) h mi s f ++ "Z")
  = stamp (mkdate y m d) h mi s f ++ "+00:00".
Proof.
  intros Hd Ht Hf.
  rewrite (replace_char_lacks _ _ _ _ (stamp_lacks_Z _ _ _ _ _ _ _ Hd Ht Hf)).
  reflexivity.
Qed.

Lemma replace_Z_stamp (y m d h mi s : Z) (f : fraction) :
  valid_date y m d = true -> valid_time h mi s (fraction_micros f) = true ->
  valid_fraction f = true ->
  py_replace_Z (PStr (stamp (mkdate y m d) h mi s f ++ "Z"))
  = Return (PStr (stamp (mkdate y m d) h mi s f ++ "+00:00")).
Proof.
  intros Hd Ht Hf. unfold py_replace_Z.
  now rewrite (replace_char_stamp y m d h mi s f Hd Ht Hf).
Qed.

(** The offset starts at the first [Z], [+] or [-]. *)
Lemma find_tz_append (s t : string) :
  lacks "Z" s = true -> lacks "+" s = true -> lacks "-" s = true ->
  find_tz (s ++ t) = (String.length s + find_tz t)%nat.
Proof.
  induction s as [|a s IH]; cbn [lacks append find_tz String.length Nat.add];
    [reflexivity|].
  intros HZ Hplus Hminus.
  apply andb_prop in HZ, Hplus, Hminus.
  destruct HZ as [HZ HZs], Hplus as [Hplus Hpluss], Hminus as [Hminus Hminuss].
  apply negb_true_iff in HZ, Hplus, Hminus.
  unfold is_tz_marker. rewrite HZ, Hplus, Hminus. cbn [orb].
  now rewrite IH.
Qed.

Lemma count_digits_stops (p : string) :
  is_digit (peek p) = false -> count_digits p = 0%nat.
Proof. destruct p as [|c rest]; [reflexivity|]. cbn [peek count_digits]. now intros ->. Qed.

Lemma length_time_text (h mi s : Z) (f : fraction) :
  String.length (time_isoformat h mi s ++ fraction_text f)
  = (8 + String.length (fraction_text f))%nat.
Proof. reflexivity. Qed.

(** The time of day of a printed stamp, read up to whatever follows it. *)
Lemma parse_hh_mm_ss_ff_stamp (h mi s : Z) (f : fraction) (tail : string) :
  (0 <= h < 100)%Z -> (0 <= mi < 100)%Z -> (0 <= s < 100)%Z ->
  valid_fraction f = true ->
  is_digit (peek tail) = false ->
  parse_hh_mm_ss_ff (time_isoformat h mi s ++ fraction_text f ++ tail)
    (8 + String.length (fraction_text f))
  = Some (h, mi, s, fraction_micros f, negb (Ascii.eqb (peek tail) NUL)).
Proof.
  intros Hh Hmi Hs Hf Htail.
  unfold parse_hh_mm_ss_ff, time_isoformat. rewrite !append_assoc.
  destruct f as [|ms|us];
    cbn [valid_fraction fraction_text fraction_micros append String.length Nat.add] in *.
  - cbn [parse_hms].
    rewrite (parse_digits_fmt2_0 _ _ Hh). cbn [obind append peek advance Nat.leb Nat.sub].
    change (Ascii.eqb ":" ":") with true. cbn [andb].
    rewrite (parse_digits_fmt2_0 _ _ Hmi). cbn [obind append peek advance Nat.leb Nat.sub].
    change (Ascii.eqb ":" ":") with true. cbn [andb].
    rewrite (parse_digits_fmt2_0 _ _ Hs). cbn [obind append peek advance Nat.leb Nat.sub].
    reflexivity.
  - apply andb_prop in Hf. destruct Hf as [Hlo Hhi].
    apply Z.leb_le in Hlo. apply Z.ltb_lt in Hhi.
    change (String.length (fmt3 ms)) with 3%nat.
    cbn [parse_hms].
    rewrite (parse_digits_fmt2_0 _ _ Hh). cbn [obind append peek advance Nat.leb Nat.sub].
    change (Ascii.eqb ":" ":") with true. cbn [andb].
    rewrite (parse_digits_fmt2_0 _ _ Hmi). cbn [obind append peek advance Nat.leb Nat.sub].
    change (Ascii.eqb ":" ":") with true. cbn [andb].
    rewrite (parse_digits_fmt2_0 _ _ Hs). cbn [obind append peek advance Nat.leb Nat.sub].
    change (Ascii.eqb "." ":") with false. change (Ascii.eqb "." ".") with true.
    cbn [andb orb obind nth Nat.min Nat.ltb Nat.leb].
    rewrite (parse_digits_fmt3_0 _ _ (conj Hlo Hhi)). cbn [obind].
    rewrite (count_digits_stops _ Htail). cbn [skip Nat.sub nth correction].
    now rewrite (Z.mul_comm ms 1000).
  - apply andb_prop in Hf. destruct Hf as [Hlo Hhi].
    apply Z.leb_le in Hlo. apply Z.ltb_lt in Hhi.
    change (String.length (fmt6 us)) with 6%nat.
    cbn [parse_hms].
    rewrite (parse_digits_fmt2_0 _ _ Hh). cbn [obind append peek advance Nat.leb Nat.sub].
    change (Ascii.eqb ":" ":") with true. cbn [andb].
    rewrite (parse_digits_fmt2_0 _ _ Hmi). cbn [obind append peek advance Nat.leb Nat.sub].
    change (Ascii.eqb ":" ":") with true. cbn [andb].
    rewrite (parse_digits_fmt2_0 _ _ Hs). cbn [obind append peek advance Nat.leb Nat.sub].
    change (Ascii.eqb "." ":") with false. change (Ascii.eqb "." ".") with true.
    cbn [andb orb obind nth Nat.min Nat.ltb Nat.leb].
    rewrite (parse_digits_fmt6 _ _ (conj Hlo Hhi)). cbn [obind].
    rewrite (count_digits_stops _ Htail). reflexivity.
Qed.

Lemma parse_time_utc (h mi s : Z) (f : fraction) :
  valid_time h mi s (fraction_micros f) = true ->
  valid_fraction f = true ->
  parse_isoformat_time (time_isoformat h mi s ++ fraction_text f ++ "+00:00")
  = Some (h, mi, s, fraction_micros f, Some (0, 0)%Z).
Proof.
  intros Ht Hf. destruct (valid_time_bounds _ _ _ _ Ht) as (Hh & Hmi & Hs).
  pose proof (time_lacks "Z" h mi s f eq_refl eq_refl eq_refl Hh Hmi Hs Hf) as HZ.
  pose proof (time_lacks "+" h mi s f eq_refl eq_refl eq_refl Hh Hmi Hs Hf) as Hplus.
  pose proof (time_lacks "-" h mi s f eq_refl eq_refl eq_refl Hh Hmi Hs Hf) as Hminus.
  unfold parse_isoformat_time. cbv zeta.
  rewrite <- !append_assoc.
  rewrite (find_tz_append _ "+00:00" HZ Hplus Hminus).
  change (find_tz "+00:00") with 0%nat. rewrite Nat.add_0_r.
  rewrite skip_append, length_append, length_time_text.
  change (String.length "+00:00") with 6%nat.
  rewrite append_assoc.
  rewrite (parse_hh_mm_ss_ff_stamp h mi s f "+00:00" Hh Hmi Hs Hf eq_refl).
  cbn [obind].
  replace (8 + String.length (fraction_text f) + 6 - (8 + String.length (fraction_text f)) - 1)%nat
    with 5%nat by lia.
  replace (8 + String.length (fraction_text f) + 6 =? 0)%nat with false
    by (symmetry; apply Nat.eqb_neq; lia).
  replace (8 + String.length (fraction_text f) =? 8 + String.length (fraction_text f) + 6)%nat
    with false by (symmetry; apply Nat.eqb_neq; lia).
  reflexivity.
Qed.

Lemma parse_time_naive (h mi s : Z) (f : fraction) :
  valid_time h mi s (fraction_micros f) = true ->
  valid_fraction f = true ->
  parse_isoformat_time (time_isoformat h mi s ++ fraction_text f)
  = Some (h, mi, s, fraction_micros f, None).
Proof.
  intros Ht Hf. destruct (valid_time_bounds _ _ _ _ Ht) as (Hh & Hmi & Hs).
  pose proof (time_lacks "Z" h mi s f eq_refl eq_refl eq_refl Hh Hmi Hs Hf) as HZ.
  pose proof (time_lacks "+" h mi s f eq_refl eq_refl eq_refl Hh Hmi Hs Hf) as Hplus.
  pose proof (time_lacks "-" h mi s f eq_refl eq_refl eq_refl Hh Hmi Hs Hf) as Hminus.
  unfold parse_isoformat_time. cbv zeta.
  rewrite length_time_text.
  rewrite <- (append_empty_r (time_isoformat h mi s ++ fraction_text f)).
  rewrite (find_tz_append _ "" HZ Hplus Hminus), length_time_text.
  cbn [find_tz]. rewrite Nat.add_0_r, append_assoc.
  rewrite (parse_hh_mm_ss_ff_stamp h mi s f "" Hh Hmi Hs Hf eq_refl).
  cbn [obind]. rewrite Nat.eqb_refl.
  replace (8 + String.length (fraction_text f) =? 0)%nat with false
    by (symmetry; apply Nat.eqb_neq; lia).
  reflexivity.
Qed.

(** A text that starts with a printed date is split after its ten
    characters: what follows is one separator and the time of day. *)
Lemma find_separator_dashed (y m d : Z) (rest : string) :
  (0 <= m < 100)%Z ->
  find_isoformat_datetime_separator (date_isoformat (mkdate y m d) ++ rest)
    (10 + String.length rest)
  = Some 10%nat.
Proof.
  intros Hm. unfold find_isoformat_datetime_separator.
  change (10 + String.length rest =? 7)%nat with false. cbv iota.
  change (char_at 4 (date_isoformat (mkdate y m d) ++ rest)) with "-"%char.
  change (char_at 5 (date_isoformat (mkdate y m d) ++ rest)) with (digit_char (m / 10)).
  change (Ascii.eqb "-" "-") with true. cbv iota.
  now rewrite (digit_char_neq _ "W" (tens_digit m Hm) eq_refl).
Qed.

Lemma datetime_fromisoformat_dashed (y m d : Z) (rest : string) :
  (0 <= y < 10000)%Z -> (0 <= m < 100)%Z -> (0 <= d < 100)%Z ->
  datetime_fromisoformat (PStr (date_isoformat (mkdate y m d) ++ rest))
  = match
      match rest with
      | EmptyString => Some (0, 0, 0, 0, None)%Z
      | _ => parse_isoformat_time (skip_separator rest)
      end
    with
    | None => Raise invalid_isoformat
    | Some (h, mi, sec, us, tz) =>
        off <- tzinfo_from_isoformat_results tz ;;
        on <- check_date_args y m d ;;
        _ <- check_time_args h mi sec us ;;
        Return (mkdatetime on h mi sec us off)
    end.
Proof.
  intros Hy Hm Hd. unfold datetime_fromisoformat.
  rewrite length_append, length_date_isoformat.
  change (10 + String.length rest <? 7)%nat with false. cbv iota.
  rewrite (find_separator_dashed y m d rest Hm).
  rewrite (parse_isoformat_date_roundtrip y m d rest 10 Hy Hm Hd).
  change (skip 10 (date_isoformat (mkdate y m d) ++ rest)) with rest.
  destruct rest as [|c rest]; reflexivity.
Qed.

Lemma datetime_fromisoformat_utc (y m d h mi s : Z) (f : fraction) :
  valid_date y m d = true -> valid_time h mi s (fraction_micros f) = true ->
  valid_fraction f = true ->
  datetime_fromisoformat (PStr (stamp (mkdate y m d) h mi s f ++ "+00:00"))
  = Return (mkdatetime (mkdate y m d) h mi s (fraction_micros f) (Some 0%Z)).
Proof.
  intros Hd Ht Hf. destruct (valid_date_bounds _ _ _ Hd) as (Hy & Hm & Hday).
  unfold stamp. rewrite !append_assoc.
  rewrite (datetime_fromisoformat_dashed y m d _ Hy Hm Hday).
  cbn [append]. change (skip_separator (String "T" ?p)) with p.
  rewrite (parse_time_utc h mi s f Ht Hf).
  cbn [tzinfo_from_isoformat_results Z.eqb bind].
  rewrite (check_date_args_valid _ _ _ Hd). cbn [bind].
  rewrite (check_time_args_valid _ _ _ _ Ht). reflexivity.
Qed.

Lemma datetime_fromisoformat_naive (y m d h mi s : Z) (f : fraction) :
  valid_date y m d = true -> valid_time h mi s (fraction_micros f) = true ->
  valid_fraction f = true ->
  datetime_fromisoformat (PStr (stamp (mkdate y m d) h mi s f))
  = Return (mkdatetime (mkdate y m d) h mi s (fraction_micros f) None).
Proof.
  intros Hd Ht Hf. destruct (valid_date_bounds _ _ _ Hd) as (Hy & Hm & Hday).
  unfold stamp.
  rewrite (datetime_fromisoformat_dashed y m d _ Hy Hm Hday).
  cbn [append]. change (skip_separator (String "T" ?p)) with p.
  rewrite (parse_time_naive h mi s f Ht Hf).
  cbn [tzinfo_from_isoformat_results bind].
  rewrite (check_date_args_valid _ _ _ Hd). cbn [bind].
  rewrite (check_time_args_valid _ _ _ _ Ht). reflexivity.
Qed.

(** A bare date is midnight of that day, without an offset. *)
Lemma datetime_fromisoformat_date (y m d : Z) :
  valid_date y m d = true ->
  datetime_fromisoformat (PStr (date_isoformat (mkdate y m d)))
  = Return (mkdatetime (mkdate y m d) 0 0 0 0 None).
Proof.
  intros Hd. destruct (valid_date_bounds _ _ _ Hd) as (Hy & Hm & Hday).
  rewrite <- (append_empty_r (date_isoformat (mkdate y m d))).
  rewrite (datetime_fromisoformat_dashed y m d _ Hy Hm Hday).
  cbn [tzinfo_from_isoformat_results bind].
  rewrite (check_date_args_valid _ _ _ Hd). reflexivity.
Qed.

(* ------------------------------------------------------------------ *)
(** ** What the date parser refuses *)

Lemma digit_of_ascii_inv (c : ascii) (x : Z) :
  digit_of_ascii c = Some x -> is_decimal_digit x /\ c = digit_char x.
Proof.
  destruct c as [[] [] [] [] [] [] [] []]; intros H; vm_compute in H;
    try discriminate; injection H as <-;
    (split; [unfold is_decimal_digit; lia | reflexivity]).
Qed.

Lemma fmt2_digits (a b : Z) :
  is_decimal_digit a -> is_decimal_digit b ->
  fmt2 (10 * a + b) = String (digit_char a) (String (digit_char b) EmptyString).
Proof. intros Ha Hb. each_digit a Ha; each_digit b Hb; reflexivity. Qed.

Lemma parse_digits_2_inv (acc n : Z) (p p' : string) :
  parse_digits 2 acc p = Some (n, p') ->
  exists k, (0 <= k < 100)%Z /\ n = (100 * acc + k)%Z /\ p = fmt2 k ++ p'.
Proof.
  destruct p as [|a [|b r]]; cbn [parse_digits]; try discriminate.
  - destruct (digit_of_ascii a); discriminate.
  - destruct (digit_of_ascii a) as [x|] eqn:Ha; [|discriminate]. cbn [obind].
    destruct (digit_of_ascii b) as [y|] eqn:Hb; [|discriminate].
    intros H. change (Some ((10 * (10 * acc + x) + y)%Z, r) = Some (n, p')) in H.
    assert (Hn : n = (10 * (10 * acc + x) + y)%Z) by congruence.
    assert (Hr : p' = r) by congruence. subst n p'. clear H.
    destruct (digit_of_ascii_inv _ _ Ha) as (Hx & ->).
    destruct (digit_of_ascii_inv _ _ Hb) as (Hy & ->).
    exists (10 * x + y)%Z. unfold is_decimal_digit in Hx, Hy.
    split; [lia|]. split; [lia|].
    now rewrite (fmt2_digits x y Hx Hy).
Qed.

Lemma parse_digits_4_inv (n : Z) (p p' : string) :
  parse_digits 4 0 p = Some (n, p') ->
  (0 <= n < 10000)%Z /\ p = fmt4 n ++ p'.
Proof.
  rewrite (parse_digits_split 2 2).
  destruct (parse_digits 2 0 p) as [[hi q]|] eqn:Hhi; [|discriminate].
  cbn [obind]. intros Hlo.
  destruct (parse_digits_2_inv _ _ _ _ Hhi) as (a & Ha & -> & ->).
  destruct (parse_digits_2_inv _ _ _ _ Hlo) as (b & Hb & -> & ->).
  split; [lia|]. unfold fmt4.
  replace ((100 * (100 * 0 + a) + b) / 100)%Z with a
    by (apply (Z.div_unique _ 100 a b); lia).
  replace ((100 * (100 * 0 + a) + b) mod 100)%Z with b
    by (apply (Z.mod_unique _ 100 a b); lia).
  now rewrite append_assoc.
Qed.

Lemma peek_eqb_inv (p : string) (c : ascii) :
  Ascii.eqb (peek p) c = true -> c <> NUL -> p = String c (advance p).
Proof.
  destruct p as [|a r]; cbn [peek advance]; intros Heq Hc.
  - apply Ascii.eqb_eq in Heq. now subst c.
  - apply Ascii.eqb_eq in Heq. now subst a.
Qed.

(** [date.fromisoformat] returns valid dates only, and only from a text of
    7, 8 or 10 bytes; whatever else a text holds is a [ValueError]. *)
Lemma date_fromisoformat_sound (text : string) (on : date) :
  date_fromisoformat (PStr text) = Return on ->
  valid_date (year on) (month on) (day on) = true
  /\ (String.length text = 7 \/ String.length text = 8 \/ String.length text = 10)%nat.
Proof.
  unfold date_fromisoformat.
  destruct ((String.length text =? 7) || (String.length text =? 8)
            || (String.length text =? 10))%nat eqn:Hlen; [|discriminate].
  destruct (parse_isoformat_date text (String.length text)) as [[[y m] d]|];
    [|discriminate].
  intros Hcheck. destruct (check_date_args_inv _ _ _ _ Hcheck) as (-> & Hv).
  split; [exact Hv|].
  apply orb_prop in Hlen. destruct Hlen as [Hlen|Hlen].
  - apply orb_prop in Hlen. destruct Hlen as [Hlen|Hlen]; apply Nat.eqb_eq in Hlen; auto.
  - apply Nat.eqb_eq in Hlen. auto.
Qed.

Lemma date_fromisoformat_raises (text : string) (e : exn) :
  date_fromisoformat (PStr text) = Raise e -> exists msg, e = ValueError msg.
Proof.
  unfold date_fromisoformat, invalid_isoformat.
  destruct ((String.length text =? 7) || (String.length text =? 8)
            || (String.length text =? 10))%nat;
    [|intros [= <-]; eexists; reflexivity].
  destruct (parse_isoformat_date text (String.length text)) as [[[y m] d]|];
    [|intros [= <-]; eexists; reflexivity].
  destruct (valid_date y m d) eqn:Hv.
  - now rewrite (check_date_args_valid _ _ _ Hv).
  - destruct (check_date_args_invalid _ _ _ Hv) as (msg & ->).
    intros [= <-]. eexists; reflexivity.
Qed.

(** With a dash after the year, and no week, the only text that parses to
    a date is the ten characters [YYYY-MM-DD] of that date. *)
Lemma date_fromisoformat_canonical (text : string) (on : date) :
  date_fromisoformat (PStr text) = Return on ->
  char_at 4 text = "-"%char -> char_at 5 text <> "W"%char ->
  text = date_isoformat on.
Proof.
  intros Hparse Hdash Hweek.
  destruct (date_fromisoformat_sound _ _ Hparse) as (_ & Hlen).
  revert Hparse. unfold date_fromisoformat.
  destruct ((String.length text =? 7) || (String.length text =? 8)
            || (String.length text =? 10))%nat; [|discriminate].
  destruct (parse_isoformat_date text (String.length text)) as [[[y m] d]|] eqn:Hfields;
    [|discriminate].
  intros Hcheck. destruct (check_date_args_inv _ _ _ _ Hcheck) as (-> & _).
  revert Hfields. unfold parse_isoformat_date.
  destruct (parse_digits 4 0 text) as [[y0 p]|] eqn:Hy; [|discriminate].
  destruct (parse_digits_4_inv _ _ _ Hy) as (Hy0 & ->).
  change (char_at 4 (fmt4 y0 ++ p)) with (peek p) in Hdash.
  change (char_at 5 (fmt4 y0 ++ p)) with (peek (advance p)) in Hweek.
  cbn [obind]. rewrite Hdash. change (Ascii.eqb "-" "-") with true. cbv iota.
  destruct (Ascii.eqb_spec (peek (advance p)) "W") as [HW|_]; [contradiction|].
  destruct (parse_digits 2 0 (advance p)) as [[m0 p2]|] eqn:Hm; [|discriminate].
  cbn [obind andb].
  destruct (Ascii.eqb (peek p2) "-") eqn:Hdash2; [|discriminate]. cbn [negb].
  destruct (parse_digits 2 0 (advance p2)) as [[d0 p3]|] eqn:Hd; [|discriminate].
  cbn [obind]. intros [= -> -> ->].
  destruct (parse_digits_2_inv _ _ _ _ Hm) as (km & Hkm & -> & Hp).
  destruct (parse_digits_2_inv _ _ _ _ Hd) as (kd & Hkd & -> & Hp2).
  assert (Hdash1 : Ascii.eqb (peek p) "-" = true) by (rewrite Hdash; reflexivity).
  apply peek_eqb_inv in Hdash1; [|discriminate].
  apply peek_eqb_inv in Hdash2; [|discriminate].
  rewrite Hp in Hdash1. rewrite Hp2 in Hdash2. subst p p2.
  replace (100 * 0 + km)%Z with km by lia.
  replace (100 * 0 + kd)%Z with kd by lia.
  assert (Hp3 : p3 = EmptyString).
  { revert Hlen. rewrite !length_append. unfold fmt4.
    rewrite !length_append, !length_fmt2. cbn [String.length].
    rewrite !length_append, !length_fmt2. cbn [String.length].
    rewrite !length_append, !length_fmt2.
    destruct p3; [reflexivity|]. cbn [String.length]. lia. }
  subst p3. unfold date_isoformat. cbn [year month day].
  now rewrite append_empty_r.
Qed.

(* ------------------------------------------------------------------ *)
(** ** Dates and timestamps in the mappers *)

Lemma PatentDocument_official_date (data : pydict) (r : PatentDocument.t)
    (text : string) (stamped : datetime) :
  dict_lookup data "officialDate" = Some (PStr text) ->
  datetime_fromisoformat (PStr (replace_char "Z" "+00:00" text)) = Return stamped ->
  PatentDocument.from_dict (PDict data) = Return r ->
  PatentDocument.official_date r = stamped.
Proof.
  intros Hlookup Hparse. unfold PatentDocument.from_dict, py_getitem.
  rewrite Hlookup.
  destruct (dict_lookup data "applicationNumberText"); [|discriminate].
  cbn [bind py_replace_Z]. rewrite Hparse. cbn [bind].
  intros Hr. invert_binds Hr. injection Hr as <-. reflexivity.
Qed.

Lemma Assignment_dates (data : pydict) (r : Assignment.t) (text : string) (on : date) :
  date_fromisoformat (PStr text) = Return on ->
  Assignment.from_dict (PDict data) = Return r ->
  (dict_lookup data "assignmentReceivedDate" = Some (PStr text) ->
   Assignment.received_date r = on)
  /\ (dict_lookup data "assignmentRecordedDate" = Some (PStr text) ->
      Assignment.recorded_date r = on)
  /\ (dict_lookup data "assignmentMailedDate" = Some (PStr text) ->
      Assignment.mailed_date r = on).
Proof.
  intros Hdate. unfold Assignment.from_dict. cbn [py_get bind]. intros Hr.
  invert_binds Hr. injection Hr as <-. cbn.
  repeat split; intros Hl;
    match goal with
    | Hx : date_fromisoformat (dict_get data ?k _) = Return ?v,
      Hk : dict_lookup data ?k = Some _ |- ?v = _ =>
        rewrite (dict_get_present _ _ _ _ Hk), Hdate in Hx; now injection Hx
    end.
Qed.

(** A date text the parser refuses is not replaced by the sentinel: the
    mapper raises the parser's exception. *)
Lemma refused_date_escapes (data : pydict) (text : string) (e : exn) :
  date_fromisoformat (PStr text) = Raise e ->
  (dict_lookup data "eventDate" = Some (PStr text) ->
   TransactionEvent.from_dict (PDict data) = Raise e)
  /\ (dict_lookup data "filingDate" = Some (PStr text) ->
      ForeignPriority.from_dict (PDict data) = Raise e)
  /\ (dict_lookup data "executionDate" = Some (PStr text) ->
      Assignor.from_dict (PDict data) = Raise e)
  /\ (dict_lookup data "assignmentReceivedDate" = Some (PStr text) ->
      Assignment.from_dict (PDict data) = Raise e).
Proof.
  intros Hdate. repeat split; intros Hl.
  - unfold TransactionEvent.from_dict. cbn [py_get bind].
    now rewrite (dict_get_present _ _ _ _ Hl), Hdate.
  - unfold ForeignPriority.from_dict. cbn [py_get bind].
    now rewrite (dict_get_present _ _ _ _ Hl), Hdate.
  - unfold Assignor.from_dict. cbn [py_get bind].
    now rewrite (dict_get_present _ _ _ _ Hl), Hdate.
  - unfold Assignment.from_dict. cbn [py_get bind].
    now rewrite (dict_get_present _ _ _ _ Hl), Hdate.
Qed.



Example official_date_with_milliseconds :
  stamp (mkdate 2012 8 27) 13 5 9 (Millis 250) ++ "Z" = "2012-08-27T13:05:09.250Z"
  /\ PatentDocument.from_dict
       (document_tree "2012-08-27T13:05:09.250Z" (PStr "12345678") (PStr "DOC1")
          (PStr "NOA") (PStr "Notice of Allowance") (PStr "OUTGOING"))
     = Return (PatentDocument.mk (PStr "12345678")
                 (mkdatetime (mkdate 2012 8 27) 13 5 9 250000 (Some 0%Z))
                 (PStr "DOC1") (PStr "NOA") (PStr "Notice of Allowance")
                 (PStr "OUTGOING") []).
Proof. split; reflexivity. Qed.

(** What the parser of Python 3.11 takes and refuses: besides [YYYY-MM-DD]
    it reads the same date without dashes and the ISO week dates; a field of
    one digit, another order of the fields, a day the calendar lacks, a
    timestamp, and anything that is not text are refused. *)
Example date_fromisoformat_strict :
  date_fromisoformat (PStr "2024-5-1") = Raise invalid_isoformat
  /\ date_fromisoformat (PStr "05/01/2024") = Raise invalid_isoformat
  /\ date_fromisoformat (PStr "2023-02-29")
     = Raise (ValueError "day is out of range for month")
  /\ date_fromisoformat (PStr "2024-13-01") = Raise (ValueError "month must be in 1..12")
  /\ date_fromisoformat (PStr "2024-05-01T00:00:00") = Raise invalid_isoformat
  /\ date_fromisoformat PNone = Raise TypeError
  /\ date_fromisoformat (PStr "20240501") = Return (mkdate 2024 5 1)
  /\ date_fromisoformat (PStr "2024-W18-3") = Return (mkdate 2024 5 1)
  /\ date_fromisoformat (PStr "2024W183") = Return (mkdate 2024 5 1).
Proof. repeat split; reflexivity. Qed.

(** The timestamp parser of Python 3.11 on the edges of its grammar: the
    separator may be any one character, the colons may be left out, a
    fraction may have any number of digits, and a date followed by a bare
    separator is refused. *)
Example datetime_fromisoformat_forms :
  datetime_fromisoformat (PStr "2021-01-01T")  = Raise invalid_isoformat
  /\ datetime_fromisoformat (PStr "2021-01-01 12:30")
     = Return (mkdatetime (mkdate 2021 1 1) 12 30 0 0 None)
  /\ datetime_fromisoformat (PStr "20210101T123005")
     = Return (mkdatetime (mkdate 2021 1 1) 12 30 5 0 None)
  /\ datetime_fromisoformat (PStr "2021-01-01T12:30:05.5")
     = Return (mkdatetime (mkdate 2021 1 1) 12 30 5 500000 None)
  /\ datetime_fromisoformat (PStr "2021-01-01T12:30:05+0530")
     = Return (mkdatetime (mkdate 2021 1 1) 12 30 5 0 (Some 19800000000%Z))
  /\ datetime_fromisoformat (PStr "2021-01-01T12:30:05Z")
     = Return (mkdatetime (mkdate 2021 1 1) 12 30 5 0 (Some 0%Z))
  /\ datetime_fromisoformat (PStr "2021-01-01T25:00")
     = Raise (ValueError "hour must be in 0..23").
Proof. repeat split; reflexivity. Qed.

(* ------------------------------------------------------------------ *)
(** ** Correspondent addresses *)

Lemma split_head_spec (sep : ascii) (s : string) :
  lacks sep (split_head sep s) = true
  /\ (s = split_head sep s
      \/ exists tail, s = split_head sep s ++ String sep tail).
Proof.
  induction s as [|c s (Hlacks & Hshape)]; cbn.
  - split; [reflexivity | now left].
  - destruct (Ascii.eqb_spec c sep) as [->|Hne].
    + split; [reflexivity|]. right. now exists s.
    + cbn. apply Ascii.eqb_neq in Hne. rewrite Hne, Hlacks.
      split; [reflexivity|].
      destruct Hshape as [Heq | (tail & Heq)].
      * left. now rewrite <- Heq.
      * right. exists tail. now rewrite <- Heq.
Qed.

(** C8: for every correspondent tree whose 'addressLineThreeText', when
    present, is text (or a falsy value), [Correspondent.from_dict] builds
    an address whose city is the part of that text before its first comma
    when the text is present and non-empty, and the empty string
    otherwise; the geographic region is always the empty string. *)
Theorem C8_correspondent_city (d : pydict) :
  (forall v, dict_lookup d "addressLineThreeText" = Some v -> text_or_falsy v) ->
  exists c,
    Correspondent.from_dict (PDict d) = Return c
    /\ Address.geographic_region (Correspondent.address c) = PStr ""
    /\ match dict_lookup d "addressLineThreeText" with
       | Some (PStr (String a rest)) =>
           exists city,
             Address.city (Correspondent.address c) = PStr city
             /\ before_first_comma (String a rest) city
       | _ => Address.city (Correspondent.address c) = PStr ""
       end.
Proof.
  intros Htext. unfold Correspondent.from_dict. cbn [py_get bind].
  destruct (dict_lookup d "addressLineThreeText") as [v|] eqn:Hline.
  - rewrite !(dict_get_present _ _ _ _ Hline).
    destruct (py_truthy v) eqn:Htruthy.
    + destruct (Htext v eq_refl Htruthy) as (s & ->).
      destruct s as [|a rest]; [discriminate Htruthy|].
      cbn [py_split_comma_head bind].
      eexists. split; [reflexivity|]. split; [reflexivity|].
      exists (split_head "," (String a rest)). split; [reflexivity|].
      exact (split_head_spec "," (String a rest)).
    + cbn [bind]. eexists. split; [reflexivity|]. split; [reflexivity|].
      destruct v as [| | | |s| |]; try reflexivity.
      destruct s; [reflexivity | discriminate Htruthy].
  - rewrite !(dict_get_absent _ _ _ Hline). cbn [py_truthy bind].
    eexists. split; [reflexivity|]. split; reflexivity.
Qed.

(** C8 on a correspondent in "SPRINGFIELD, IL 62701". *)
Lemma C8_correspondent_city_witness :
  exists c,
    Correspondent.from_dict (PDict sample_correspondent) = Return c
    /\ Address.geographic_region (Correspondent.address c) = PStr ""
    /\ Address.city (Correspondent.address c) = PStr "SPRINGFIELD".
Proof.
  destruct (C8_correspondent_city sample_correspondent) as (c & Hc & Hregion & Hcity).
  - intros v Hv. injection Hv as <-. intros _. now exists "SPRINGFIELD, IL 62701".
  - exists c. split; [exact Hc|]. split; [exact Hregion|].
    cbn in Hc. injection Hc as <-. reflexivity.
Defined.

(** A truthy value that is not text has no [split]: the heuristic is only
    defined on text. *)
Example correspondent_line_three_not_text :
  Correspondent.from_dict (PDict [("addressLineThreeText", PInt 5)])
  = Raise (AttributeError "split").
Proof. reflexivity. Qed.

(* ------------------------------------------------------------------ *)
(** ** Patent-number lookup *)

Lemma remove_char_lacks (c : ascii) (s : string) : lacks c (remove_char c s) = true.
Proof.
  induction s as [|a s IH]; cbn; [reflexivity|].
  destruct (Ascii.eqb a c) eqn:Hac; [exact IH|].
  cbn. now rewrite Hac, IH.
Qed.

Lemma remove_comma_digits (s : string) :
  digits_and_commas s = true -> all_digits (remove_char "," s) = true.
Proof.
  induction s as [|a s IH]; cbn; [reflexivity|].
  intros Hs. apply andb_prop in Hs. destruct Hs as [Ha Hs].
  destruct (Ascii.eqb a ",") eqn:Hcomma; [now apply IH|].
  rewrite orb_false_r in Ha. cbn. now rewrite Ha, (IH Hs).
Qed.

Lemma strip_US_digits (s : string) :
  digits_and_commas s = true -> strip_US s = s.
Proof.
  destruct s as [|a s]; [reflexivity|]. cbn [digits_and_commas].
  intros Hs. apply andb_prop in Hs. destruct Hs as [Ha _].
  destruct (Ascii.eqb_spec a "U") as [->|Hne]; [discriminate Ha|].
  unfold strip_US.
  destruct a as [[] [] [] [] [] [] [] []]; try reflexivity.
  now contradiction Hne.
Qed.

(** C9: the lookup strips a leading "US" and the commas of the patent
    number, which leaves only digits for a number written with digits and
    thousands separators; "US11,989,999", "11,989,999" and "11989999" all
    become "11989999"; and the POST request carries the payload
    [{"filters": {"applicationMetaData.patentNumber": <sanitized>}}]. *)
Theorem C9_patent_number_sanitization (search_url : string) (headers : http_headers)
    (patent_number : string) :
  sanitize_patent_number "US11,989,999" = "11989999"
  /\ sanitize_patent_number "11,989,999" = "11989999"
  /\ sanitize_patent_number "11989999" = "11989999"
  /\ lacks "," (sanitize_patent_number patent_number) = true
  /\ (digits_and_commas patent_number = true ->
      all_digits (sanitize_patent_number patent_number) = true
      /\ sanitize_patent_number ("US" ++ patent_number)
         = sanitize_patent_number patent_number)
  /\ patent_number_request search_url headers patent_number
     = NetPost search_url headers
         (PDict [ ("filters",
                   PDict [ ("applicationMetaData.patentNumber",
                            PStr (sanitize_patent_number patent_number)) ]) ]).
Proof.
  split; [reflexivity|]. split; [reflexivity|]. split; [reflexivity|].
  split; [apply remove_char_lacks|].
  split; [|reflexivity].
  intros Hshape. unfold sanitize_patent_number.
  cbn [append strip_US]. rewrite (strip_US_digits _ Hshape).
  split; [now apply remove_comma_digits | reflexivity].
Qed.

(** C9 on the three spellings of patent 11,989,999. *)
Lemma C9_patent_number_sanitization_witness :
  all_digits (sanitize_patent_number "11,989,999") = true
  /\ sanitize_patent_number ("US" ++ "11,989,999") = "11989999"
  /\ patent_number_request "https://example.test/search" [] "US11,989,999"
     = NetPost "https://example.test/search" []
         (PDict [ ("filters",
                   PDict [ ("applicationMetaData.patentNumber", PStr "11989999") ]) ]).
Proof.
  destruct (C9_patent_number_sanitization "https://example.test/search" []
              "11,989,999") as (_ & Hplain & _ & _ & Hdigits & _).
  destruct (Hdigits eq_refl) as (Hall & Hus).
  split; [exact Hall|]. split; [now rewrite Hus|].
  apply (C9_patent_number_sanitization "https://example.test/search" []
           "US11,989,999").
Defined.

(* ================================================================== *)
(** * Further properties of the clients and the mappers *)

(* ------------------------------------------------------------------ *)
(** ** The two clients side by side *)

Lemma error_logs_agree {R : Renderer} (u : UnionClient.USPTOError.t)
    (e : RaisingClient.USPTOError.t) :
  union_fields u = raising_fields e ->
  LogError (UnionClient.USPTOClient.error_log
              ("USPTO API Error: " ++ py_str (UnionClient.USPTOError.code u) ++ "") u)
  = RaisingClient.USPTOClient._log_error e.
Proof.
  unfold union_fields, raising_fields. intros Hfields.
  injection Hfields as Hcode Herror Hdetails Hrid.
  unfold UnionClient.USPTOClient.error_log, RaisingClient.USPTOClient._log_error.
  rewrite Hcode, Herror, Hdetails, Hrid, append_empty_r, !append_assoc.
  reflexivity.
Qed.

Lemma from_dict_same_outcome {R : Renderer} (data : pyval) (status_code : Z) :
  match UnionClient.USPTOError.from_dict data status_code,
        RaisingClient.USPTOError.from_dict data status_code with
  | Return u, Return e => union_fields u = raising_fields e
  | Raise x, Raise y => x = y
  | _, _ => False
  end.
Proof.
  destruct data as [| | | | | |d]; try reflexivity.
  destruct (union_from_dict_fields d status_code) as (u & -> & Hu).
  destruct (raising_from_dict_fields d status_code) as (e & -> & He).
  congruence.
Qed.

Lemma requests_agree {R : Renderer} {A} (api_key : string) (net : network)
    (url : string) (parse_func : pyval -> outcome exn A) (b : bool) :
  same_outcome
    (fst (UnionClient.USPTOClient.request (union_client api_key) net url parse_func b))
    (fst (RaisingClient.USPTOClient.request (raising_client api_key net) url parse_func))
  /\ (b = false ->
      snd (UnionClient.USPTOClient.request (union_client api_key) net url parse_func b)
      = snd (RaisingClient.USPTOClient.request (raising_client api_key net) url
               parse_func)).
Proof.
  unfold UnionClient.USPTOClient.request, RaisingClient.USPTOClient.request,
    UnionClient.USPTOClient.respond, RaisingClient.USPTOClient._handle_response.
  cbn [union_client raising_client UnionClient.USPTOClient.__init__
         RaisingClient.USPTOClient.__init__ UnionClient.USPTOClient.headers
         RaisingClient.USPTOClient.headers RaisingClient.USPTOClient.session].
  set (resp := net url _).
  set (data := match json resp with Some body => body | None => PDict [] end).
  destruct (Z.eqb (status resp) 200).
  - destruct (parse_func data); cbn; split; auto.
  - pose proof (from_dict_same_outcome data (status resp)) as Hsame.
    destruct (UnionClient.USPTOError.from_dict data (status resp)) as [u|x],
      (RaisingClient.USPTOError.from_dict data (status resp)) as [e|y];
      try contradiction; cbn [fst snd same_outcome].
    + split; [exact Hsame|]. intros ->.
      now rewrite (error_logs_agree u e Hsame).
    + split; [exact Hsame | reflexivity].
Qed.

Lemma wrapper_requests_agree {R : Renderer} {A} (api_key : string) (net : network)
    (url : string) (parse_func : pyval -> outcome exn A) :
  same_run_described
    (int_dict_get UnionClient.USPTOClient.status_descriptions
       (status (net url (fixed_headers api_key))) "Unknown Error")
    (UnionClient.USPTOClient.request (union_client api_key) net url parse_func true)
    (RaisingClient.USPTOClient.request (raising_client api_key net) url parse_func).
Proof.
  unfold same_run_described.
  split; [apply (proj1 (requests_agree api_key net url parse_func true))|].
  unfold UnionClient.USPTOClient.request, RaisingClient.USPTOClient.request,
    UnionClient.USPTOClient.respond, RaisingClient.USPTOClient._handle_response.
  cbn [union_client raising_client UnionClient.USPTOClient.__init__
         RaisingClient.USPTOClient.__init__ UnionClient.USPTOClient.headers
         RaisingClient.USPTOClient.headers RaisingClient.USPTOClient.session].
  change [("accept", "application/json"); ("X-API-KEY", api_key)]
    with (fixed_headers api_key).
  set (resp := net url (fixed_headers api_key)).
  set (data := match json resp with Some body => body | None => PDict [] end).
  destruct (Z.eqb (status resp) 200).
  - destruct (parse_func data); reflexivity.
  - pose proof (from_dict_same_outcome data (status resp)) as Hsame.
    destruct (UnionClient.USPTOError.from_dict data (status resp)) as [u|x],
      (RaisingClient.USPTOError.from_dict data (status resp)) as [e|y];
      try contradiction; cbn [fst snd]; [|reflexivity].
    unfold union_fields, raising_fields in Hsame.
    injection Hsame as Hcode Herror Hdetails Hrid.
    eexists. eexists. split.
    + unfold RaisingClient.USPTOClient._log_error.
      rewrite <- Hcode, <- Herror, <- Hdetails, <- Hrid. reflexivity.
    + unfold UnionClient.USPTOClient.error_log.
      rewrite !append_assoc. reflexivity.
Qed.

(** X1: built with the same API key and talking to the same server, the
    two clients agree on every endpoint: the Union-returning client
    returns the parsed value, returns the error or raises the builtin
    exception exactly where the raising client returns the same value,
    raises a [USPTOError] with the same four fields or raises the same
    builtin exception; and both leave the same trace of requests and log
    entries, but for one difference in [get_patent_wrapper]: there the
    log entry of the Union-returning client is the raising client's with
    the description of the status added to its first line, after the
    error code, the request and the other three lines being the same. *)
Theorem X1_clients_agree_on_endpoints {R : Renderer} {PatentFileWrapper ContinuityCollection}
    (parse_response : pyval -> outcome exn PatentFileWrapper)
    (continuity_from_dict : pyval -> outcome exn ContinuityCollection)
    (api_key : string) (net : network) (serial_number : string) :
  let u := union_client api_key in
  let r := raising_client api_key net in
  same_outcome
    (fst (UnionClient.USPTOClient.get_patent_wrapper parse_response u net serial_number))
    (fst (RaisingClient.USPTOClient.get_patent_wrapper parse_response r serial_number))
  /\ same_run (UnionClient.USPTOClient.get_patent_documents u net serial_number)
              (RaisingClient.USPTOClient.get_patent_documents r serial_number)
  /\ same_run (UnionClient.USPTOClient.get_patent_continuity continuity_from_dict
                 u net serial_number)
              (RaisingClient.USPTOClient.get_patent_continuity continuity_from_dict
                 r serial_number)
  /\ same_run (UnionClient.USPTOClient.get_foreign_priority u net serial_number)
              (RaisingClient.USPTOClient.get_foreign_priority r serial_number)
  /\ same_run (UnionClient.USPTOClient.get_patent_transactions u net serial_number)
              (RaisingClient.USPTOClient.get_patent_transactions r serial_number)
  /\ same_run (UnionClient.USPTOClient.get_patent_assignments u net serial_number)
              (RaisingClient.USPTOClient.get_patent_assignments r serial_number)
  /\ same_run_described
       (int_dict_get UnionClient.USPTOClient.status_descriptions
          (status (net (applications_url serial_number "") (fixed_headers api_key)))
          "Unknown Error")
       (UnionClient.USPTOClient.get_patent_wrapper parse_response u net serial_number)
       (RaisingClient.USPTOClient.get_patent_wrapper parse_response r serial_number).
Proof.
  intros u r. unfold same_run.
  split; [apply (proj1 (requests_agree api_key net _ _ true))|].
  repeat match goal with
         | |- _ /\ _ => split
         | |- same_outcome _ _ => apply (proj1 (requests_agree api_key net _ _ false))
         | |- snd _ = snd _ =>
             apply (proj2 (requests_agree api_key net _ _ false)); reflexivity
         end.
  replace (applications_url serial_number "") with (BASE_URL ++ "/" ++ serial_number)
    by (unfold applications_url; now rewrite append_empty_r).
  apply wrapper_requests_agree.
Qed.

(** X1 on an application the server does not know: the Union-returning
    client logs the error with the description of status 404 on the first
    line, the raising client without it. *)
Example wrapper_log_entries :
  let net := always (mkresponse 404 None []) in
  snd (UnionClient.USPTOClient.get_patent_wrapper (R := plain_renderer)
         (fun _ => Return tt) (union_client "test_api_key") net "12345678")
  = [ NetGet "https://beta-api.uspto.gov/api/v1/patent/applications/12345678"
        (fixed_headers "test_api_key");
      LogError ("USPTO API Error: 404 - Not Found - Patent application doesn't exist"
                ++ nl ++ "Error Message: Not Found"
                ++ nl ++ "Details: No details provided"
                ++ nl ++ "Request ID: No request ID provided") ]
  /\ snd (RaisingClient.USPTOClient.get_patent_wrapper (R := plain_renderer)
            (fun _ => Return tt) (raising_client "test_api_key" net) "12345678")
     = [ NetGet "https://beta-api.uspto.gov/api/v1/patent/applications/12345678"
           (fixed_headers "test_api_key");
         LogError ("USPTO API Error: 404"
                   ++ nl ++ "Error Message: Not Found"
                   ++ nl ++ "Details: No details provided"
                   ++ nl ++ "Request ID: No request ID provided") ].
Proof. split; reflexivity. Qed.

(** X2: the two [download_document] methods are the same function of the
    file system, the server, the document and the arguments: same result,
    same requests, same writes, same log entry. *)
Theorem X2_downloads_agree {R : Renderer} (api_key : string) (fs : filesystem)
    (net : network) (document : PatentDocument.t) (save_path : string)
    (filename : option string) (mime_type : string) :
  UnionClient.USPTOClient.download_document (union_client api_key) fs net document
    save_path filename mime_type
  = RaisingClient.USPTOClient.download_document (raising_client api_key net) fs
      document save_path filename mime_type.
Proof. reflexivity. Qed.

(* ------------------------------------------------------------------ *)
(** ** Traces of the endpoints *)

Lemma union_request_trace {R : Renderer} {A} (self : UnionClient.USPTOClient.t)
    (net : network) (url : string) (parse_func : pyval -> outcome exn A) (b : bool) :
  let run := UnionClient.USPTOClient.request self net url parse_func b in
  one_get_then_log url (UnionClient.USPTOClient.headers self)
    (union_is_error (fst run)) (snd run).
Proof.
  unfold UnionClient.USPTOClient.request, UnionClient.USPTOClient.respond,
    one_get_then_log.
  destruct (Z.eqb (status (net url (UnionClient.USPTOClient.headers self))) 200).
  - destruct (parse_func _); cbn; eexists; split; reflexivity.
  - destruct (UnionClient.USPTOError.from_dict _ _); cbn; eexists;
      (split; [reflexivity|]); [eexists|]; reflexivity.
Qed.

Lemma raising_request_trace {R : Renderer} {A} (self : RaisingClient.USPTOClient.t)
    (url : string) (parse_func : pyval -> outcome exn A) :
  let run := RaisingClient.USPTOClient.request self url parse_func in
  one_get_then_log url (RaisingClient.USPTOClient.headers self)
    (raising_is_error (fst run)) (snd run).
Proof.
  unfold RaisingClient.USPTOClient.request, RaisingClient.USPTOClient._handle_response,
    one_get_then_log.
  destruct (Z.eqb (status (RaisingClient.USPTOClient.session self url
                             (RaisingClient.USPTOClient.headers self))) 200).
  - destruct (parse_func _); cbn; eexists; split; reflexivity.
  - destruct (RaisingClient.USPTOError.from_dict _ _); cbn; eexists;
      (split; [reflexivity|]); [eexists|]; reflexivity.
Qed.

(** X3: whatever the server answers and whatever the parser does, each
    endpoint of either client issues exactly one request: a GET of its own
    URL under the applications base path, carrying the [accept] header and
    the API key; and it writes exactly one error log entry when it
    surfaces a [USPTOError], none otherwise. *)
Theorem X3_one_request_per_call {R : Renderer} {PatentFileWrapper ContinuityCollection}
    (parse_response : pyval -> outcome exn PatentFileWrapper)
    (continuity_from_dict : pyval -> outcome exn ContinuityCollection)
    (api_key : string) (net : network) (serial_number : string) :
  let u := UnionClient.USPTOClient.__init__ api_key in
  let r := RaisingClient.USPTOClient.__init__ api_key net in
  let headers := [("accept", "application/json"); ("X-API-KEY", api_key)] in
  let union_ok {A} (suffix : string) (run : io exn (A + UnionClient.USPTOError.t)) :=
    one_get_then_log (applications_url serial_number suffix) headers
      (union_is_error (fst run)) (snd run) in
  let raising_ok {A} (suffix : string) (run : io RaisingClient.raised A) :=
    one_get_then_log (applications_url serial_number suffix) headers
      (raising_is_error (fst run)) (snd run) in
  (union_ok "" (UnionClient.USPTOClient.get_patent_wrapper parse_response u net
                  serial_number)
   /\ union_ok "/documents"
        (UnionClient.USPTOClient.get_patent_documents u net serial_number)
   /\ union_ok "/continuity"
        (UnionClient.USPTOClient.get_patent_continuity continuity_from_dict u net
           serial_number)
   /\ union_ok "/foreign-priority"
        (UnionClient.USPTOClient.get_foreign_priority u net serial_number)
   /\ union_ok "/transactions"
        (UnionClient.USPTOClient.get_patent_transactions u net serial_number)
   /\ union_ok "/assignment"
        (UnionClient.USPTOClient.get_patent_assignments u net serial_number))
  /\ (raising_ok "" (RaisingClient.USPTOClient.get_patent_wrapper parse_response r
                       serial_number)
      /\ raising_ok "/documents"
           (RaisingClient.USPTOClient.get_patent_documents r serial_number)
      /\ raising_ok "/continuity"
           (RaisingClient.USPTOClient.get_patent_continuity continuity_from_dict r
              serial_number)
      /\ raising_ok "/foreign-priority"
           (RaisingClient.USPTOClient.get_foreign_priority r serial_number)
      /\ raising_ok "/transactions"
           (RaisingClient.USPTOClient.get_patent_transactions r serial_number)
      /\ raising_ok "/assignment"
           (RaisingClient.USPTOClient.get_patent_assignments r serial_number)).
Proof.
  intros u r headers union_ok raising_ok. subst union_ok raising_ok. cbv beta.
  assert (Hwrapper : applications_url serial_number ""
                     = BASE_URL ++ "/" ++ serial_number).
  { unfold applications_url. now rewrite append_empty_r. }
  split.
  - split; [rewrite Hwrapper; apply (union_request_trace u net)|].
    repeat match goal with
           | |- _ /\ _ => split
           | |- one_get_then_log (applications_url _ ?suffix) _ _ _ =>
               change (applications_url serial_number suffix)
                 with (BASE_URL ++ "/" ++ serial_number ++ suffix);
               apply (union_request_trace u net)
           end.
  - split; [rewrite Hwrapper; apply (raising_request_trace r)|].
    repeat match goal with
           | |- _ /\ _ => split
           | |- one_get_then_log (applications_url _ ?suffix) _ _ _ =>
               change (applications_url serial_number suffix)
                 with (BASE_URL ++ "/" ++ serial_number ++ suffix);
               apply (raising_request_trace r)
           end.
Qed.

(* ------------------------------------------------------------------ *)
(** ** Status 200 *)

Lemma union_request_200 {R : Renderer} {A} (self : UnionClient.USPTOClient.t)
    (net : network) (url : string) (parse_func : pyval -> outcome exn A) (b : bool) :
  status (net url (UnionClient.USPTOClient.headers self)) = 200%Z ->
  UnionClient.USPTOClient.request self net url parse_func b
  = (match parse_func
             (match json (net url (UnionClient.USPTOClient.headers self)) with
              | Some body => body
              | None => PDict []
              end) with
     | Return a => Return (inl a)
     | Raise e => Raise e
     end,
     [NetGet url (UnionClient.USPTOClient.headers self)]).
Proof.
  intros Hstatus.
  unfold UnionClient.USPTOClient.request, UnionClient.USPTOClient.respond.
  rewrite Hstatus. cbn [Z.eqb Pos.eqb]. now destruct (parse_func _).
Qed.

Lemma raising_request_200 {R : Renderer} {A} (self : RaisingClient.USPTOClient.t)
    (url : string) (parse_func : pyval -> outcome exn A) :
  status (RaisingClient.USPTOClient.session self url
            (RaisingClient.USPTOClient.headers self)) = 200%Z ->
  RaisingClient.USPTOClient.request self url parse_func
  = (match parse_func
             (match json (RaisingClient.USPTOClient.session self url
                            (RaisingClient.USPTOClient.headers self)) with
              | Some body => body
              | None => PDict []
              end) with
     | Return a => Return a
     | Raise e => Raise (RaisingClient.Builtin e)
     end,
     [NetGet url (RaisingClient.USPTOClient.headers self)]).
Proof.
  intros Hstatus.
  unfold RaisingClient.USPTOClient.request, RaisingClient.USPTOClient._handle_response.
  rewrite Hstatus. cbn [Z.eqb Pos.eqb]. now destruct (parse_func _).
Qed.

(** X4: a response with status 200 whose body cannot be decoded is not an
    error: every collection endpoint of either client returns the empty
    collection (count 0 where there is a count, no items, no request
    identifier) and logs nothing: its trace is its one request. *)
Theorem X4_undecodable_success_is_empty {R : Renderer} (api_key : string)
    (net : network) (serial_number : string) :
  (forall url headers, status (net url headers) = 200%Z /\ json (net url headers) = None) ->
  let u := UnionClient.USPTOClient.__init__ api_key in
  let r := RaisingClient.USPTOClient.__init__ api_key net in
  let get (suffix : string) :=
    [NetGet (applications_url serial_number suffix) (fixed_headers api_key)] in
  (UnionClient.USPTOClient.get_patent_transactions u net serial_number
   = (Return (inl (TransactionCollection.mk (PInt 0) [] PNone)), get "/transactions")
   /\ UnionClient.USPTOClient.get_foreign_priority u net serial_number
      = (Return (inl (ForeignPriorityCollection.mk (PInt 0) [])), get "/foreign-priority")
   /\ UnionClient.USPTOClient.get_patent_assignments u net serial_number
      = (Return (inl (AssignmentCollection.mk (PInt 0) [] PNone)), get "/assignment")
   /\ UnionClient.USPTOClient.get_patent_documents u net serial_number
      = (Return (inl (PatentDocumentCollection.mk [])), get "/documents"))
  /\ (RaisingClient.USPTOClient.get_patent_transactions r serial_number
      = (Return (TransactionCollection.mk (PInt 0) [] PNone), get "/transactions")
      /\ RaisingClient.USPTOClient.get_foreign_priority r serial_number
         = (Return (ForeignPriorityCollection.mk (PInt 0) []), get "/foreign-priority")
      /\ RaisingClient.USPTOClient.get_patent_assignments r serial_number
         = (Return (AssignmentCollection.mk (PInt 0) [] PNone), get "/assignment")
      /\ RaisingClient.USPTOClient.get_patent_documents r serial_number
         = (Return (PatentDocumentCollection.mk []), get "/documents"))
  /\ existsb is_log_event
       (snd (UnionClient.USPTOClient.get_patent_transactions u net serial_number)
        ++ snd (UnionClient.USPTOClient.get_foreign_priority u net serial_number)
        ++ snd (UnionClient.USPTOClient.get_patent_assignments u net serial_number)
        ++ snd (UnionClient.USPTOClient.get_patent_documents u net serial_number)
        ++ snd (RaisingClient.USPTOClient.get_patent_transactions r serial_number)
        ++ snd (RaisingClient.USPTOClient.get_foreign_priority r serial_number)
        ++ snd (RaisingClient.USPTOClient.get_patent_assignments r serial_number)
        ++ snd (RaisingClient.USPTOClient.get_patent_documents r serial_number))%list
     = false.
Proof.
  intros Hnet u r get.
  unfold UnionClient.USPTOClient.get_patent_transactions,
    UnionClient.USPTOClient.get_foreign_priority,
    UnionClient.USPTOClient.get_patent_assignments,
    UnionClient.USPTOClient.get_patent_documents,
    RaisingClient.USPTOClient.get_patent_transactions,
    RaisingClient.USPTOClient.get_foreign_priority,
    RaisingClient.USPTOClient.get_patent_assignments,
    RaisingClient.USPTOClient.get_patent_documents.
  rewrite !union_request_200 by apply Hnet.
  rewrite !raising_request_200 by apply Hnet.
  cbn [RaisingClient.USPTOClient.session r RaisingClient.USPTOClient.__init__].
  repeat match goal with
         | |- context [json (net ?url ?h)] => rewrite (proj2 (Hnet url h))
         end.
  repeat split; reflexivity.
Qed.

(** X4 against a server that always answers 200 with an HTML page. *)
Lemma X4_undecodable_success_is_empty_witness :
  UnionClient.USPTOClient.get_patent_transactions (R := plain_renderer)
    (UnionClient.USPTOClient.__init__ "test_api_key")
    (always (mkresponse 200 None ["<html>"])) "12345678"
  = (Return (inl (TransactionCollection.mk (PInt 0) [] PNone)),
     [NetGet "https://beta-api.uspto.gov/api/v1/patent/applications/12345678/transactions"
        [("accept", "application/json"); ("X-API-KEY", "test_api_key")]]).
Proof.
  apply (X4_undecodable_success_is_empty (R := plain_renderer) "test_api_key"
           (always (mkresponse 200 None ["<html>"])) "12345678").
  intros url headers. split; reflexivity.
Defined.

(** X5: with status 200 a failure of the mapper is never turned into a
    [USPTOError]: the Union-returning client raises it as it is, the
    raising client raises it as a builtin exception, and neither logs
    anything.  In particular a body that decodes to anything but an object
    makes every collection endpoint raise [AttributeError]. *)
Theorem X5_mapper_failures_escape {R : Renderer} {A} (api_key : string) (net : network)
    (url : string) (parse_func : pyval -> outcome exn A) (b : bool)
    (body : pyval) (e : exn) :
  let u := UnionClient.USPTOClient.__init__ api_key in
  let r := RaisingClient.USPTOClient.__init__ api_key net in
  let headers := [("accept", "application/json"); ("X-API-KEY", api_key)] in
  status (net url headers) = 200%Z ->
  json (net url headers) = Some body ->
  (parse_func body = Raise e ->
   UnionClient.USPTOClient.request u net url parse_func b
   = (Raise e, [NetGet url headers])
   /\ RaisingClient.USPTOClient.request r url parse_func
      = (Raise (RaisingClient.Builtin e), [NetGet url headers]))
  /\ (is_dict body = false ->
      TransactionCollection.from_dict body = Raise (AttributeError "get")
      /\ ForeignPriorityCollection.from_dict body = Raise (AttributeError "get")
      /\ AssignmentCollection.from_dict body = Raise (AttributeError "get")
      /\ PatentDocumentCollection.from_dict body = Raise (AttributeError "get")).
Proof.
  intros u r headers Hstatus Hbody. split.
  - intros Hparse. split.
    + rewrite union_request_200 by exact Hstatus.
      cbn [UnionClient.USPTOClient.headers u UnionClient.USPTOClient.__init__].
      fold headers. now rewrite Hbody, Hparse.
    + rewrite raising_request_200 by exact Hstatus.
      cbn [RaisingClient.USPTOClient.headers RaisingClient.USPTOClient.session r
             RaisingClient.USPTOClient.__init__].
      fold headers. now rewrite Hbody, Hparse.
  - intros Hshape. destruct body; try discriminate Hshape; repeat split; reflexivity.
Qed.

(** X5 on a 200 response whose body is the JSON array [[]]. *)
Lemma X5_mapper_failures_escape_witness :
  UnionClient.USPTOClient.get_patent_transactions (R := plain_renderer)
    (UnionClient.USPTOClient.__init__ "test_api_key")
    (always (mkresponse 200 (Some (PList [])) [])) "12345678"
  = (Raise (AttributeError "get"),
     [NetGet "https://beta-api.uspto.gov/api/v1/patent/applications/12345678/transactions"
        [("accept", "application/json"); ("X-API-KEY", "test_api_key")]]).
Proof.
  destruct (X5_mapper_failures_escape (R := plain_renderer) "test_api_key"
              (always (mkresponse 200 (Some (PList [])) []))
              "https://beta-api.uspto.gov/api/v1/patent/applications/12345678/transactions"
              TransactionCollection.from_dict false (PList []) (AttributeError "get")
              eq_refl eq_refl) as (Hescape & _).
  exact (proj1 (Hescape eq_refl)).
Defined.

(* ------------------------------------------------------------------ *)
(** ** Bags of item trees *)

Lemma first_rejected_cons {B} (f : pyval -> outcome exn B) (item : pyval)
    (items : list pyval) (x : pyval) (e : exn) :
  first_rejected f (item :: items) x e
  <-> (x = item /\ f item = Raise e)
      \/ (accepted f item /\ first_rejected f items x e).
Proof.
  unfold first_rejected. split.
  - intros ([|p pre] & post & Hsplit & Hpre & Hx); cbn in Hsplit;
      injection Hsplit as <- ->.
    + left. now split.
    + right. inversion Hpre; subst. split; [assumption|]. now exists pre, post.
  - intros [[-> Hx] | [Hitem (pre & post & -> & Hpre & Hx)]].
    + exists [], items. repeat split; auto.
    + exists (item :: pre), post. repeat split; auto.
Qed.

Lemma mapM_first_rejected {B} (f : pyval -> outcome exn B) (items : list pyval) (e : exn) :
  mapM f items = Raise e <-> exists x, first_rejected f items x e.
Proof.
  induction items as [|item items IH]; cbn [mapM].
  - split; [discriminate|].
    intros (x & pre & post & Hsplit & _). now destruct pre.
  - split.
    + destruct (f item) as [y|e1] eqn:Hitem; cbn [bind].
      * destruct (mapM f items) as [ys|e2]; cbn [bind]; [discriminate|].
        intros Heq. destruct (proj1 IH Heq) as (x & Hx).
        exists x. apply first_rejected_cons. right. split; [now exists y | exact Hx].
      * intros Heq. injection Heq as ->. exists item.
        apply first_rejected_cons. left. now split.
    + intros (x & Hx). apply first_rejected_cons in Hx.
      destruct Hx as [[-> Hx] | [(y & Hy) Hx]].
      * now rewrite Hx.
      * rewrite Hy. cbn [bind]. rewrite (proj2 IH (ex_intro _ x Hx)). reflexivity.
Qed.

(** Reduce a mapper whose bag is the list [items] to the comprehension. *)
Ltac bag_is_list Hbag :=
  cbn [py_get bind];
  rewrite ?(dict_get_present _ _ _ _ Hbag), list_comp_PList.

Ltac all_or_nothing_case :=
  intros d items e Hbag; bag_is_list Hbag;
  rewrite <- mapM_first_rejected;
  destruct (mapM _ items); cbn [bind]; split; congruence.

(** X6: the collection mappers and the per-application mappers are all or
    nothing: on an object whose bag is a list, the mapper raises exactly
    when some item tree of the bag is rejected, and the exception is that
    of the first rejected tree; no partial collection is ever returned. *)
Theorem X6_bags_are_all_or_nothing :
  all_or_nothing TransactionCollection.from_dict "patentFileWrapperDataBag"
    ApplicationTransactions.from_dict
  /\ all_or_nothing ForeignPriorityCollection.from_dict "patentFileWrapperDataBag"
       ForeignPriorityData.from_dict
  /\ all_or_nothing AssignmentCollection.from_dict "patentFileWrapperDataBag"
       ApplicationAssignment.from_dict
  /\ all_or_nothing PatentDocumentCollection.from_dict "documentBag"
       PatentDocument.from_dict
  /\ all_or_nothing ApplicationTransactions.from_dict "eventDataBag"
       TransactionEvent.from_dict
  /\ all_or_nothing ForeignPriorityData.from_dict "foreignPriorityBag"
       ForeignPriority.from_dict
  /\ all_or_nothing ApplicationAssignment.from_dict "assignmentBag"
       Assignment.from_dict.
Proof.
  repeat match goal with |- _ /\ _ => split end.
  - unfold TransactionCollection.from_dict. all_or_nothing_case.
  - unfold ForeignPriorityCollection.from_dict. all_or_nothing_case.
  - unfold AssignmentCollection.from_dict. all_or_nothing_case.
  - unfold PatentDocumentCollection.from_dict. all_or_nothing_case.
  - unfold ApplicationTransactions.from_dict. all_or_nothing_case.
  - unfold ForeignPriorityData.from_dict. all_or_nothing_case.
  - unfold ApplicationAssignment.from_dict. all_or_nothing_case.
Qed.

(** X6 on a body whose second application holds one event with a date that
    is not ISO: the whole collection is lost to that [ValueError]. *)
Lemma X6_bags_are_all_or_nothing_witness :
  TransactionCollection.from_dict (PDict sample_bad_transactions_body)
  = Raise invalid_isoformat.
Proof.
  destruct X6_bags_are_all_or_nothing as (Hcollection & _).
  apply (Hcollection sample_bad_transactions_body
           [ PDict [ ("applicationNumberText", PStr "12345678");
                     ("eventDataBag", PList [sample_event "EML_NTR"]) ];
             PDict [ ("applicationNumberText", PStr "87654321");
                     ("eventDataBag",
                      PList [sample_event "EML_NTR"; sample_bad_event]) ] ]
           invalid_isoformat eq_refl).
  eexists. eexists [_], []. split; [reflexivity|].
  split; [repeat constructor; eexists; reflexivity | reflexivity].
Defined.

Ltac per_application_case :=
  intros d; split;
  [ intros items Hbag Hall;
    destruct (list_comp_accepted _ items Hall) as (ys & Hys & Hmapped & Hlength);
    cbn [py_get bind];
    rewrite ?(dict_get_present _ _ _ _ Hbag), Hys; cbn [bind];
    eexists; split; [reflexivity|]; cbn; auto
  | intros Habsent; cbn [py_get bind];
    rewrite ?(dict_get_absent _ _ _ Habsent); cbn;
    eexists; split; reflexivity ].

(** X7: each per-application mapper keeps the application number of its
    tree (the empty string when absent) and maps the trees of its bag one
    by one, in order, when they are all accepted; without the bag key the
    record has no items. *)
Theorem X7_per_application_mappers :
  per_application ApplicationTransactions.from_dict
    ApplicationTransactions.application_number ApplicationTransactions.events
    "eventDataBag" TransactionEvent.from_dict
  /\ per_application ForeignPriorityData.from_dict
       ForeignPriorityData.application_number ForeignPriorityData.foreign_priorities
       "foreignPriorityBag" ForeignPriority.from_dict
  /\ per_application ApplicationAssignment.from_dict
       ApplicationAssignment.application_number ApplicationAssignment.assignments
       "assignmentBag" Assignment.from_dict.
Proof.
  split; [|split].
  - unfold ApplicationTransactions.from_dict. per_application_case.
  - unfold ForeignPriorityData.from_dict. per_application_case.
  - unfold ApplicationAssignment.from_dict. per_application_case.
Qed.

(** X7 on an application with two events. *)
Lemma X7_per_application_mappers_witness :
  exists r,
    ApplicationTransactions.from_dict
      (PDict [ ("applicationNumberText", PStr "12345678");
               ("eventDataBag", PList [sample_event "EML_NTR"; sample_event "MM327"]) ])
    = Return r
    /\ ApplicationTransactions.application_number r = PStr "12345678"
    /\ length (ApplicationTransactions.events r) = 2%nat.
Proof.
  destruct X7_per_application_mappers as (Htransactions & _).
  destruct (Htransactions
              [ ("applicationNumberText", PStr "12345678");
                ("eventDataBag", PList [sample_event "EML_NTR"; sample_event "MM327"]) ])
    as (Hlist & _).
  destruct (Hlist [sample_event "EML_NTR"; sample_event "MM327"] eq_refl)
    as (r & Hr & Hnumber & _ & Hlength).
  - repeat constructor; eexists; reflexivity.
  - exists r. repeat split; assumption.
Defined.

(* ------------------------------------------------------------------ *)
(** ** Explicit nulls *)

Ltac present_step H := rewrite ?(dict_get_present _ _ _ _ H).

(** X8: the defaults stand in for absent keys only.  A key that is present
    with the value null is read as it is: a text field then holds [None],
    a date or an integer field makes the mapper raise [TypeError], a bag
    makes it raise [TypeError], and a null assignee address makes
    [Assignee.from_dict] raise [AttributeError]. *)
Theorem X8_null_is_not_absent (d : pydict) :
  (dict_lookup d "eventCode" = Some PNone ->
   forall r, TransactionEvent.from_dict (PDict d) = Return r ->
             TransactionEvent.event_code r = PNone)
  /\ (dict_lookup d "eventDate" = Some PNone ->
      TransactionEvent.from_dict (PDict d) = Raise TypeError)
  /\ (dict_lookup d "filingDate" = Some PNone ->
      ForeignPriority.from_dict (PDict d) = Raise TypeError)
  /\ (dict_lookup d "executionDate" = Some PNone ->
      Assignor.from_dict (PDict d) = Raise TypeError)
  /\ (dict_lookup d "assignmentReceivedDate" = Some PNone ->
      Assignment.from_dict (PDict d) = Raise TypeError)
  /\ (dict_lookup d "assignmentReceivedDate" = None ->
      dict_lookup d "assignmentRecordedDate" = None ->
      dict_lookup d "assignmentMailedDate" = None ->
      dict_lookup d "reelNumber" = Some PNone ->
      Assignment.from_dict (PDict d) = Raise TypeError)
  /\ (dict_lookup d "patentFileWrapperDataBag" = Some PNone ->
      TransactionCollection.from_dict (PDict d) = Raise TypeError
      /\ ForeignPriorityCollection.from_dict (PDict d) = Raise TypeError
      /\ AssignmentCollection.from_dict (PDict d) = Raise TypeError)
  /\ (dict_lookup d "documentBag" = Some PNone ->
      PatentDocumentCollection.from_dict (PDict d) = Raise TypeError)
  /\ (dict_lookup d "eventDataBag" = Some PNone ->
      ApplicationTransactions.from_dict (PDict d) = Raise TypeError)
  /\ (dict_lookup d "foreignPriorityBag" = Some PNone ->
      ForeignPriorityData.from_dict (PDict d) = Raise TypeError)
  /\ (dict_lookup d "assignmentBag" = Some PNone ->
      ApplicationAssignment.from_dict (PDict d) = Raise TypeError)
  /\ (dict_lookup d "assigneeAddress" = Some PNone ->
      Assignee.from_dict (PDict d) = Raise (AttributeError "get")).
Proof.
  repeat match goal with |- _ /\ _ => split end.
  - intros Hnull r. unfold TransactionEvent.from_dict. cbn [py_get bind].
    present_step Hnull. intros Hr. invert_binds Hr. now injection Hr as <-.
  - intros Hnull. unfold TransactionEvent.from_dict. cbn [py_get bind].
    present_step Hnull. reflexivity.
  - intros Hnull. unfold ForeignPriority.from_dict. cbn [py_get bind].
    present_step Hnull. reflexivity.
  - intros Hnull. unfold Assignor.from_dict. cbn [py_get bind].
    present_step Hnull. reflexivity.
  - intros Hnull. unfold Assignment.from_dict. cbn [py_get bind].
    present_step Hnull. reflexivity.
  - intros H1 H2 H3 Hnull. unfold Assignment.from_dict. cbn [py_get bind].
    rewrite (dict_get_absent _ _ _ H1), (dict_get_absent _ _ _ H2),
      (dict_get_absent _ _ _ H3), date_default.
    cbn [bind]. present_step Hnull. reflexivity.
  - intros Hnull.
    unfold TransactionCollection.from_dict, ForeignPriorityCollection.from_dict,
      AssignmentCollection.from_dict.
    cbn [py_get bind]. present_step Hnull. repeat split; reflexivity.
  - intros Hnull. unfold PatentDocumentCollection.from_dict. cbn [py_get bind].
    present_step Hnull. reflexivity.
  - intros Hnull. unfold ApplicationTransactions.from_dict. cbn [py_get bind].
    present_step Hnull. reflexivity.
  - intros Hnull. unfold ForeignPriorityData.from_dict. cbn [py_get bind].
    present_step Hnull. reflexivity.
  - intros Hnull. unfold ApplicationAssignment.from_dict. cbn [py_get bind].
    present_step Hnull. reflexivity.
  - intros Hnull. unfold Assignee.from_dict. cbn [py_get bind].
    present_step Hnull. reflexivity.
Qed.

(** X8 on an event whose date is null, and on a body whose bag is null. *)
Lemma X8_null_is_not_absent_witness :
  TransactionEvent.from_dict (PDict [("eventCode", PStr "MM327"); ("eventDate", PNone)])
  = Raise TypeError.
Proof.
  destruct (X8_null_is_not_absent [("eventCode", PStr "MM327"); ("eventDate", PNone)])
    as (_ & Hdate & _).
  now apply Hdate.
Defined.

(* ------------------------------------------------------------------ *)
(** ** Keys a mapper reads *)

Lemma reads_only_intro {B} (keys : list string) (f : pyval -> outcome exn B) :
  (forall d d' : pydict,
      (forall k, In k keys -> dict_lookup d k = dict_lookup d' k) ->
      f (PDict d) = f (PDict d')) ->
  reads_only keys f.
Proof.
  intros Hagree. split; [exact Hagree|].
  intros k v d Hnot. apply Hagree. intros k' Hin. cbn [dict_lookup].
  destruct (String.eqb_spec k k') as [->|_]; [contradiction | reflexivity].
Qed.

Ltac listed := cbn [In]; repeat (first [left; reflexivity | right]).

Ltac reads_only_case :=
  apply reads_only_intro; intros d d' Hagree;
  cbn [py_get py_getitem bind]; unfold dict_get;
  repeat match goal with
         | |- context [dict_lookup d ?k] => rewrite (Hagree k) by listed
         end;
  reflexivity.

(** X9: every mapper looks at its tree only through the keys it names:
    two objects that agree on those keys map to the same result (or raise
    the same exception), so bindings under other keys, their order and
    shadowed duplicates never matter.  [ForeignPriorityCollection] does
    not read 'requestIdentifier'; [Correspondent] reads neither
    'cityName', 'geographicRegionCode' nor 'postalCode'. *)
Theorem X9_mappers_read_only_their_keys {R : Renderer} (status_code : Z) :
  reads_only ["eventCode"; "eventDescriptionText"; "eventDate"]
    TransactionEvent.from_dict
  /\ reads_only ["applicationNumberText"; "eventDataBag"]
       ApplicationTransactions.from_dict
  /\ reads_only ["count"; "patentFileWrapperDataBag"; "requestIdentifier"]
       TransactionCollection.from_dict
  /\ reads_only ["ipOfficeName"; "filingDate"; "applicationNumberText"]
       ForeignPriority.from_dict
  /\ reads_only ["applicationNumberText"; "foreignPriorityBag"]
       ForeignPriorityData.from_dict
  /\ reads_only ["count"; "patentFileWrapperDataBag"]
       ForeignPriorityCollection.from_dict
  /\ reads_only ["addressLineOneText"; "addressLineTwoText"; "addressLineThreeText";
                 "cityName"; "geographicRegionCode"; "postalCode"]
       Address.from_dict
  /\ reads_only ["assignorName"; "executionDate"] Assignor.from_dict
  /\ reads_only ["assigneeNameText"; "assigneeAddress"] Assignee.from_dict
  /\ reads_only ["addressLineOneText"; "addressLineTwoText"; "addressLineThreeText";
                 "correspondentNameText"]
       Correspondent.from_dict
  /\ reads_only ["assignmentReceivedDate"; "assignmentRecordedDate";
                 "assignmentMailedDate"; "reelNumber"; "frameNumber"; "pageNumber";
                 "reelNumber/frameNumber"; "conveyanceText"; "assignorBag";
                 "assigneeBag"; "correspondenceAddressBag"]
       Assignment.from_dict
  /\ reads_only ["applicationNumberText"; "assignmentBag"]
       ApplicationAssignment.from_dict
  /\ reads_only ["count"; "patentFileWrapperDataBag"; "requestIdentifier"]
       AssignmentCollection.from_dict
  /\ reads_only ["mimeTypeIdentifier"; "downloadUrl"; "pageTotalQuantity"]
       DownloadOption.from_dict
  /\ reads_only ["applicationNumberText"; "officialDate"; "documentIdentifier";
                 "documentCode"; "documentCodeDescriptionText"; "directionCategory";
                 "downloadOptionBag"]
       PatentDocument.from_dict
  /\ reads_only ["documentBag"] PatentDocumentCollection.from_dict
  /\ reads_only ["code"; "error"; "errorDetails"; "errorDetailed"; "requestIdentifier"]
       (fun data => UnionClient.USPTOError.from_dict data status_code)
  /\ reads_only ["code"; "error"; "errorDetails"; "errorDetailed"; "requestIdentifier"]
       (fun data => RaisingClient.USPTOError.from_dict data status_code).
Proof.
  repeat match goal with |- _ /\ _ => split end.
  - unfold TransactionEvent.from_dict. reads_only_case.
  - unfold ApplicationTransactions.from_dict. reads_only_case.
  - unfold TransactionCollection.from_dict. reads_only_case.
  - unfold ForeignPriority.from_dict. reads_only_case.
  - unfold ForeignPriorityData.from_dict. reads_only_case.
  - unfold ForeignPriorityCollection.from_dict. reads_only_case.
  - unfold Address.from_dict. reads_only_case.
  - unfold Assignor.from_dict. reads_only_case.
  - unfold Assignee.from_dict. reads_only_case.
  - unfold Correspondent.from_dict. reads_only_case.
  - unfold Assignment.from_dict. reads_only_case.
  - unfold ApplicationAssignment.from_dict. reads_only_case.
  - unfold AssignmentCollection.from_dict. reads_only_case.
  - unfold DownloadOption.from_dict. reads_only_case.
  - unfold PatentDocument.from_dict. reads_only_case.
  - unfold PatentDocumentCollection.from_dict. reads_only_case.
  - unfold UnionClient.USPTOError.from_dict. reads_only_case.
  - unfold RaisingClient.USPTOError.from_dict. reads_only_case.
Qed.

(** X9 on an event tree with a field the mapper does not know. *)
Lemma X9_mappers_read_only_their_keys_witness :
  TransactionEvent.from_dict
    (PDict [ ("eventSequenceNumber", PInt 7); ("eventCode", PStr "MM327") ])
  = TransactionEvent.from_dict (PDict [ ("eventCode", PStr "MM327") ]).
Proof.
  destruct (X9_mappers_read_only_their_keys (R := plain_renderer) 200)
    as ((_ & Hunknown) & _).
  apply Hunknown. cbn. intros [H | [H | [H | []]]]; discriminate H.
Defined.

(* ------------------------------------------------------------------ *)
(** ** Document download: the matching case *)

Lemma find_first_match (document : PatentDocument.t) (mime_type : string)
    (opt : DownloadOption.t) :
  first_match document mime_type opt ->
  find (fun o => py_eq_str (DownloadOption.mime_type o) mime_type)
       (PatentDocument.download_options document) = Some opt.
Proof.
  intros (pre & post & -> & Hpre & Hopt).
  induction Hpre as [|o pre Ho _ IH]; cbn [app find].
  - rewrite Hopt. cbn [py_eq_str]. now rewrite String.eqb_refl.
  - destruct (DownloadOption.mime_type o) as [| | | |s| |]; cbn [py_eq_str];
      try exact IH.
    destruct (String.eqb_spec s mime_type) as [->|_]; [now contradiction Ho | exact IH].
Qed.

Lemma read_chunks_until_empty (stream : list string) :
  read_until_empty stream (read_chunks stream).
Proof.
  unfold read_until_empty. induction stream as [|chunk stream (Hall & rest & Hrest & Hend)].
  - split; [constructor|]. exists []. split; [reflexivity | now left].
  - cbn [read_chunks]. destruct (String.eqb_spec chunk "") as [->|Hne].
    + split; [constructor|]. exists ("" :: stream). split; [reflexivity|].
      right. now exists stream.
    + split; [now constructor|]. exists rest. split; [|exact Hend].
      cbn [app]. now rewrite <- Hrest.
Qed.

(** Past the checks and the match, what is left of [download_document] is
    the request. *)
Lemma union_download_matched {R : Renderer} (self : UnionClient.USPTOClient.t)
    (fs : filesystem) (net : network) (document : PatentDocument.t)
    (save_path : string) (filename : option string) (mime_type : string)
    (opt : DownloadOption.t) (url : string) :
  usable fs save_path ->
  first_match document mime_type opt ->
  DownloadOption.download_url opt = PStr url ->
  exists name,
    (forall c rest, filename = Some (String c rest) -> name = String c rest)
    /\ (filename = None \/ filename = Some "" ->
        name = py_str (PatentDocument.application_number document) ++ "_"
               ++ py_str (PatentDocument.document_code document) ++ "_"
               ++ py_str (PatentDocument.document_identifier document)
               ++ extension_for mime_type)
    /\ UnionClient.USPTOClient.download_document self fs net document save_path
         filename mime_type
       = let headers := UnionClient.USPTOClient.headers self in
         let path := os_path_join save_path name in
         if negb (Z.eqb (status (net url headers)) 200) then
           (Raise (Exception ("Download failed with status "
                              ++ str_of_Z (status (net url headers)))),
            [NetGet url headers])
         else
           match open_error fs path with
           | Some e => (Raise e, [NetGet url headers])
           | None =>
               (Return path,
                (NetGet url headers
                 :: file_events path (read_chunks (content (net url headers)))
                 ++ [LogInfo ("Successfully downloaded document "
                              ++ py_str (PatentDocument.document_identifier document)
                              ++ " (" ++ mime_type ++ ") to " ++ path)])%list)
           end.
Proof.
  intros (Hexists & Hwritable) Hmatch Hurl.
  unfold UnionClient.USPTOClient.download_document.
  rewrite Hexists, Hwritable, (find_first_match _ _ _ Hmatch), Hurl.
  cbn [negb].
  destruct filename as [[|c rest]|]; eexists; (split; [|split; [|reflexivity]]);
    try (intros c' rest' Heq; congruence);
    try (intros [Heq | Heq]; congruence);
    try (intros _; reflexivity).
Qed.

Lemma raising_download_matched {R : Renderer} (self : RaisingClient.USPTOClient.t)
    (fs : filesystem) (document : PatentDocument.t)
    (save_path : string) (filename : option string) (mime_type : string)
    (opt : DownloadOption.t) (url : string) :
  usable fs save_path ->
  first_match document mime_type opt ->
  DownloadOption.download_url opt = PStr url ->
  exists name,
    (forall c rest, filename = Some (String c rest) -> name = String c rest)
    /\ (filename = None \/ filename = Some "" ->
        name = py_str (PatentDocument.application_number document) ++ "_"
               ++ py_str (PatentDocument.document_code document) ++ "_"
               ++ py_str (PatentDocument.document_identifier document)
               ++ extension_for mime_type)
    /\ RaisingClient.USPTOClient.download_document self fs document save_path
         filename mime_type
       = let headers := RaisingClient.USPTOClient.headers self in
         let net := RaisingClient.USPTOClient.session self in
         let path := os_path_join save_path name in
         if negb (Z.eqb (status (net url headers)) 200) then
           (Raise (Exception ("Download failed with status "
                              ++ str_of_Z (status (net url headers)))),
            [NetGet url headers])
         else
           match open_error fs path with
           | Some e => (Raise e, [NetGet url headers])
           | None =>
               (Return path,
                (NetGet url headers
                 :: file_events path (read_chunks (content (net url headers)))
                 ++ [LogInfo ("Successfully downloaded document "
                              ++ py_str (PatentDocument.document_identifier document)
                              ++ " (" ++ mime_type ++ ") to " ++ path)])%list)
           end.
Proof.
  intros (Hexists & Hwritable) Hmatch Hurl.
  unfold RaisingClient.USPTOClient.download_document.
  rewrite Hexists, Hwritable, (find_first_match _ _ _ Hmatch), Hurl.
  cbn [negb].
  destruct filename as [[|c rest]|]; eexists; (split; [|split; [|reflexivity]]);
    try (intros c' rest' Heq; congruence);
    try (intros [Heq | Heq]; congruence);
    try (intros _; reflexivity).
Qed.

(** X10: when the save path passes its checks, some download option has
    the requested mime type and the server answers 200, both clients fetch
    the URL of the first such option, once, with the API headers; open one
    file, at the path they return; write to it the chunks of the body in
    order up to the first empty read, never an empty chunk; and log one
    line. *)
Theorem X10_download_streams_first_match {R : Renderer} (api_key : string)
    (fs : filesystem) (net : network) (document : PatentDocument.t)
    (save_path : string) (filename : option string) (mime_type : string)
    (opt : DownloadOption.t) (url : string) :
  let headers := [("accept", "application/json"); ("X-API-KEY", api_key)] in
  usable fs save_path ->
  first_match document mime_type opt ->
  DownloadOption.download_url opt = PStr url ->
  status (net url headers) = 200%Z ->
  (forall path, open_error fs path = None) ->
  exists path written msg,
    UnionClient.USPTOClient.download_document
      (UnionClient.USPTOClient.__init__ api_key) fs net document save_path
      filename mime_type
    = (Return path,
       (NetGet url headers :: file_events path written ++ [LogInfo msg])%list)
    /\ RaisingClient.USPTOClient.download_document
         (RaisingClient.USPTOClient.__init__ api_key net) fs document save_path
         filename mime_type
       = (Return path,
          (NetGet url headers :: file_events path written ++ [LogInfo msg])%list)
    /\ read_until_empty (content (net url headers)) written.
Proof.
  intros headers Husable Hmatch Hurl Hstatus Hopen.
  destruct (union_download_matched (UnionClient.USPTOClient.__init__ api_key) fs net
              document save_path filename mime_type opt url Husable Hmatch Hurl)
    as (name & _ & _ & Hrun).
  cbn [UnionClient.USPTOClient.headers UnionClient.USPTOClient.__init__] in Hrun.
  fold headers in Hrun. cbv zeta in Hrun.
  rewrite Hstatus, Hopen in Hrun. cbn [Z.eqb Pos.eqb negb] in Hrun.
  eexists _, _, _. split; [exact Hrun|]. split; [exact Hrun|].
  apply read_chunks_until_empty.
Qed.

(** X10 on the sample document, fetched as PDF into /tmp. *)
Lemma X10_download_streams_first_match_witness :
  exists path written msg,
    UnionClient.USPTOClient.download_document (R := plain_renderer)
      (UnionClient.USPTOClient.__init__ "test_api_key") sample_fs sample_network
      sample_document "/tmp" None "PDF"
    = (Return path,
       (NetGet "https://example.test/doc1.pdf"
          [("accept", "application/json"); ("X-API-KEY", "test_api_key")]
        :: file_events path written ++ [LogInfo msg])%list)
    /\ read_until_empty ["%PDF"; "-1.7"; ""] written.
Proof.
  destruct (X10_download_streams_first_match (R := plain_renderer) "test_api_key"
              sample_fs sample_network sample_document "/tmp" None "PDF"
              (DownloadOption.mk (PStr "PDF") (PStr "https://example.test/doc1.pdf")
                 (PInt 3))
              "https://example.test/doc1.pdf")
    as (path & written & msg & Hunion & _ & Hread).
  - split; reflexivity.
  - exists [], [DownloadOption.mk (PStr "XML") (PStr "https://example.test/doc1.xml") PNone].
    repeat split. constructor.
  - reflexivity.
  - reflexivity.
  - reflexivity.
  - exists path, written, msg. split; [exact Hunion | exact Hread].
Defined.

(** X11: when the download request is answered with a status other than
    200, both clients raise the generic exception that carries the status,
    after that one request; no file is opened or written, whatever the
    file name asked for. *)
Theorem X11_download_failure_leaves_no_file {R : Renderer} (api_key : string)
    (fs : filesystem) (net : network) (document : PatentDocument.t)
    (save_path : string) (filename : option string) (mime_type : string)
    (opt : DownloadOption.t) (url : string) :
  let headers := [("accept", "application/json"); ("X-API-KEY", api_key)] in
  let union_run :=
    UnionClient.USPTOClient.download_document
      (UnionClient.USPTOClient.__init__ api_key) fs net document save_path
      filename mime_type in
  let raising_run :=
    RaisingClient.USPTOClient.download_document
      (RaisingClient.USPTOClient.__init__ api_key net) fs document save_path
      filename mime_type in
  usable fs save_path ->
  first_match document mime_type opt ->
  DownloadOption.download_url opt = PStr url ->
  status (net url headers) <> 200%Z ->
  union_run
  = (Raise (Exception ("Download failed with status "
                       ++ str_of_Z (status (net url headers)))),
     [NetGet url headers])
  /\ raising_run = union_run
  /\ existsb is_file_event (snd union_run) = false.
Proof.
  intros headers union_run raising_run Husable Hmatch Hurl Hstatus.
  destruct (union_download_matched (UnionClient.USPTOClient.__init__ api_key) fs net
              document save_path filename mime_type opt url Husable Hmatch Hurl)
    as (name & _ & _ & Hrun).
  cbn [UnionClient.USPTOClient.headers UnionClient.USPTOClient.__init__] in Hrun.
  fold headers in Hrun. cbv zeta in Hrun.
  apply Z.eqb_neq in Hstatus. rewrite Hstatus in Hrun. cbn [negb] in Hrun.
  assert (Hsame : raising_run = union_run) by reflexivity.
  subst union_run. rewrite Hrun in *.
  split; [reflexivity|]. split; [exact Hsame | reflexivity].
Qed.

(** X11 against a server that answers 503. *)
Lemma X11_download_failure_leaves_no_file_witness :
  UnionClient.USPTOClient.download_document (R := plain_renderer)
    (UnionClient.USPTOClient.__init__ "test_api_key") sample_fs sample_failing_network
    sample_document "/tmp" (Some "notice.pdf") "PDF"
  = (Raise (Exception "Download failed with status 503"),
     [NetGet "https://example.test/doc1.pdf"
        [("accept", "application/json"); ("X-API-KEY", "test_api_key")]]).
Proof.
  apply (X11_download_failure_leaves_no_file (R := plain_renderer) "test_api_key"
           sample_fs sample_failing_network sample_document "/tmp"
           (Some "notice.pdf") "PDF"
           (DownloadOption.mk (PStr "PDF") (PStr "https://example.test/doc1.pdf")
              (PInt 3))
           "https://example.test/doc1.pdf").
  - split; reflexivity.
  - exists [], [DownloadOption.mk (PStr "XML") (PStr "https://example.test/doc1.xml") PNone].
    repeat split. constructor.
  - reflexivity.
  - cbn. lia.
Defined.

(** X12: the path a successful download returns is the save path joined
    with the file name: the name given when it is not empty; otherwise, for
    a document whose number, code and identifier are text, the name
    [<number>_<code>_<identifier>] followed by [.pdf] for PDF, [.doc] for
    MS_WORD and [.xml] for any other type.  An empty file name counts as no
    file name, and a given name that starts with a slash replaces the save
    path altogether. *)
Theorem X12_download_path {R : Renderer} (api_key : string)
    (fs : filesystem) (net : network) (document : PatentDocument.t)
    (save_path : string) (filename : option string) (mime_type : string)
    (opt : DownloadOption.t) (url : string) :
  let headers := [("accept", "application/json"); ("X-API-KEY", api_key)] in
  let run :=
    UnionClient.USPTOClient.download_document
      (UnionClient.USPTOClient.__init__ api_key) fs net document save_path
      filename mime_type in
  usable fs save_path ->
  first_match document mime_type opt ->
  DownloadOption.download_url opt = PStr url ->
  status (net url headers) = 200%Z ->
  (forall path, open_error fs path = None) ->
  (forall c rest, filename = Some (String c rest) ->
     fst run = Return (os_path_join save_path (String c rest)))
  /\ (forall rest, filename = Some (String "/" rest) ->
        fst run = Return (String "/" rest))
  /\ (filename = None \/ filename = Some "" ->
      forall number code identifier,
        PatentDocument.application_number document = PStr number ->
        PatentDocument.document_code document = PStr code ->
        PatentDocument.document_identifier document = PStr identifier ->
        fst run
        = Return (os_path_join save_path
                    (number ++ "_" ++ code ++ "_" ++ identifier
                     ++ (if String.eqb mime_type "PDF" then ".pdf"
                         else if String.eqb mime_type "MS_WORD" then ".doc"
                         else ".xml")))).
Proof.
  intros headers run Husable Hmatch Hurl Hstatus Hopen.
  destruct (union_download_matched (UnionClient.USPTOClient.__init__ api_key) fs net
              document save_path filename mime_type opt url Husable Hmatch Hurl)
    as (name & Hgiven & Hdefault & Hrun).
  cbn [UnionClient.USPTOClient.headers UnionClient.USPTOClient.__init__] in Hrun.
  fold headers in Hrun. cbv zeta in Hrun.
  rewrite Hstatus, Hopen in Hrun. cbn [Z.eqb Pos.eqb negb] in Hrun.
  subst run. rewrite Hrun. cbn [fst].
  split; [|split].
  - intros c rest Hname. now rewrite (Hgiven c rest Hname).
  - intros rest Hname. now rewrite (Hgiven _ rest Hname).
  - intros Hnone number code identifier Hnumber Hcode Hidentifier.
    rewrite (Hdefault Hnone), Hnumber, Hcode, Hidentifier. reflexivity.
Qed.

(** X12 on the sample document: the generated name, and an empty name. *)
Lemma X12_download_path_witness :
  fst (UnionClient.USPTOClient.download_document (R := plain_renderer)
         (UnionClient.USPTOClient.__init__ "test_api_key") sample_fs sample_network
         sample_document "/tmp" (Some "") "XML")
  = Return "/tmp/12345678_NOA_DOC1.xml".
Proof.
  destruct (X12_download_path (R := plain_renderer) "test_api_key"
              sample_fs sample_network sample_document "/tmp" (Some "") "XML"
              (DownloadOption.mk (PStr "XML") (PStr "https://example.test/doc1.xml")
                 PNone)
              "https://example.test/doc1.xml")
    as (_ & _ & Hdefault).
  - split; reflexivity.
  - exists [DownloadOption.mk (PStr "PDF") (PStr "https://example.test/doc1.pdf") (PInt 3)],
      [].
    repeat split. constructor; [discriminate | constructor].
  - reflexivity.
  - reflexivity.
  - reflexivity.
  - apply (Hdefault (or_intror eq_refl) "12345678" "NOA" "DOC1"); reflexivity.
Defined.

(* ------------------------------------------------------------------ *)
(** ** Parties of an assignment *)

Lemma truthy_text_or_not (v : pyval) :
  py_truthy v = true ->
  (exists c rest, v = PStr (String c rest)) \/ truthy_non_text v.
Proof.
  intros Htruthy. destruct v as [| | | |s| |];
    try (right; split; [exact Htruthy | intros s' Heq; discriminate Heq]).
  destruct s as [|c rest]; [discriminate Htruthy|].
  left. now exists c, rest.
Qed.

(** X13: [Correspondent.from_dict] fails on an object only when
    'addressLineThreeText' holds a truthy value that is not text, and then
    with [AttributeError]; otherwise it returns a correspondent whose name
    and three address lines are the values of the tree as they stand (the
    empty string, [None], [None] when absent), whose postal code is always
    [None], and whose city, when line three is text, is a prefix of line
    three, which is kept whole. *)
Theorem X13_correspondent_record (d : pydict) :
  (forall e, Correspondent.from_dict (PDict d) = Raise e <->
             e = AttributeError "split"
             /\ exists v, dict_lookup d "addressLineThreeText" = Some v
                          /\ truthy_non_text v)
  /\ (forall c, Correspondent.from_dict (PDict d) = Return c ->
        Correspondent.name c = value_or d "correspondentNameText" (PStr "")
        /\ Address.line1 (Correspondent.address c)
           = value_or d "addressLineOneText" (PStr "")
        /\ Address.line2 (Correspondent.address c)
           = value_or d "addressLineTwoText" PNone
        /\ Address.line3 (Correspondent.address c)
           = value_or d "addressLineThreeText" PNone
        /\ Address.postal_code (Correspondent.address c) = PNone
        /\ (forall s, dict_lookup d "addressLineThreeText" = Some (PStr s) ->
            exists city tail,
              Address.city (Correspondent.address c) = PStr city
              /\ s = city ++ tail)).
Proof.
  unfold Correspondent.from_dict, value_or. cbn [py_get bind]. unfold dict_get.
  destruct (dict_lookup d "addressLineThreeText") as [v|] eqn:Hline.
  - destruct (py_truthy v) eqn:Htruthy.
    + destruct (truthy_text_or_not v Htruthy) as [(a & rest & ->) | Hnon].
      * cbn [py_split_comma_head bind]. split.
        -- intros e. split; [discriminate|].
           intros (_ & v & Hv & _ & Hnot). injection Hv as <-.
           now contradiction (Hnot (String a rest)).
        -- intros c Hc. cbn in Hc. injection Hc as <-. cbn.
           repeat split. intros s Hs. injection Hs as <-.
           destruct (split_head_spec "," (String a rest)) as (_ & [Heq | (tail & Heq)]).
           ++ exists (split_head "," (String a rest)), "".
              split; [reflexivity | now rewrite append_empty_r].
           ++ exists (split_head "," (String a rest)), (String "," tail).
              split; [reflexivity | exact Heq].
      * assert (Hsplit : py_split_comma_head v = Raise (AttributeError "split")).
        { destruct Hnon as (_ & Hnot). destruct v; try reflexivity.
          now contradiction (Hnot s). }
        rewrite Hsplit. cbn [bind]. split.
        -- intros e. split.
           ++ intros Heq. injection Heq as <-. split; [reflexivity|]. now exists v.
           ++ now intros (-> & _).
        -- discriminate.
    + cbn [bind]. split.
      * intros e. split; [discriminate|].
        intros (_ & v' & Hv & Ht & _). injection Hv as <-. congruence.
      * intros c Hc. cbn in Hc. injection Hc as <-. cbn.
        repeat split. intros s Hs. injection Hs as ->.
        destruct s; [|discriminate Htruthy]. now exists "", "".
  - cbn [py_truthy bind]. split.
    + intros e. split; [discriminate|]. intros (_ & v & Hv & _). discriminate Hv.
    + intros c Hc. cbn in Hc. injection Hc as <-. cbn.
      repeat split. intros s Hs. discriminate Hs.
Qed.

(** X13 on the sample correspondent, and on a numeric line three. *)
Lemma X13_correspondent_record_witness :
  (exists c, Correspondent.from_dict (PDict sample_correspondent) = Return c
             /\ Address.line3 (Correspondent.address c) = PStr "SPRINGFIELD, IL 62701"
             /\ Address.postal_code (Correspondent.address c) = PNone)
  /\ Correspondent.from_dict (PDict [("addressLineThreeText", PInt 5)])
     = Raise (AttributeError "split").
Proof.
  split.
  - destruct (X13_correspondent_record sample_correspondent) as (_ & Hrecord).
    eexists. split; [reflexivity|].
    destruct (Hrecord _ eq_refl) as (_ & _ & _ & Hline3 & Hpostal & _).
    split; [exact Hline3 | exact Hpostal].
  - destruct (X13_correspondent_record [("addressLineThreeText", PInt 5)])
      as (Hfails & _).
    apply Hfails. split; [reflexivity|]. exists (PInt 5).
    split; [reflexivity|]. split; [reflexivity | discriminate].
Defined.

(** X14: [Assignee.from_dict] hands the 'assigneeAddress' sub-tree to
    [Address.from_dict]: without the key the address is the all-default
    address, with an object under it the address is read from that
    object, and with anything else under it the mapper raises
    [AttributeError]; it fails in no other way. *)
Theorem X14_assignee_address (d : pydict) :
  (dict_lookup d "assigneeAddress" = None ->
   Assignee.from_dict (PDict d)
   = Return (Assignee.mk (value_or d "assigneeNameText" (PStr ""))
               (Address.mk (PStr "") (PStr "") (PStr "") PNone PNone PNone)))
  /\ (forall a, dict_lookup d "assigneeAddress" = Some (PDict a) ->
        exists address,
          Address.from_dict (PDict a) = Return address
          /\ Assignee.from_dict (PDict d)
             = Return (Assignee.mk (value_or d "assigneeNameText" (PStr "")) address))
  /\ (forall e, Assignee.from_dict (PDict d) = Raise e <->
                e = AttributeError "get"
                /\ exists v, dict_lookup d "assigneeAddress" = Some v
                             /\ is_dict v = false).
Proof.
  unfold Assignee.from_dict, value_or. cbn [py_get bind]. unfold dict_get.
  destruct (dict_lookup d "assigneeAddress") as [v|] eqn:Haddress.
  - split; [discriminate|]. split.
    + intros a Ha. injection Ha as ->. eexists. split; reflexivity.
    + intros e. destruct v as [| | | | | |a];
        try (cbn; split;
             [ intros Heq; injection Heq as <-; split; [reflexivity|];
               eexists; split; reflexivity
             | now intros (-> & _) ]).
      cbn. split; [discriminate|].
      intros (_ & v & Hv & Hshape). injection Hv as <-. discriminate Hshape.
  - split; [reflexivity|]. split; [discriminate|].
    intros e. cbn. split; [discriminate|]. intros (_ & v & Hv & _). discriminate Hv.
Qed.

(** X14 on an assignee without address and on one whose address is null. *)
Lemma X14_assignee_address_witness :
  Assignee.from_dict (PDict [("assigneeNameText", PStr "ACME CORP")])
  = Return (Assignee.mk (PStr "ACME CORP")
              (Address.mk (PStr "") (PStr "") (PStr "") PNone PNone PNone))
  /\ Assignee.from_dict (PDict [("assigneeAddress", PNone)])
     = Raise (AttributeError "get").
Proof.
  split.
  - destruct (X14_assignee_address [("assigneeNameText", PStr "ACME CORP")])
      as (Habsent & _).
    now apply Habsent.
  - destruct (X14_assignee_address [("assigneeAddress", PNone)]) as (_ & _ & Hfails).
    apply Hfails. split; [reflexivity|]. exists PNone. split; reflexivity.
Defined.

(* ------------------------------------------------------------------ *)
(** ** Timestamps without a Z *)

Lemma replace_char_absent (old : ascii) (new s : string) :
  lacks old s = true -> replace_char old new s = s.
Proof.
  intros Hlacks. rewrite <- (append_empty_r s) at 1.
  rewrite (replace_char_lacks old new s "" Hlacks). cbn [replace_char].
  apply append_empty_r.
Qed.



(* ------------------------------------------------------------------ *)
(** ** Statuses other than 200 *)

(** X16: with a status other than 200 the body never reaches the mapper:
    whatever mapper an endpoint would use, the result and the trace are
    the same, and the result is never a parsed value, even when the body
    is a well-formed collection. *)
Theorem X16_errors_bypass_the_mapper {R : Renderer} {A} (api_key : string)
    (net : network) (url : string) (parse_func other_func : pyval -> outcome exn A)
    (b : bool) :
  let u := UnionClient.USPTOClient.__init__ api_key in
  let r := RaisingClient.USPTOClient.__init__ api_key net in
  status (net url [("accept", "application/json"); ("X-API-KEY", api_key)]) <> 200%Z ->
  UnionClient.USPTOClient.request u net url parse_func b
  = UnionClient.USPTOClient.request u net url other_func b
  /\ RaisingClient.USPTOClient.request r url parse_func
     = RaisingClient.USPTOClient.request r url other_func
  /\ (forall a, fst (UnionClient.USPTOClient.request u net url parse_func b)
                <> Return (inl a))
  /\ (forall a, fst (RaisingClient.USPTOClient.request r url parse_func) <> Return a).
Proof.
  intros u r Hstatus. apply Z.eqb_neq in Hstatus.
  unfold UnionClient.USPTOClient.request, RaisingClient.USPTOClient.request,
    UnionClient.USPTOClient.respond, RaisingClient.USPTOClient._handle_response.
  cbn [u r UnionClient.USPTOClient.__init__ RaisingClient.USPTOClient.__init__
         UnionClient.USPTOClient.headers RaisingClient.USPTOClient.headers
         RaisingClient.USPTOClient.session].
  rewrite Hstatus.
  split; [reflexivity|]. split; [reflexivity|]. split.
  - intros a. destruct (UnionClient.USPTOError.from_dict _ _); cbn; discriminate.
  - intros a. destruct (RaisingClient.USPTOError.from_dict _ _); cbn; discriminate.
Qed.

(** X16 on a well-formed transaction body delivered with status 404: the
    transaction mapper and a mapper that always fails give the same run. *)
Lemma X16_errors_bypass_the_mapper_witness :
  UnionClient.USPTOClient.get_patent_transactions (R := plain_renderer)
    (UnionClient.USPTOClient.__init__ "test_api_key")
    (always (mkresponse 404 (Some (PDict sample_transactions_body)) []))
    "12345678"
  = UnionClient.USPTOClient.request (R := plain_renderer)
      (UnionClient.USPTOClient.__init__ "test_api_key")
      (always (mkresponse 404 (Some (PDict sample_transactions_body)) []))
      "https://beta-api.uspto.gov/api/v1/patent/applications/12345678/transactions"
      (fun _ => Raise TypeError) false.
Proof.
  destruct (X16_errors_bypass_the_mapper (R := plain_renderer) "test_api_key"
              (always (mkresponse 404 (Some (PDict sample_transactions_body)) []))
              (BASE_URL ++ "/" ++ "12345678" ++ "/transactions")
              TransactionCollection.from_dict (fun _ => Raise TypeError) false)
    as (Hsame & _).
  - cbn. lia.
  - exact Hsame.
Defined.

(* ------------------------------------------------------------------ *)
(** ** Mime types that are not text *)

Lemma find_none_of (options : list DownloadOption.t) (mime_type : string) :
  Forall (fun o => DownloadOption.mime_type o <> PStr mime_type) options ->
  find (fun o => py_eq_str (DownloadOption.mime_type o) mime_type) options = None.
Proof.
  induction 1 as [|o options Ho _ IH]; cbn [find]; [reflexivity|].
  destruct (DownloadOption.mime_type o) as [| | | |s| |]; cbn [py_eq_str]; try exact IH.
  destruct (String.eqb_spec s mime_type) as [->|_]; [now contradiction Ho | exact IH].
Qed.

Lemma join_items_non_text (values : list pyval) :
  (exists v, In v values /\ forall s, v <> PStr s) ->
  mapM join_item values = Raise TypeError.
Proof.
  induction values as [|value values IH]; intros (v & Hin & Hnot); [contradiction|].
  cbn [mapM]. destruct value as [| | | |s| |]; try reflexivity.
  cbn [join_item bind]. rewrite IH; [reflexivity|].
  exists v. split; [|exact Hnot].
  destruct Hin as [<- | Hin]; [now contradiction (Hnot s) | exact Hin].
Qed.

(** X17: the "format unavailable" message is built by joining the mime
    types of all options as text.  When no option matches and some option
    carries a mime type that is not text (a number, null, ...), both
    clients raise [TypeError] in place of the [ValueError], still before
    any request. *)
Theorem X17_non_text_mime_type {R : Renderer} (api_key : string)
    (fs : filesystem) (net : network) (document : PatentDocument.t)
    (save_path : string) (filename : option string) (mime_type : string)
    (odd : DownloadOption.t) :
  usable fs save_path ->
  Forall (fun o => DownloadOption.mime_type o <> PStr mime_type)
         (PatentDocument.download_options document) ->
  In odd (PatentDocument.download_options document) ->
  (forall s, DownloadOption.mime_type odd <> PStr s) ->
  UnionClient.USPTOClient.download_document
    (UnionClient.USPTOClient.__init__ api_key) fs net document save_path
    filename mime_type
  = (Raise TypeError, [])
  /\ RaisingClient.USPTOClient.download_document
       (RaisingClient.USPTOClient.__init__ api_key net) fs document save_path
       filename mime_type
     = (Raise TypeError, []).
Proof.
  intros (Hexists & Hwritable) Hnone Hin Hodd.
  unfold UnionClient.USPTOClient.download_document,
    RaisingClient.USPTOClient.download_document.
  rewrite Hexists, Hwritable, (find_none_of _ _ Hnone). cbn [negb].
  rewrite join_items_non_text; [split; reflexivity|].
  exists (DownloadOption.mime_type odd). split; [|exact Hodd].
  now apply in_map.
Qed.

(** X17 on a document whose only option was decoded from
    [{"mimeTypeIdentifier": 5, "downloadUrl": "..."}]. *)
Lemma X17_non_text_mime_type_witness :
  UnionClient.USPTOClient.download_document (R := plain_renderer)
    (UnionClient.USPTOClient.__init__ "test_api_key") sample_fs sample_network
    (PatentDocument.mk (PStr "12345678")
       (mkdatetime (mkdate 2021 1 1) 0 0 0 0 (Some 0%Z))
       (PStr "DOC1") (PStr "NOA") (PStr "Notice of Allowance") (PStr "OUTGOING")
       [DownloadOption.mk (PInt 5) (PStr "https://example.test/doc1.pdf") PNone])
    "/tmp" None "PDF"
  = (Raise TypeError, []).
Proof.
  apply (X17_non_text_mime_type (R := plain_renderer) "test_api_key" sample_fs
           sample_network _ "/tmp" None "PDF"
           (DownloadOption.mk (PInt 5) (PStr "https://example.test/doc1.pdf") PNone)).
  - split; reflexivity.
  - repeat constructor. discriminate.
  - now left.
  - discriminate.
Defined.
